(** * Demand forecast and fleet sizing of the courier-demand dashboard

    A shallow embedding of the two computations at the core of the
    dashboard, and the properties its specification states about them:

    - [calculateForecast] of [DemandForecastChart.tsx], the historical
      average / day-of-week / linear-trend forecast of next month's
      daily volumes;
    - [calculateFleetRequirements] of the fleet component
      ([FleetDemandForecast]), the truck allocation derived from it.

    The code around the two is embedded as well - the gathering of the
    history, the combined series and the axis of the chart, the summary
    cards, the manual edits and the forecast of a single terminal -
    with the properties the code itself shows.

    Numbers.  JavaScript numbers are IEEE doubles.  They are embedded
    here as exact rationals ([Q]) extended with [Infinity], [-Infinity]
    and [NaN] where the code can divide by zero.  On the inputs the
    components receive - integer counts, integer capacities, integer
    overrides, all far below 2^53 - every sum, product, remainder,
    [Math.floor (a / b)] and comparison the allocator performs is exact
    on doubles, so the embedding computes the same values.  The product
    by the literal [0.6] is the one exception: it is taken with the
    exact [6/10], which decides the same comparison as the double
    product for a capacity up to 10^15 and no longer does from about
    7.5e15 on; the statement that depends on the threshold assumes the
    bound (see [recommendTrucks]).  The signed zero is not
    represented: it is observable only through a division by a computed
    zero, and the code divides by its capacity parameters only.

    The forecast works on averages, a regression slope and a weighted
    blend, which the code computes on doubles and the embedding on
    exact rationals.  The two agree when every intermediate value is an
    integer below 2^53 - a constant history, integer averages - and can
    differ by the rounding of the doubles otherwise: a value that the
    code rounds to 43 can be rounded to 44 here.  The statements about
    the forecast are therefore about what the rounding leaves alone -
    the days of the points, the order of the band, a constant history,
    the repetition from week to week - or are restricted to integers.

    Dates.  A [Date] is valid within 10^8 days of 1 January 1970; the
    embedding of the date arithmetic gives the fields of a valid date,
    and the statements that name calendar values assume a month within
    that range ([monthInRange]). *)

From Stdlib Require Import ZArith QArith Qround Lia Lqa List Bool String Sorted.
From stdpp Require Import gmap list.

Local Open Scope Z_scope.

(** ** JavaScript numbers *)

Module JsNum.

Inductive num : Type :=
| Fin (q : Q)
| PInf
| NInf
| NaN.

(** An integer literal or integer-valued input. *)
Definition Int (z : Z) : num := Fin (inject_Z z).

(** Truncation toward zero, the rounding of the [%] operator. *)
Definition Qtrunc (q : Q) : Z := Z.quot (Qnum q) (Zpos (Qden q)).

(** [a + b] *)
Definition js_add (a b : num) : num :=
  match a, b with
  | NaN, _ | _, NaN => NaN
  | PInf, NInf | NInf, PInf => NaN
  | PInf, _ | _, PInf => PInf
  | NInf, _ | _, NInf => NInf
  | Fin x, Fin y => Fin (x + y)
  end.

(** [-a] *)
Definition js_neg (a : num) : num :=
  match a with
  | Fin x => Fin (- x)
  | PInf => NInf
  | NInf => PInf
  | NaN => NaN
  end.

(** [a - b] *)
Definition js_sub (a b : num) : num := js_add a (js_neg b).

(** The product of an infinity of sign [pos] with the finite [y]. *)
Definition inf_times (pos : bool) (y : Q) : num :=
  match (y ?= 0)%Q with
  | Eq => NaN
  | Gt => if pos then PInf else NInf
  | Lt => if pos then NInf else PInf
  end.

(** [a * b] *)
Definition js_mul (a b : num) : num :=
  match a, b with
  | NaN, _ | _, NaN => NaN
  | Fin x, Fin y => Fin (x * y)
  | PInf, Fin y | Fin y, PInf => inf_times true y
  | NInf, Fin y | Fin y, NInf => inf_times false y
  | PInf, PInf | NInf, NInf => PInf
  | PInf, NInf | NInf, PInf => NInf
  end.

(** [a / b]; a finite number divided by zero is an infinity of the
    sign of the dividend, and [0 / 0] is [NaN]. *)
Definition js_div (a b : num) : num :=
  match a, b with
  | NaN, _ | _, NaN => NaN
  | Fin x, Fin y =>
      match (y ?= 0)%Q with
      | Eq => match (x ?= 0)%Q with
              | Eq => NaN
              | Gt => PInf
              | Lt => NInf
              end
      | _ => Fin (x / y)
      end
  | Fin _, (PInf | NInf) => Fin 0
  | PInf, Fin y => if Qle_bool 0 y then PInf else NInf
  | NInf, Fin y => if Qle_bool 0 y then NInf else PInf
  | (PInf | NInf), (PInf | NInf) => NaN
  end.

(** [a % b]: the remainder has the sign of the dividend; it is [NaN]
    for a zero divisor or an infinite dividend. *)
Definition js_rem (a b : num) : num :=
  match a, b with
  | NaN, _ | _, NaN => NaN
  | (PInf | NInf), _ => NaN
  | Fin x, (PInf | NInf) => Fin x
  | Fin x, Fin y =>
      if Qeq_bool y 0 then NaN
      else Fin (x - inject_Z (Qtrunc (x / y)) * y)
  end.

(** [Math.floor] and [Math.ceil] *)
Definition js_floor (a : num) : num :=
  match a with
  | Fin x => Int (Qfloor x)
  | _ => a
  end.

Definition js_ceil (a : num) : num :=
  match a with
  | Fin x => Int (Qceiling x)
  | _ => a
  end.

(** [Math.max (a, b)]: [NaN] as soon as one argument is. *)
Definition js_max (a b : num) : num :=
  match a, b with
  | NaN, _ | _, NaN => NaN
  | PInf, _ | _, PInf => PInf
  | NInf, c | c, NInf => c
  | Fin x, Fin y => if Qle_bool x y then Fin y else Fin x
  end.

(** [a <= b] and [a > b]; every comparison with [NaN] is false. *)
Definition js_le (a b : num) : bool :=
  match a, b with
  | NaN, _ | _, NaN => false
  | NInf, _ | _, PInf => true
  | PInf, _ | _, NInf => false
  | Fin x, Fin y => Qle_bool x y
  end.

Definition js_gt (a b : num) : bool :=
  match a, b with
  | NaN, _ | _, NaN => false
  | PInf, PInf | NInf, NInf => false
  | PInf, _ | _, NInf => true
  | NInf, _ | _, PInf => false
  | Fin x, Fin y => negb (Qle_bool x y)
  end.

(** A truck count or capacity no dashboard can display: infinite, not a
    number, or negative. *)
Definition degenerate (a : num) : bool :=
  match a with
  | Fin x => negb (Qle_bool 0 x)
  | _ => true
  end.

End JsNum.

(** ** The product by 0.6 on doubles

    The one place where the allocator leaves the integers: the product
    [regularTruckCapacity * 0.6].  The literal is the double nearest to
    0.6, [5404319552844595 / 2^53]; the product of an integer capacity
    by it is an integer multiple of [2^-53], which the multiplication
    rounds to 53 significant bits, ties to the even neighbour.  It is
    embedded here, scaled by 2^53, to show on which capacities the
    exact [6/10] of [recommendTrucks] decides the same comparison. *)

Module JsDouble.

Definition six_tenths_mantissa : Z := 5404319552844595.

(** The multiple of [u] nearest to [p], the even one of two that are
    equally near. *)
Definition round_to (u p : Z) : Z :=
  let lo := p / u in
  let r := p mod u in
  if 2 * r <? u then lo * u
  else if u <? 2 * r then (lo + 1) * u
  else if Z.even lo then lo * u else (lo + 1) * u.

(** A positive integer rounded to 53 significant bits. *)
Definition round53 (p : Z) : Z :=
  let s := Z.log2 p - 52 in
  if s <=? 0 then p else round_to (2 ^ s) p.

(** [c * 0.6] on doubles, for a positive integer [c] below 2^53. *)
Definition times_six_tenths (c : Z) : Q :=
  Qmake (round53 (c * six_tenths_mantissa)) 9007199254740992.

End JsDouble.

(** ** The fleet allocator ([FleetDemandForecast]) *)

Module Fleet.
Import JsNum.

(** [interface DailyForecastData]: one forecast day as the allocator
    receives it.  The optional fields are [None] when absent. *)
Record DailyForecastData : Type := {
  day : Z;
  forecast : option Z;
  forecastMin : option Z;
  forecastMax : option Z
}.

(** [interface FleetRequirement]; [req_day] is its field [day].  The
    three last fields are optional in the source and are left out of
    the record emitted for a day without packages. *)
Record FleetRequirement : Type := {
  req_day : Z;
  packages : Z;
  regularTrucks : num;
  largeTrucks : num;
  totalTrucks : num;
  regularCapacity : num;
  largeCapacity : num;
  totalCapacity : num;
  assignedRegularTrucks : option num;
  assignedLargeTrucks : option num;
  remainingPackages : option num
}.

(** ['cost' | 'capacity'] *)
Inductive OptimizationStrategy : Type := Cost | Capacity.

(** One entry of [manualAssignments]; [handleManualAssignment] stores
    [parseInt(value) || 0], an integer of either sign. *)
Record ManualAssignment : Type := {
  regular : Z;
  large : Z
}.

(** The props and the state of the component that the allocation reads. *)
Record FleetState : Type := {
  forecastData : list DailyForecastData;
  regularTruckCapacity : Z;
  largeTruckCapacityMax : Z;
  optimizationStrategy : OptimizationStrategy;
  useLargeTrucks : bool;
  selectedTerminal : string;
  selectedDay : option Z;
  terminalSpecificData : option DailyForecastData;
  manualAssignments : gmap Z ManualAssignment
}.

(** [forecastData.find(d => d.day === selectedDay)] *)
Definition find_day (d : Z) (data : list DailyForecastData)
  : option DailyForecastData :=
  List.find (fun x => day x =? d) data.

(** A string is truthy when it is not empty. *)
Definition truthy_string (s : string) : bool :=
  match s with
  | EmptyString => false
  | _ => true
  end.

(** The days the allocation runs over. *)
Definition dataToProcess (s : FleetState) : list DailyForecastData :=
  match truthy_string (selectedTerminal s), selectedDay s,
        terminalSpecificData s with
  | true, Some _, Some tsd => [tsd]
  | true, None, Some _ => forecastData s
  | _, Some d, _ =>
      match find_day d (forecastData s) with
      | Some dayData => [dayData]
      | None => []
      end
  | _, None, _ => forecastData s
  end.

(** The heuristic recommendation for a day with packages: the pair
    [(regularTrucks, largeTrucks)] at the end of the strategy branch.
    The source also resets its local [remainingPackages] to 0 at the
    end of each branch; nothing reads it afterwards.

    [regularTruckCapacity * 0.6] is taken with the exact [6/10].  The
    double nearest to 0.6 is smaller by 0.2 / 2^53, about 2.2e-17.
    For an integer capacity [c] up to 10^15 the product is below 2^50,
    where doubles are at most 1/8 apart: the rounded product [c * 0.6]
    is [3c/5] itself when 5 divides [c], and otherwise stays strictly
    between the same two integers as [3c/5], whose fractional part is
    then between 0.2 and 0.8; the comparison with the integer
    [remainingPackages] is therefore the same.  It is not for every
    capacity: from 2^52 * 5/3, about 7.5e15, on the doubles next to the
    product are integers and the rounded product can reach the next
    integer (at capacity 7505999378950828 it is 2^52 + 1, and at
    9000000000000003 it is 5400000000000002, while [3c/5] is 0.2
    less), so that the code takes the other branch.  [JsDouble] embeds
    the product on doubles and [six_tenths_on_doubles] proves the two
    comparisons equal up to 10^15.  The statement about the threshold
    of the cost strategy assumes a capacity of 10^15 at most; the
    other statements hold whichever branch is taken. *)
Definition recommendTrucks (strategy : OptimizationStrategy)
    (useLarge : bool) (packages regularCap largeCapMax : num) : num * num :=
  let regularTrucks := Int 0 in
  let largeTrucks := Int 0 in
  let remainingPackages := packages in
  match strategy with
  | Cost =>
      let regularTrucks := js_floor (js_div remainingPackages regularCap) in
      let remainingPackages := js_rem remainingPackages regularCap in
      if js_gt remainingPackages (Int 0) then
        if useLarge && js_le remainingPackages largeCapMax then
          let regularTruckCost := js_div remainingPackages regularCap in
          if js_gt remainingPackages (js_mul regularCap (Fin (6 # 10)))
             || js_gt regularTruckCost (Int 1)
          then (regularTrucks, Int 1)
          else (js_add regularTrucks (Int 1), largeTrucks)
        else (js_add regularTrucks (Int 1), largeTrucks)
      else (regularTrucks, largeTrucks)
  | Capacity =>
      if useLarge then
        let largeTrucks := js_floor (js_div remainingPackages largeCapMax) in
        let remainingPackages := js_rem remainingPackages largeCapMax in
        if js_gt remainingPackages (Int 0) then
          if js_le remainingPackages regularCap
          then (Int 1, largeTrucks)
          else (regularTrucks, js_add largeTrucks (Int 1))
        else (regularTrucks, largeTrucks)
      else
        (js_ceil (js_div remainingPackages regularCap), largeTrucks)
  end.

(** The body of [dataToProcess.forEach]: the requirement of one day. *)
Definition requirementForDay (s : FleetState) (dayData : DailyForecastData)
  : FleetRequirement :=
  let pkgs := default 0 (forecast dayData) in
  if pkgs =? 0 then
    {| req_day := day dayData;
       packages := 0;
       regularTrucks := Int 0;
       largeTrucks := Int 0;
       totalTrucks := Int 0;
       regularCapacity := Int 0;
       largeCapacity := Int 0;
       totalCapacity := Int 0;
       assignedRegularTrucks := None;
       assignedLargeTrucks := None;
       remainingPackages := None |}
  else
    let regularCap := Int (regularTruckCapacity s) in
    let largeCapMax := Int (largeTruckCapacityMax s) in
    let '(regularTrucks_, largeTrucks_) :=
      recommendTrucks (optimizationStrategy s) (useLargeTrucks s)
                      (Int pkgs) regularCap largeCapMax in
    let regularCapacity_ := js_mul regularTrucks_ regularCap in
    let largeCapacity_ := js_mul largeTrucks_ largeCapMax in
    let totalCapacity_ := js_add regularCapacity_ largeCapacity_ in
    let totalTrucks_ := js_add regularTrucks_ largeTrucks_ in
    let manual := manualAssignments s !! day dayData in
    let assignedRegular :=
      match manual with
      | Some m => Int (regular m)
      | None => regularTrucks_
      end in
    let assignedLarge :=
      match manual with
      | Some m => Int (large m)
      | None => largeTrucks_
      end in
    let assignedCapacity :=
      js_add (js_mul assignedRegular regularCap)
             (js_mul assignedLarge largeCapMax) in
    let finalRemainingPackages :=
      js_max (Int 0) (js_sub (Int pkgs) assignedCapacity) in
    {| req_day := day dayData;
       packages := pkgs;
       regularTrucks := regularTrucks_;
       largeTrucks := largeTrucks_;
       totalTrucks := totalTrucks_;
       regularCapacity := regularCapacity_;
       largeCapacity := largeCapacity_;
       totalCapacity := totalCapacity_;
       assignedRegularTrucks := Some assignedRegular;
       assignedLargeTrucks := Some assignedLarge;
       remainingPackages := Some finalRemainingPackages |}.

(** [calculateFleetRequirements]: the list handed to
    [setFleetRequirements]. *)
Definition calculateFleetRequirements (s : FleetState)
  : list FleetRequirement :=
  List.map (requirementForDay s) (dataToProcess s).

(** How the summary and the chart read a requirement:
    [r.remainingPackages || 0] and
    [r.assignedRegularTrucks !== undefined ? r.assignedRegularTrucks
                                           : r.regularTrucks]. *)
Definition shownRemaining (r : FleetRequirement) : num :=
  match remainingPackages r with
  | Some (Fin q) => if Qeq_bool q 0 then Int 0 else Fin q
  | Some NaN | None => Int 0
  | Some other => other
  end.

Definition shownRegularTrucks (r : FleetRequirement) : num :=
  default (regularTrucks r) (assignedRegularTrucks r).

Definition shownLargeTrucks (r : FleetRequirement) : num :=
  default (largeTrucks r) (assignedLargeTrucks r).

(** The cost strategy as the specification words it, with the single
    test [remainder > 0.6 * regularCapacity]; the capacity strategy is
    shared with [recommendTrucks]. *)
Definition recommendTrucks_simplified (strategy : OptimizationStrategy)
    (useLarge : bool) (packages regularCap largeCapMax : num) : num * num :=
  match strategy with
  | Cost =>
      let regularTrucks := js_floor (js_div packages regularCap) in
      let remainder := js_rem packages regularCap in
      if js_gt remainder (Int 0) then
        if useLarge && js_le remainder largeCapMax then
          if js_gt remainder (js_mul regularCap (Fin (6 # 10)))
          then (regularTrucks, Int 1)
          else (js_add regularTrucks (Int 1), Int 0)
        else (js_add regularTrucks (Int 1), Int 0)
      else (regularTrucks, Int 0)
  | Capacity => recommendTrucks Capacity useLarge packages regularCap largeCapMax
  end.

End Fleet.

(** ** JavaScript dates

    Only the civil date of a [Date] matters to the forecast: it builds
    dates at local midnight and reads back the day of the week and the
    day of the month in the same local time.  A date is therefore
    represented by its day number, the count of days since 1 January
    1970, following the day arithmetic of the language definition
    ([MakeDay], [WeekDay], [DateFromTime]) in the proleptic Gregorian
    calendar.  Two limits of [Date] are left out of the functions: its
    range, 10^8 days either side of 1970, beyond which a date is
    invalid, its fields are [NaN] and the loops over the days of a
    month do nothing; and the local days that a change of time zone
    removes from the calendar.  The functions give the fields of a
    valid date; [monthInRange] is the range, and the statements that
    name calendar values assume it. *)

Module JsDate.

Definition InLeapYear (y : Z) : bool :=
  ((y mod 4 =? 0) && negb (y mod 100 =? 0)) || (y mod 400 =? 0).

(** The day number of 1 January of year [y]. *)
Definition DayFromYear (y : Z) : Z :=
  365 * (y - 1970) + (y - 1969) / 4 - (y - 1901) / 100 + (y - 1601) / 400.

(** The days of a year that precede its month [m], counted from 0. *)
Definition DaysBeforeMonth (leap : bool) (m : Z) : Z :=
  let l := if leap then 1 else 0 in
  match m with
  | 0 => 0
  | 1 => 31
  | 2 => 59 + l
  | 3 => 90 + l
  | 4 => 120 + l
  | 5 => 151 + l
  | 6 => 181 + l
  | 7 => 212 + l
  | 8 => 243 + l
  | 9 => 273 + l
  | 10 => 304 + l
  | _ => 334 + l
  end.

(** [MakeDay]: a month index outside 0..11 carries into the year, a day
    of the month outside the month carries into the neighbouring
    months. *)
Definition MakeDay (year month date : Z) : Z :=
  let ym := year + month / 12 in
  let mn := month mod 12 in
  DayFromYear ym + DaysBeforeMonth (InLeapYear ym) mn + date - 1.

(** [WeekDay]: 0 is Sunday, 6 is Saturday; day 0 was a Thursday. *)
Definition WeekDay (d : Z) : Z := (d + 4) mod 7.

(** The year a day falls in: the largest [y] with [DayFromYear y <= d],
    found next to the estimate given by the mean length of a year. *)
Definition YearFromDay (d : Z) : Z :=
  let e := 1970 + (400 * d) / 146097 in
  if DayFromYear (e + 1) <=? d then e + 1
  else if DayFromYear e <=? d then e
  else e - 1.

Definition DayWithinYear (d : Z) : Z := d - DayFromYear (YearFromDay d).

Definition MonthFromDay (d : Z) : Z :=
  let leap := InLeapYear (YearFromDay d) in
  let w := DayWithinYear d in
  if w <? DaysBeforeMonth leap 1 then 0
  else if w <? DaysBeforeMonth leap 2 then 1
  else if w <? DaysBeforeMonth leap 3 then 2
  else if w <? DaysBeforeMonth leap 4 then 3
  else if w <? DaysBeforeMonth leap 5 then 4
  else if w <? DaysBeforeMonth leap 6 then 5
  else if w <? DaysBeforeMonth leap 7 then 6
  else if w <? DaysBeforeMonth leap 8 then 7
  else if w <? DaysBeforeMonth leap 9 then 8
  else if w <? DaysBeforeMonth leap 10 then 9
  else if w <? DaysBeforeMonth leap 11 then 10
  else 11.

(** [DateFromTime]: the day of the month, from 1. *)
Definition DateFromDay (d : Z) : Z :=
  DayWithinYear d
  - DaysBeforeMonth (InLeapYear (YearFromDay d)) (MonthFromDay d) + 1.

(** The year a [Date] constructor takes for its first argument: a year
    from 0 to 99 stands for 1900 to 1999. *)
Definition fullYear (year : Z) : Z :=
  if (0 <=? year) && (year <=? 99) then 1900 + year else year.

(** [new Date(year, monthIndex, day)] *)
Definition new_Date (year monthIndex day : Z) : Z :=
  MakeDay (fullYear year) monthIndex day.

(** [date.getDay()] and [date.getDate()] *)
Definition getDay (date : Z) : Z := WeekDay date.
Definition getDate (date : Z) : Z := DateFromDay date.

(** The length of the month [m], counted from 1, in the Gregorian
    calendar: the table the date arithmetic is checked against. *)
Definition monthLength (leap : bool) (m : Z) : Z :=
  match m with
  | 2 => if leap then 29 else 28
  | 4 | 6 | 9 | 11 => 30
  | _ => 31
  end.

(** The range of [Date].  A time value is valid within 8.64e15
    milliseconds, 10^8 days, of the epoch: from 20 April of the year
    -271821 to 13 September of the year 275760.  [monthInRange year
    monthIndex] holds when the month reached from January of [year] by
    [monthIndex] months falls in a year from -271820 to 275759, every
    day of which is in the range, whatever the time zone. *)
Definition monthInRange (year monthIndex : Z) : bool :=
  let ym := fullYear year + monthIndex / 12 in
  (-271820 <=? ym) && (ym <=? 275759).

End JsDate.

(** ** The forecast engine ([DemandForecastChart])

    The forecast works on averages, which are not integers.  Its
    numbers are embedded as exact rationals: no division by zero can
    occur (every division is guarded by a length test, and the
    denominator of the regression slope is positive for two months or
    more), so no infinity or [NaN] arises.  The code computes the same
    expressions on doubles: the results are the same when every
    intermediate value is an integer below 2^53, and otherwise within
    the rounding of the doubles, which [Math.round] can turn into a
    difference of one package (a month with two observations, of 1 and
    of 51 packages, gives 43 and a minimum of 18 in the code on the day
    of the week of the second, 44 and 19 here).  [Math.sqrt] has no exact
    rational counterpart; it is a parameter of the embedding, of which
    the properties below use at most that it returns a non-negative
    number on a non-negative argument. *)

Module Forecast.
Import JsDate.

(** [interface DailyData]: a historical observation carries [day] and
    [value]; a forecast point carries the three forecast fields too. *)
Record DailyData : Type := {
  day : Z;
  value : Z;
  forecast : option Z;
  forecastMin : option Z;
  forecastMax : option Z
}.

(** [type DayTypeFilter = 'all' | 'weekday' | 'weekend'] *)
Inductive DayTypeFilter : Type := All | Weekday | Weekend.

(** An entry of [historicalMeta]. *)
Record Meta : Type := {
  year : Z;
  month : Z
}.

(** [isWeekend] *)
Definition isWeekend (year month day : Z) : bool :=
  let date := new_Date year (month - 1) day in
  let dayOfWeek := getDay date in
  (dayOfWeek =? 0) || (dayOfWeek =? 6).

(** [filterByDayType] *)
Definition filterByDayType (data : list DailyData) (year month : Z)
    (filter : DayTypeFilter) : list DailyData :=
  match filter with
  | All => data
  | Weekend => List.filter (fun d => isWeekend year month (day d)) data
  | Weekday => List.filter (fun d => negb (isWeekend year month (day d))) data
  end.

(** [values.reduce((a, b) => a + b, 0)] *)
Definition sumValues (values : list Q) : Q := fold_left Qplus values 0%Q.

(** [array.reduce((acc, val, idx) => f(acc, val, idx), init)], with the
    index of the first element as a parameter. *)
Fixpoint reduce_indexed {A B : Type} (f : B -> A -> nat -> B) (idx : nat)
    (l : list A) (acc : B) : B :=
  match l with
  | [] => acc
  | x :: l' => reduce_indexed f (S idx) l' (f acc x idx)
  end.

(** [array.length] as a number. *)
Definition len {A : Type} (l : list A) : Q := inject_Z (Z.of_nat (length l)).

(** [Math.round]: the nearest integer, a half rounding up. *)
Definition Math_round (x : Q) : Z := Qfloor (x + (1 # 2)).

(** [values.length > 0 ? sum / values.length : otherwise] *)
Definition average_or (otherwise : Q) (values : list Q) : Q :=
  if (0 <? length values)%nat then (sumValues values / len values)%Q
  else otherwise.

(** [data.map(d => d.value).filter(v => v > 0)] *)
Definition positiveValues (data : list DailyData) : list Q :=
  List.map inject_Z (List.filter (fun v => 0 <? v) (List.map value data)).

(** The historical months, each filtered by day type when its meta
    entry exists. *)
Definition filteredHistorical (historical : list (list DailyData))
    (historicalMeta : list Meta) (filter : DayTypeFilter)
  : list (list DailyData) :=
  imap (fun idx monthData =>
          match historicalMeta !! idx with
          | Some meta => filterByDayType monthData (year meta) (month meta)
                                         filter
          | None => monthData
          end) historical.

Definition allValues (filtered : list (list DailyData)) : list Q :=
  positiveValues (concat filtered).

Definition overallAverage (filtered : list (list DailyData)) : Q :=
  average_or 0 (allValues filtered).

Definition monthlyAverages (filtered : list (list DailyData)) : list Q :=
  List.map (fun monthData => average_or 0 (positiveValues monthData))
           filtered.

(** The slope of the least-squares line through the monthly averages,
    by month number 1..n.  The sums and the quotient are exact here;
    on doubles they are exact for integer averages whose sums stay
    below 2^53, and rounded otherwise. *)
Definition trend (averages : list Q) : Q :=
  if (1 <? length averages)%nat then
    let n := len averages in
    let sumX := (n * (n + 1) / 2)%Q in
    let sumY := sumValues averages in
    let sumXY :=
      reduce_indexed
        (fun acc val idx => (acc + inject_Z (Z.of_nat idx + 1) * val)%Q)
        0%nat averages 0%Q in
    let sumXX := (n * (n + 1) * (2 * n + 1) / 6)%Q in
    ((n * sumXY - sumX * sumY) / (n * sumXX - sumX * sumX))%Q
  else 0%Q.

(** One step of the inner [forEach]: the bucket of the day of the week
    is created if missing, and receives the value when positive. *)
Definition recordDay (meta : Meta) (patterns : gmap Z (list Q))
    (d : DailyData) : gmap Z (list Q) :=
  let date := new_Date (year meta) (month meta - 1) (day d) in
  let dayOfWeek := getDay date in
  let patterns :=
    match patterns !! dayOfWeek with
    | Some _ => patterns
    | None => <[dayOfWeek := []]> patterns
    end in
  if 0 <? value d
  then alter (fun bucket => bucket ++ [inject_Z (value d)]) dayOfWeek patterns
  else patterns.

Definition dayOfWeekPatterns (filtered : list (list DailyData))
    (historicalMeta : list Meta) : gmap Z (list Q) :=
  reduce_indexed
    (fun patterns monthData idx =>
       match historicalMeta !! idx with
       | Some meta => fold_left (recordDay meta) monthData patterns
       | None => patterns
       end)
    0%nat filtered ∅.

Definition dayOfWeekAverages (patterns : gmap Z (list Q)) (overall : Q)
  : gmap Z Q :=
  average_or overall <$> patterns.

(** The buckets of a history whose observations all have the value
    [v]: they hold nothing else. *)
Definition buckets_hold (v : Z) (patterns : gmap Z (list Q)) : Prop :=
  map_Forall (fun _ bucket => List.Forall (fun a => a == inject_Z v)%Q bucket)
             patterns.

Section WithSqrt.

Variable Math_sqrt : Q -> Q.

(** The spread of the pooled values, or a fifth of the average for
    fewer than two values. *)
Definition stdDev (values : list Q) (overall : Q) : Q :=
  if (1 <? length values)%nat then
    Math_sqrt
      (fold_left (fun acc val => acc + (val - overall) ^ 2) values 0
       / len values)%Q
  else (overall * (2 # 10))%Q.

(** [calculateForecast] *)
Definition calculateForecast (historical : list (list DailyData))
    (historicalMeta : list Meta) (filter : DayTypeFilter)
    (targetYear targetMonth : Z) : list DailyData :=
  match historical with
  | [] => []
  | _ =>
    let forecastYear := targetYear in
    let forecastMonth := targetMonth in
    let daysInForecastMonth := getDate (new_Date forecastYear forecastMonth 0) in
    let filtered := filteredHistorical historical historicalMeta filter in
    let values := allValues filtered in
    let overall := overallAverage filtered in
    let slope := trend (monthlyAverages filtered) in
    let averages :=
      dayOfWeekAverages (dayOfWeekPatterns filtered historicalMeta) overall in
    omap
      (fun day =>
         let date := new_Date forecastYear (forecastMonth - 1) day in
         let dayOfWeek := getDay date in
         let isWeekendDay := (dayOfWeek =? 0) || (dayOfWeek =? 6) in
         match filter, isWeekendDay with
         | Weekend, false => None
         | Weekday, true => None
         | _, _ =>
           let baseForecast := (overall + slope * (len filtered + 1))%Q in
           let forecastValue :=
             match averages !! dayOfWeek with
             | Some a =>
                 if Qeq_bool a 0 then baseForecast
                 else (a * (7 # 10) + baseForecast * (3 # 10))%Q
             | None => baseForecast
             end in
           let sd := stdDev values overall in
           Some {| day := day;
                   value := 0;
                   forecast := Some (Z.max 0 (Math_round forecastValue));
                   forecastMin :=
                     Some (Z.max 0 (Math_round (forecastValue - sd)));
                   forecastMax :=
                     Some (Z.max 0 (Math_round (forecastValue + sd))) |}
         end)
      (seqZ 1 daysInForecastMonth)
  end.

End WithSqrt.

End Forecast.

(** ** Scenarios of the specification *)

Module Scenarios.
Import JsNum Fleet.

(** A forecast day carrying [p] packages. *)
Definition forecast_day (n p : Z) : DailyForecastData :=
  {| day := n; forecast := Some p; forecastMin := None; forecastMax := None |}.

(** The component with no terminal and no day selected, so that the
    allocation runs over the whole of [data]. *)
Definition fleet_state (data : list DailyForecastData) (rc lc : Z)
    (strategy : OptimizationStrategy) (useLarge : bool)
    (overrides : gmap Z ManualAssignment) : FleetState :=
  {| forecastData := data;
     regularTruckCapacity := rc;
     largeTruckCapacityMax := lc;
     optimizationStrategy := strategy;
     useLargeTrucks := useLarge;
     selectedTerminal := EmptyString;
     selectedDay := None;
     terminalSpecificData := None;
     manualAssignments := overrides |}.

(** The default capacities of the props: 2200 and 2800. *)
Definition default_state (data : list DailyForecastData)
    (strategy : OptimizationStrategy) (useLarge : bool)
    (overrides : gmap Z ManualAssignment) : FleetState :=
  fleet_state data 2200 2800 strategy useLarge overrides.

End Scenarios.

Module ForecastScenarios.
Import Forecast.

(** A historical observation. *)
Definition observation (d v : Z) : DailyData :=
  {| day := d; value := v;
     forecast := None; forecastMin := None; forecastMax := None |}.

(** An integer square root, standing for [Math.sqrt] where a scenario
    is evaluated. *)
Definition integer_sqrt (x : Q) : Q := inject_Z (Z.sqrt (Qfloor x)).

(** Two months of history, September and October 2025: the first has
    its only observation on Wednesday 3 September, the second on
    Saturday 4 October, both of 5 packages. *)
Definition two_months : list (list DailyData) :=
  [[observation 3 5]; [observation 4 5]].

Definition two_months_meta : list Meta :=
  [{| year := 2025; month := 9 |}; {| year := 2025; month := 10 |}].

(** One month of history, October 2025, with 120 packages on each of
    its first three days (Wednesday to Friday). *)
Definition steady_month : list (list DailyData) :=
  [[observation 1 120; observation 2 120; observation 3 120]].

Definition steady_month_meta : list Meta :=
  [{| year := 2025; month := 10 |}].

(** The same three days with 100, 140 and 120 packages. *)
Definition varied_month : list (list DailyData) :=
  [[observation 1 100; observation 2 140; observation 3 120]].

End ForecastScenarios.

(** ** The rest of the fleet component

    What the component computes around the allocation: the summary
    cards, the axis of its chart, the manual edits of the assignment
    table and the forecast of a single terminal. *)

Module FleetSummary.
Import JsNum Fleet.

(** The integer part of a finite number; the statements about the
    summary read integer-valued results through it. *)
Definition intValue (a : num) : Z :=
  match a with
  | Fin q => Qfloor q
  | _ => 0
  end.

(** [reqs.reduce((sum, r) => sum + r.packages, 0)] *)
Definition totalPackages (reqs : list FleetRequirement) : Z :=
  fold_left (fun sum r => sum + packages r) reqs 0.

Definition totalRegularTrucks (reqs : list FleetRequirement) : num :=
  fold_left (fun sum r => js_add sum (shownRegularTrucks r)) reqs (Int 0).

Definition totalLargeTrucks (reqs : list FleetRequirement) : num :=
  fold_left (fun sum r => js_add sum (shownLargeTrucks r)) reqs (Int 0).

Definition totalTrucks (reqs : list FleetRequirement) : num :=
  js_add (totalRegularTrucks reqs) (totalLargeTrucks reqs).

Definition totalAssignedCapacity (regularCap largeCapMax : Z)
    (reqs : list FleetRequirement) : num :=
  js_add (js_mul (totalRegularTrucks reqs) (Int regularCap))
         (js_mul (totalLargeTrucks reqs) (Int largeCapMax)).

Definition totalRemainingPackages (reqs : list FleetRequirement) : num :=
  fold_left (fun sum r => js_add sum (shownRemaining r)) reqs (Int 0).

Definition totalAdditionalCapacity (regularCap largeCapMax : Z)
    (reqs : list FleetRequirement) : num :=
  let assigned := totalAssignedCapacity regularCap largeCapMax reqs in
  if js_gt assigned (Int (totalPackages reqs))
  then js_sub assigned (Int (totalPackages reqs))
  else Int 0.

(** The trucks a requirement shows: assigned regular plus assigned
    large. *)
Definition shownTotalTrucks (r : FleetRequirement) : num :=
  js_add (shownRegularTrucks r) (shownLargeTrucks r).

(** [peakDay]; [None] stands for the literal [{ day: 0, totalTrucks: 0 }]
    that an empty list yields. *)
Definition peakDay (reqs : list FleetRequirement) : option FleetRequirement :=
  match reqs with
  | [] => None
  | first :: _ =>
      Some (fold_left
              (fun max r =>
                 if js_gt (shownTotalTrucks r) (shownTotalTrucks max)
                 then r else max)
              reqs first)
  end.

(** [averageDailyTrucks] *)
Definition averageDailyTrucks (reqs : list FleetRequirement) : num :=
  if (0 <? length reqs)%nat
  then js_div (totalTrucks reqs) (Int (Z.of_nat (length reqs)))
  else Int 0.

(** [a || b] on an optional number: [undefined], 0 and [NaN] give way
    to [b]. *)
Definition js_or (a : option num) (b : num) : num :=
  match a with
  | Some (Fin q) => if Qeq_bool q 0 then b else Fin q
  | Some NaN | None => b
  | Some other => other
  end.

(** [Math.max(...reqs.map(r => (r.assignedRegularTrucks || r.regularTrucks)
                             + (r.assignedLargeTrucks || r.largeTrucks)), 0)] *)
Definition maxTrucks (reqs : list FleetRequirement) : num :=
  fold_right js_max (Int 0)
    (List.map
       (fun r => js_add (js_or (assignedRegularTrucks r) (regularTrucks r))
                        (js_or (assignedLargeTrucks r) (largeTrucks r)))
       reqs).

(** [Math.ceil(maxTrucks / 5) * 5 || 10] *)
Definition yAxisMax (reqs : list FleetRequirement) : num :=
  js_or (Some (js_mul (js_ceil (js_div (maxTrucks reqs) (Int 5))) (Int 5)))
        (Int 10).

(** What a requirement computed with positive capacities is made of:
    integers, a recommendation that covers the packages, and the
    deficit of the assigned trucks. *)
Record integer_view (rc lc : Z) (r : FleetRequirement)
    (aR aL R L : Z) : Prop := {
  view_regular : shownRegularTrucks r = Int aR;
  view_large : shownLargeTrucks r = Int aL;
  view_remaining :
    shownRemaining r = Int (Z.max 0 (packages r - (aR * rc + aL * lc)));
  view_packages : 0 <= packages r;
  view_recommended : regularTrucks r = Int R /\ largeTrucks r = Int L;
  view_covers : 0 <= R /\ 0 <= L /\ packages r <= R * rc + L * lc;
  view_assigned_regular :
    assignedRegularTrucks r = None /\ aR = R
    \/ assignedRegularTrucks r = Some (Int aR);
  view_assigned_large :
    assignedLargeTrucks r = None /\ aL = L
    \/ assignedLargeTrucks r = Some (Int aL)
}.

End FleetSummary.

Module FleetEdits.
Import JsNum Fleet.

(** ['regular' | 'large'] *)
Inductive TruckType : Type := RegularType | LargeType.

Section WithParseInt.

(** [parseInt], with [None] for [NaN]. *)
Variable parseInt : string -> option Z.

(** [handleManualAssignment]: the new value of [manualAssignments]. *)
Definition handleManualAssignment (day : Z) (type : TruckType)
    (value : string) (prev : gmap Z ManualAssignment)
  : gmap Z ManualAssignment :=
  let numValue := default 0 (parseInt value) in
  <[ day :=
       {| regular := match type with
                     | RegularType => numValue
                     | LargeType => default 0 (regular <$> prev !! day)
                     end;
          large := match type with
                   | LargeType => numValue
                   | RegularType => default 0 (large <$> prev !! day)
                   end |} ]> prev.

End WithParseInt.

(** The component after [setManualAssignments]. *)
Definition withManualAssignments (s : FleetState)
    (assignments : gmap Z ManualAssignment) : FleetState :=
  {| forecastData := forecastData s;
     regularTruckCapacity := regularTruckCapacity s;
     largeTruckCapacityMax := largeTruckCapacityMax s;
     optimizationStrategy := optimizationStrategy s;
     useLargeTrucks := useLargeTrucks s;
     selectedTerminal := selectedTerminal s;
     selectedDay := selectedDay s;
     terminalSpecificData := terminalSpecificData s;
     manualAssignments := assignments |}.

(** A reader of unsigned decimal numerals, standing for [parseInt]
    where a scenario is evaluated. *)
Fixpoint read_digits (acc : option Z) (s : string) : option Z :=
  match s with
  | EmptyString => acc
  | String c rest =>
      let n := Z.of_nat (Ascii.nat_of_ascii c) in
      if (48 <=? n) && (n <=? 57)
      then read_digits (Some (10 * default 0 acc + (n - 48))) rest
      else acc
  end.

Definition read_decimal (s : string) : option Z := read_digits None s.

End FleetEdits.

Module JsDateFields.
Import JsDate.

(** [date.getMonth()], from 0, and [date.getFullYear()] *)
Definition getMonth (date : Z) : Z := MonthFromDay date.

Definition getFullYear (date : Z) : Z := YearFromDay date.

(** [date.setMonth(month)]: the same year and day of the month, the
    month index carried into the year when outside 0..11. *)
Definition setMonth (date month : Z) : Z :=
  MakeDay (YearFromDay date) month (DateFromDay date).

End JsDateFields.

Module TerminalForecast.
Import JsDate JsDateFields.

Section WithFetch.

(** The daily counts of a terminal for a month and a year, as the API
    returns them; [None] when the request fails, is refused or carries
    no data. *)
Variable fetchDaily : Z -> Z -> option (list Forecast.DailyData).

(** The positive values recorded for [day] in the three months before
    the selected one, the most recent month first. *)
Definition historicalData (selectedYear selectedMonth day : Z) : list Z :=
  fold_left
    (fun historicalData i =>
       let date := new_Date selectedYear (selectedMonth - 1 - i) 1 in
       let month := getMonth date + 1 in
       let year := getFullYear date in
       match fetchDaily month year with
       | Some data =>
           match List.find (fun d => Forecast.day d =? day) data with
           | Some dayData =>
               if 0 <? Forecast.value dayData
               then historicalData ++ [Forecast.value dayData]
               else historicalData
           | None => historicalData
           end
       | None => historicalData
       end)
    [1; 2; 3] [].

(** The forecast of a day: the rounded average of its historical
    values, 0 without any. *)
Definition dayForecast (values : list Z) : Z :=
  if (0 <? length values)%nat
  then Forecast.Math_round
         (inject_Z (fold_left Z.add values 0)
          / inject_Z (Z.of_nat (length values)))
  else 0.

(** [forecastDataForMonth], stored as [terminalMonthData]. *)
Definition terminalMonthData (selectedYear selectedMonth : Z)
  : list Fleet.DailyForecastData :=
  let daysInMonth := getDate (new_Date selectedYear selectedMonth 0) in
  List.map
    (fun day =>
       {| Fleet.day := day;
          Fleet.forecast :=
            Some (dayForecast (historicalData selectedYear selectedMonth day));
          Fleet.forecastMin := None;
          Fleet.forecastMax := None |})
    (seqZ 1 daysInMonth).

(** [terminalSpecificData] after the fetch. *)
Definition terminalSpecificData (selectedYear selectedMonth : Z)
    (selectedDay : option Z) : option Fleet.DailyForecastData :=
  match selectedDay with
  | Some d =>
      List.find (fun x => Fleet.day x =? d)
                (terminalMonthData selectedYear selectedMonth)
  | None => None
  end.

End WithFetch.

End TerminalForecast.

(** ** The rest of the forecast chart

    What [DemandForecastChart] does around [calculateForecast]: it
    gathers the history month by month, lays the forecast over the last
    month of the history, scales the axis and sums the forecast up. *)

Module ForecastChart.
Import JsDate JsDateFields Forecast.

(** The months requested, the oldest first: for [i] from
    [selectedMonths - 1] down to 0, the month [i + 1] months before
    the forecast month. *)
Definition historyWindow (forecastYear forecastMonth selectedMonths : Z)
  : list Meta :=
  let forecastDate := new_Date forecastYear (forecastMonth - 1) 1 in
  List.map
    (fun i =>
       let date := setMonth forecastDate (getMonth forecastDate - i - 1) in
       let month := getMonth date + 1 in
       let year := getFullYear date in
       {| year := year; month := month |})
    (reverse (seqZ 0 selectedMonths)).

(** [result.data && result.data.length > 0
     && result.data.some(d => d.value > 0)] *)
Definition hasData (data : list DailyData) : bool :=
  (0 <? length data)%nat && existsb (fun d => 0 <? value d) data.

Section WithFetch.

(** The daily counts of a month and a year, as the API returns them
    for the selected terminal; [None] when the request fails, is
    refused or carries no data. *)
Variable fetchDaily : Z -> Z -> option (list DailyData).

(** [historicalMonths] and [historicalMonthsMeta] after the loop. *)
Definition fetchHistoricalMonths
    (forecastYear forecastMonth selectedMonths : Z)
  : list (list DailyData) * list Meta :=
  fold_left
    (fun '(historicalMonths, historicalMonthsMeta) meta =>
       match fetchDaily (month meta) (year meta) with
       | Some data =>
           if hasData data
           then (historicalMonths ++ [data], historicalMonthsMeta ++ [meta])
           else (historicalMonths, historicalMonthsMeta)
       | None => (historicalMonths, historicalMonthsMeta)
       end)
    (historyWindow forecastYear forecastMonth selectedMonths)
    ([], []).

End WithFetch.

(** What the chart keeps in its state after a load. *)
Record ChartData : Type := {
  forecastData : list DailyData;
  historicalData : list DailyData;
  combinedData : list DailyData;
  maxValue : Z
}.

(** [lastMonthMeta]: the last entry of the meta list, or the month
    before the forecast month when there is none. *)
Definition lastMonthMeta (historicalMonthsMeta : list Meta)
    (forecastYear forecastMonth : Z) : Meta :=
  match last historicalMonthsMeta with
  | Some meta => meta
  | None =>
      let forecastDate := new_Date forecastYear (forecastMonth - 1) 1 in
      let forecastDate := setMonth forecastDate (getMonth forecastDate - 1) in
      {| year := getFullYear forecastDate;
         month := getMonth forecastDate + 1 |}
  end.

(** [a || b] on numbers. *)
Definition or_else (a b : Z) : Z := if a =? 0 then b else a.

(** The body of the loop that lays the last month and the forecast side
    by side: the point pushed for [day], if any. *)
Definition combinedPoint (filteredLastMonthData forecast : list DailyData)
    (meta : Meta) (filter : DayTypeFilter) (forecastYear forecastMonth : Z)
    (day : Z) : option DailyData :=
  let historicalDay :=
    List.find (fun d => Forecast.day d =? day) filteredLastMonthData in
  let forecastDay :=
    List.find (fun d => Forecast.day d =? day) forecast in
  let checkYear :=
    match forecastDay with
    | Some _ => forecastYear
    | None => or_else (year meta) forecastYear
    end in
  let checkMonth :=
    match forecastDay with
    | Some _ => forecastMonth
    | None => or_else (month meta) forecastMonth
    end in
  let isWeekendDay := isWeekend checkYear checkMonth day in
  let shouldInclude :=
    match filter with
    | Weekend => isWeekendDay
    | Weekday => negb isWeekendDay
    | All => true
    end in
  if shouldInclude && (bool_decide (is_Some historicalDay)
                       || bool_decide (is_Some forecastDay))
  then Some {| day := day;
               value := default 0 (value <$> historicalDay);
               forecast := forecastDay ≫= Forecast.forecast;
               forecastMin := forecastDay ≫= forecastMin;
               forecastMax := forecastDay ≫= forecastMax |}
  else None.

(** The loop over the days 1 to [maxDays]. *)
Definition combine (filteredLastMonthData forecast : list DailyData)
    (meta : Meta) (filter : DayTypeFilter) (forecastYear forecastMonth : Z)
  : list DailyData :=
  let daysInLastMonth := getDate (new_Date (year meta) (month meta) 0) in
  let daysInForecastMonth := getDate (new_Date forecastYear forecastMonth 0) in
  let maxDays := Z.max daysInLastMonth daysInForecastMonth in
  omap
    (combinedPoint filteredLastMonthData forecast meta filter
                   forecastYear forecastMonth)
    (seqZ 1 maxDays).

(** [Math.max(...values)] of a list that is not empty, 320 otherwise,
    rounded up to a multiple of 80; 320 again if that is 0. *)
Definition axisMaximum (combined forecast : list DailyData) : Z :=
  let allValues :=
    List.map value combined
    ++ List.map (fun d => default 0 (Forecast.forecast d)) forecast
    ++ List.map (fun d => default 0 (forecastMax d)) forecast in
  let max :=
    match allValues with
    | [] => 320
    | v :: rest => fold_left Z.max rest v
    end in
  or_else (Qceiling (inject_Z max / 80) * 80) 320.

Section WithSqrt.

Variable Math_sqrt : Q -> Q.

(** The state after the history has been gathered. *)
Definition loadChart (historicalMonths : list (list DailyData))
    (historicalMonthsMeta : list Meta) (filter : DayTypeFilter)
    (forecastYear forecastMonth : Z) : ChartData :=
  match historicalMonths with
  | [] =>
      {| forecastData := []; historicalData := []; combinedData := [];
         maxValue := 320 |}
  | _ =>
      let forecast :=
        calculateForecast Math_sqrt historicalMonths historicalMonthsMeta
                          filter forecastYear forecastMonth in
      let lastMonthData := default [] (last historicalMonths) in
      let meta := lastMonthMeta historicalMonthsMeta forecastYear
                                forecastMonth in
      let filteredLastMonthData :=
        filterByDayType lastMonthData (year meta) (month meta) filter in
      let combined :=
        combine filteredLastMonthData forecast meta filter forecastYear
                forecastMonth in
      {| forecastData := forecast;
         historicalData := filteredLastMonthData;
         combinedData := combined;
         maxValue := axisMaximum combined forecast |}
  end.

End WithSqrt.

(** The ticks pushed by the loop from [i], at most [fuel] of them. *)
Fixpoint ticksFrom (fuel : nat) (i maxValue step : Z) : list Z :=
  match fuel with
  | O => []
  | S fuel' =>
      if i <=? maxValue
      then i :: ticksFrom fuel' (i + step) maxValue step
      else []
  end.

(** [yAxisTicks]; a step is at least 80, so the loop pushes fewer
    ticks than [maxValue + 1]. *)
Definition yAxisTicks (maxValue : Z) : list Z :=
  let step := Z.max 80 (Qceiling (inject_Z maxValue / 4)) in
  ticksFrom (Z.to_nat maxValue + 1) 0 maxValue step.

(** The forecast summary. *)
Definition totalForecasted (forecastData : list DailyData) : Z :=
  fold_left (fun sum d => sum + default 0 (Forecast.forecast d))
            forecastData 0.

Definition dailyAverage (forecastData : list DailyData) : Z :=
  Math_round (inject_Z (totalForecasted forecastData) / len forecastData).

(** The index kept by the reduction of the peak day, and the day the
    card prints: that index plus one. *)
Definition peakIndex (forecastData : list DailyData) : nat :=
  reduce_indexed
    (fun max d idx =>
       if default 0 (forecastData !! max ≫= Forecast.forecast)
          <? default 0 (Forecast.forecast d)
       then idx else max)
    0%nat forecastData 0%nat.

Definition peakDayLabel (forecastData : list DailyData) : Z :=
  Z.of_nat (peakIndex forecastData) + 1.

End ForecastChart.

(** * Properties *)

(** ** Integer arithmetic of [JsNum] *)

(** Case analysis on every integer comparison of the goal. *)
Ltac cases_on_comparisons :=
  repeat match goal with
    | |- context [?a <=? ?b] => destruct (Z.leb_spec a b)
    | |- context [?a <? ?b] => destruct (Z.ltb_spec a b)
    | |- context [?a =? ?b] => destruct (Z.eqb_spec a b)
    end.

Section IntegerArithmetic.
Import JsNum.

Lemma Qle_bool_inject_Z (a b : Z) :
  Qle_bool (inject_Z a) (inject_Z b) = (a <=? b).
Proof.
  unfold Qle_bool, inject_Z; simpl. now rewrite !Z.mul_1_r.
Qed.

Lemma Qcompare_inject_Z (a b : Z) :
  (inject_Z a ?= inject_Z b)%Q = (a ?= b).
Proof.
  unfold Qcompare, inject_Z; simpl. now rewrite !Z.mul_1_r.
Qed.

Lemma Qeq_bool_inject_Z (a b : Z) :
  Qeq_bool (inject_Z a) (inject_Z b) = (a =? b).
Proof.
  unfold Qeq_bool, inject_Z; simpl. now rewrite !Z.mul_1_r.
Qed.

Lemma js_add_Int (a b : Z) : js_add (Int a) (Int b) = Int (a + b).
Proof.
  unfold Int, inject_Z; simpl. unfold Qplus; simpl.
  now rewrite !Z.mul_1_r.
Qed.

Lemma js_sub_Int (a b : Z) : js_sub (Int a) (Int b) = Int (a - b).
Proof.
  unfold js_sub, Int, inject_Z; simpl. unfold Qplus; simpl.
  now rewrite !Z.mul_1_r.
Qed.

Lemma js_mul_Int (a b : Z) : js_mul (Int a) (Int b) = Int (a * b).
Proof. reflexivity. Qed.

Lemma js_max_Int (a b : Z) : js_max (Int a) (Int b) = Int (Z.max a b).
Proof.
  unfold Int; simpl. rewrite Qle_bool_inject_Z.
  destruct (Z.leb_spec a b); f_equal; f_equal; lia.
Qed.

Lemma js_le_Int (a b : Z) : js_le (Int a) (Int b) = (a <=? b).
Proof. apply Qle_bool_inject_Z. Qed.

Lemma js_gt_Int (a b : Z) : js_gt (Int a) (Int b) = (b <? a).
Proof.
  unfold Int; simpl. rewrite Qle_bool_inject_Z.
  destruct (Z.leb_spec a b), (Z.ltb_spec b a); simpl; auto; lia.
Qed.

Lemma js_div_Int (a c : Z) :
  c <> 0 -> js_div (Int a) (Int c) = Fin (inject_Z a / inject_Z c).
Proof.
  intros Hc. unfold js_div, Int.
  change 0%Q with (inject_Z 0). rewrite Qcompare_inject_Z.
  destruct (Z.compare_spec c 0); [lia | reflexivity | reflexivity].
Qed.

Lemma js_floor_div_Int (a c : Z) :
  c <> 0 -> js_floor (js_div (Int a) (Int c)) = Int (a / c).
Proof.
  intros Hc. rewrite js_div_Int by assumption. unfold js_floor.
  now rewrite <- Zdiv_Qdiv.
Qed.

Lemma js_ceil_div_Int (a c : Z) :
  c <> 0 -> js_ceil (js_div (Int a) (Int c)) = Int (- (- a / c)).
Proof.
  intros Hc. rewrite js_div_Int by assumption. unfold js_ceil.
  unfold Qceiling. do 2 f_equal.
  rewrite Zdiv_Qdiv. apply Qfloor_comp.
  rewrite inject_Z_opp. field.
  intros E. apply Hc. now apply (proj1 (inject_Z_injective c 0)).
Qed.

Lemma Qtrunc_div_Int (a c : Z) :
  c <> 0 -> Qtrunc (inject_Z a / inject_Z c) = Z.quot a c.
Proof.
  intros Hc. unfold Qtrunc, Qdiv, Qinv, Qmult, inject_Z.
  destruct c as [|q|q]; [lia | |]; simpl.
  - now rewrite Z.mul_1_r.
  - change (a * Z.neg 1) with (a * -1).
    replace (a * -1) with (- a) by lia.
    rewrite Z.quot_opp_l by lia.
    change (Z.neg q) with (- Z.pos q). rewrite Z.quot_opp_r by lia.
    reflexivity.
Qed.

Lemma js_rem_Int (a c : Z) :
  c <> 0 -> js_rem (Int a) (Int c) = Int (Z.rem a c).
Proof.
  intros Hc. unfold js_rem, Int.
  change 0%Q with (inject_Z 0). rewrite Qeq_bool_inject_Z.
  destruct (Z.eqb_spec c 0); [lia|].
  rewrite Qtrunc_div_Int by assumption.
  unfold Qminus, Qplus, Qopp, Qmult, inject_Z; simpl.
  rewrite !Z.mul_1_r. do 2 f_equal.
  rewrite (Z.quot_rem' a c) at 1. lia.
Qed.

(** For a non-negative dividend and a positive divisor, [%] is the
    mathematical [mod]. *)
Lemma js_rem_Int_pos (a c : Z) :
  0 <= a -> 0 < c -> js_rem (Int a) (Int c) = Int (a mod c).
Proof.
  intros Ha Hc. rewrite js_rem_Int by lia.
  now rewrite Z.rem_mod_nonneg by lia.
Qed.

(** [r > c * 0.6] on integers. *)
Lemma js_gt_six_tenths (r c : Z) :
  js_gt (Int r) (js_mul (Int c) (Fin (6 # 10))) = (3 * c <? 5 * r).
Proof.
  destruct (Z.ltb_spec (3 * c) (5 * r)) as [H | H];
    unfold Int, js_mul, js_gt, Qle_bool, Qmult, inject_Z; cbn [Qnum Qden];
    cases_on_comparisons; simpl; auto; lia.
Qed.

(** [r / c > 1] on integers, for a positive [c]. *)
Lemma js_gt_ratio_one (r c : Z) :
  0 < c -> js_gt (js_div (Int r) (Int c)) (Int 1) = (c <? r).
Proof.
  intros Hc. rewrite js_div_Int by lia.
  destruct c as [|q|q]; try lia.
  destruct (Z.ltb_spec (Z.pos q) r) as [H | H];
    unfold Int, js_gt, Qle_bool, Qdiv, Qinv, Qmult, inject_Z; cbn [Qnum Qden];
    cases_on_comparisons; simpl; auto; lia.
Qed.

End IntegerArithmetic.

(** ** The product by 0.6: exact and on doubles *)

Section DoubleProduct.
Import JsNum JsDouble.

Lemma round_to_near (u p : Z) :
  0 < u -> 2 * Z.abs (round_to u p - p) <= u.
Proof.
  intros Hu. unfold round_to. cbv zeta.
  pose proof (Z.div_mod p u ltac:(lia)) as Hdm.
  pose proof (Z.mod_pos_bound p u Hu) as Hr.
  destruct (Z.ltb_spec (2 * (p mod u)) u);
    [|destruct (Z.ltb_spec u (2 * (p mod u))); [|destruct (Z.even (p / u))]];
    nia.
Qed.

Lemma round_to_multiple (u p n : Z) :
  0 < u -> 2 * Z.abs (n * u - p) < u -> round_to u p = n * u.
Proof.
  intros Hu Hn. unfold round_to. cbv zeta.
  pose proof (Z.div_mod p u ltac:(lia)) as Hdm.
  pose proof (Z.mod_pos_bound p u Hu) as Hr.
  set (lo := p / u) in *. set (r := p mod u) in *.
  assert (Hlow : lo <= n).
  { destruct (Z.le_gt_cases lo n) as [|Hgt]; [assumption|].
    assert (n * u <= (lo - 1) * u)
      by (apply Z.mul_le_mono_nonneg_r; lia).
    lia. }
  assert (Hhigh : n <= lo + 1).
  { destruct (Z.le_gt_cases n (lo + 1)) as [|Hgt]; [assumption|].
    assert ((lo + 2) * u <= n * u)
      by (apply Z.mul_le_mono_nonneg_r; lia).
    lia. }
  assert (Hcase : n = lo /\ 2 * r < u \/ n = lo + 1 /\ u < 2 * r).
  { assert (n = lo \/ n = lo + 1) as [-> | ->] by lia; [left | right];
      (split; [reflexivity | lia]). }
  destruct Hcase as [[-> H] | [-> H]].
  - destruct (Z.ltb_spec (2 * r) u); [reflexivity | lia].
  - destruct (Z.ltb_spec (2 * r) u); [lia|].
    destruct (Z.ltb_spec u (2 * r)); [reflexivity | lia].
Qed.

(** For a capacity up to 10^15 the rounded product lies between the
    same two integers as [3c/5], and is [3c/5] when that is an
    integer. *)
Lemma round53_six_tenths (c : Z) :
  0 < c <= 10 ^ 15 ->
  3 * c / 5 * 2 ^ 53 <= round53 (c * six_tenths_mantissa)
  < (3 * c / 5 + 1) * 2 ^ 53.
Proof.
  intros [Hc Hmax].
  set (q := 3 * c / 5). set (P := c * six_tenths_mantissa).
  assert (Hq : 3 * c = 5 * q + (3 * c) mod 5)
    by (subst q; apply Z.div_mod; lia).
  pose proof (Z.mod_pos_bound (3 * c) 5 ltac:(lia)) as Ht.
  set (t := (3 * c) mod 5) in *.
  assert (HP : 5 * P = (5 * q + t) * 2 ^ 53 - c)
    by (subst P; unfold six_tenths_mantissa; rewrite <- Hq; lia).
  assert (HPpos : 0 < P) by (subst P; unfold six_tenths_mantissa; lia).
  unfold round53. cbv zeta.
  destruct (Z.leb_spec (Z.log2 P - 52) 0) as [Hs | Hs].
  - assert (Hlt : P < 2 ^ 53) by (apply Z.log2_lt_pow2; lia).
    change (2 ^ 53) with 9007199254740992 in *.
    change (10 ^ 15) with 1000000000000000 in *. lia.
  - set (s := Z.log2 P - 52) in *.
    pose proof (Z.log2_spec P HPpos) as [Hlo Hhi].
    replace (Z.log2 P) with (s + 52) in Hlo by lia.
    replace (Z.succ (Z.log2 P)) with (s + 53) in Hhi by lia.
    rewrite Z.pow_add_r in Hlo, Hhi by lia.
    assert (Hs50 : s <= 50).
    { assert (Z.log2 P < 103); [|lia].
      apply Z.log2_lt_pow2; [assumption|].
      subst P. unfold six_tenths_mantissa.
      change (2 ^ 103) with 10141204801825835211973625643008.
      change (10 ^ 15) with 1000000000000000 in Hmax. lia. }
    assert (Hu50 : 2 ^ s <= 2 ^ 50) by (apply Z.pow_le_mono_r; lia).
    assert (Hdiv : 2 ^ 53 = 2 ^ (53 - s) * 2 ^ s)
      by (rewrite <- Z.pow_add_r by lia; f_equal; lia).
    assert (Hupos : 0 < 2 ^ s) by (apply Z.pow_pos_nonneg; lia).
    set (u := 2 ^ s) in *.
    set (w := 2 ^ (53 - s)) in *.
    change (2 ^ 50) with 1125899906842624 in *.
    change (10 ^ 15) with 1000000000000000 in *.
    destruct (Z.eq_dec t 0) as [Ht0 | Ht0].
    + assert (HN : round_to u P = (q * w) * u).
      { apply round_to_multiple; [assumption|].
        rewrite <- Z.mul_assoc, <- Hdiv.
        change (2 ^ 53) with 9007199254740992 in *. nia. }
      rewrite HN, <- Z.mul_assoc, <- Hdiv. lia.
    + pose proof (round_to_near u P Hupos) as Hnear.
      change (2 ^ 53) with 9007199254740992 in *. lia.
Qed.

(** The comparison of [recommendTrucks], with the exact [6/10], is the
    comparison with the product on doubles for every capacity up to
    10^15. *)
Lemma six_tenths_on_doubles (r c : Z) :
  0 < c <= 10 ^ 15 ->
  js_gt (Int r) (Fin (times_six_tenths c))
  = js_gt (Int r) (js_mul (Int c) (Fin (6 # 10))).
Proof.
  intros Hc. rewrite js_gt_six_tenths.
  pose proof (round53_six_tenths c Hc) as HR.
  change (2 ^ 53) with 9007199254740992 in HR.
  unfold js_gt, Int, times_six_tenths, Qle_bool, inject_Z.
  cbn [Qnum Qden]. rewrite Z.mul_1_r.
  change (Z.pos 9007199254740992) with 9007199254740992.
  destruct (Z.leb_spec (r * 9007199254740992)
                       (round53 (c * six_tenths_mantissa))) as [H | H];
    destruct (Z.ltb_spec (3 * c) (5 * r)) as [H' | H'];
    cbn [negb]; try reflexivity; exfalso;
    Z.to_euclidean_division_equations; lia.
Qed.

(** It is not beyond: at these capacities the product on doubles is the
    next integer, 0.2 above [3c/5], and the code adds a regular truck
    where the exact comparison adds a large one. *)
Example six_tenths_beyond_the_bound :
  (times_six_tenths 7505999378950828 == inject_Z 4503599627370497)%Q
  /\ js_gt (Int 4503599627370497) (Fin (times_six_tenths 7505999378950828))
     = false
  /\ js_gt (Int 4503599627370497)
           (js_mul (Int 7505999378950828) (Fin (6 # 10))) = true
  /\ (times_six_tenths 9000000000000003 == inject_Z 5400000000000002)%Q.
Proof. vm_compute. repeat split. Qed.

End DoubleProduct.

(** ** The heuristic recommendation on positive integers *)

Section Recommendation.
Import JsNum Fleet.

(** The cost strategy, computed on integers. *)
Lemma recommendTrucks_cost_Int (useLarge : bool) (p rc lc : Z) :
  0 <= p -> 0 < rc ->
  recommendTrucks Cost useLarge (Int p) (Int rc) (Int lc) =
  if 0 <? p mod rc then
    if useLarge && (p mod rc <=? lc) then
      if 3 * rc <? 5 * (p mod rc)
      then (Int (p / rc), Int 1)
      else (Int (p / rc + 1), Int 0)
    else (Int (p / rc + 1), Int 0)
  else (Int (p / rc), Int 0).
Proof.
  intros Hp Hrc. unfold recommendTrucks.
  rewrite js_floor_div_Int, js_rem_Int_pos by lia.
  rewrite js_gt_Int, js_le_Int, js_gt_six_tenths, js_gt_ratio_one by lia.
  rewrite js_add_Int.
  pose proof (Z.mod_pos_bound p rc Hrc) as Hm.
  replace (rc <? p mod rc) with false by (symmetry; apply Z.ltb_ge; lia).
  now rewrite orb_false_r.
Qed.

(** The capacity strategy with large trucks, computed on integers. *)
Lemma recommendTrucks_capacity_large_Int (p rc lc : Z) :
  0 <= p -> 0 < lc ->
  recommendTrucks Capacity true (Int p) (Int rc) (Int lc) =
  if 0 <? p mod lc then
    if p mod lc <=? rc
    then (Int 1, Int (p / lc))
    else (Int 0, Int (p / lc + 1))
  else (Int 0, Int (p / lc)).
Proof.
  intros Hp Hlc. unfold recommendTrucks.
  rewrite js_floor_div_Int, js_rem_Int_pos by lia.
  now rewrite js_gt_Int, js_le_Int, js_add_Int.
Qed.

(** The capacity strategy without large trucks, computed on integers. *)
Lemma recommendTrucks_capacity_regular_Int (p rc lc : Z) :
  rc <> 0 ->
  recommendTrucks Capacity false (Int p) (Int rc) (Int lc) =
  (Int (- (- p / rc)), Int 0).
Proof.
  intros Hrc. unfold recommendTrucks. now rewrite js_ceil_div_Int.
Qed.

(** The integer ceiling of a quotient. *)
Lemma ceiling_bounds (p rc : Z) :
  0 < rc -> (- (- p / rc) - 1) * rc < p <= - (- p / rc) * rc.
Proof.
  intros Hrc.
  pose proof (Z.div_mod (- p) rc ltac:(lia)) as E.
  pose proof (Z.mod_pos_bound (- p) rc Hrc) as B.
  nia.
Qed.

(** Whatever the strategy, the recommendation for a day with packages
    and positive capacities is a pair of non-negative integers whose
    capacity covers the packages. *)
Lemma recommendTrucks_covers (strategy : OptimizationStrategy)
    (useLarge : bool) (p rc lc : Z) :
  0 < p -> 0 < rc -> 0 < lc ->
  exists R L : Z,
    recommendTrucks strategy useLarge (Int p) (Int rc) (Int lc)
      = (Int R, Int L)
    /\ 0 <= R /\ 0 <= L /\ p <= R * rc + L * lc.
Proof.
  intros Hp Hrc Hlc.
  pose proof (Z.div_mod p rc ltac:(lia)) as Er.
  pose proof (Z.mod_pos_bound p rc Hrc) as Br.
  pose proof (Z.div_mod p lc ltac:(lia)) as El.
  pose proof (Z.mod_pos_bound p lc Hlc) as Bl.
  assert (0 <= p / rc) by (apply Z.div_pos; lia).
  assert (0 <= p / lc) by (apply Z.div_pos; lia).
  destruct strategy.
  - rewrite recommendTrucks_cost_Int by lia.
    destruct (Z.ltb_spec 0 (p mod rc)).
    + destruct useLarge; simpl.
      * destruct (Z.leb_spec (p mod rc) lc); simpl.
        -- destruct (Z.ltb_spec (3 * rc) (5 * (p mod rc)));
             eexists _, _; (split; [reflexivity|]); nia.
        -- eexists _, _; (split; [reflexivity|]); nia.
      * eexists _, _; (split; [reflexivity|]); nia.
    + eexists _, _; (split; [reflexivity|]); nia.
  - destruct useLarge.
    + rewrite recommendTrucks_capacity_large_Int by lia.
      destruct (Z.ltb_spec 0 (p mod lc)).
      * destruct (Z.leb_spec (p mod lc) rc);
          eexists _, _; (split; [reflexivity|]); nia.
      * eexists _, _; (split; [reflexivity|]); nia.
    + rewrite recommendTrucks_capacity_regular_Int by lia.
      pose proof (ceiling_bounds p rc Hrc).
      eexists _, _; (split; [reflexivity|]). nia.
Qed.

End Recommendation.

(** ** The requirement of one day *)

Section Requirement.
Import JsNum Fleet.

(** The counts the allocator assigns to a day: the manual override when
    there is one, the recommendation [(R, L)] otherwise. *)
Lemma requirementForDay_packages (s : FleetState) (d : DailyForecastData)
    (p R L : Z) :
  forecast d = Some p -> p <> 0 ->
  recommendTrucks (optimizationStrategy s) (useLargeTrucks s) (Int p)
    (Int (regularTruckCapacity s)) (Int (largeTruckCapacityMax s))
    = (Int R, Int L) ->
  let rc := regularTruckCapacity s in
  let lc := largeTruckCapacityMax s in
  let aR := match manualAssignments s !! day d with
            | Some m => regular m
            | None => R
            end in
  let aL := match manualAssignments s !! day d with
            | Some m => large m
            | None => L
            end in
  requirementForDay s d =
  {| req_day := day d;
     packages := p;
     regularTrucks := Int R;
     largeTrucks := Int L;
     totalTrucks := Int (R + L);
     regularCapacity := Int (R * rc);
     largeCapacity := Int (L * lc);
     totalCapacity := Int (R * rc + L * lc);
     assignedRegularTrucks := Some (Int aR);
     assignedLargeTrucks := Some (Int aL);
     remainingPackages := Some (Int (Z.max 0 (p - (aR * rc + aL * lc)))) |}.
Proof.
  intros Hf Hp Hrec. unfold requirementForDay.
  rewrite Hf. simpl default.
  destruct (Z.eqb_spec p 0) as [|_]; [contradiction|].
  rewrite Hrec.
  destruct (manualAssignments s !! day d) as [m|];
    now rewrite ?js_mul_Int, ?js_add_Int, ?js_sub_Int, ?js_max_Int.
Qed.

(** A day without packages gets the record written out in the source,
    whatever the rest of the state. *)
Lemma requirementForDay_no_packages (s : FleetState)
    (d : DailyForecastData) :
  default 0 (forecast d) = 0 ->
  requirementForDay s d =
  {| req_day := day d;
     packages := 0;
     regularTrucks := Int 0;
     largeTrucks := Int 0;
     totalTrucks := Int 0;
     regularCapacity := Int 0;
     largeCapacity := Int 0;
     totalCapacity := Int 0;
     assignedRegularTrucks := None;
     assignedLargeTrucks := None;
     remainingPackages := None |}.
Proof.
  intros H. unfold requirementForDay. now rewrite H.
Qed.

(** The requirements computed are those of the days processed, in
    their order. *)
Lemma calculateFleetRequirements_days (s : FleetState)
    (r : FleetRequirement) :
  In r (calculateFleetRequirements s) <->
  exists d, In d (dataToProcess s) /\ r = requirementForDay s d.
Proof.
  unfold calculateFleetRequirements. rewrite List.in_map_iff.
  split; intros (d & H1 & H2); exists d; [split | split]; auto.
Qed.

(** With no terminal and no day selected, the days processed are the
    forecast data. *)
Lemma dataToProcess_all (s : FleetState) :
  selectedDay s = None -> dataToProcess s = forecastData s.
Proof.
  intros H. unfold dataToProcess. rewrite H.
  destruct (truthy_string (selectedTerminal s)),
           (terminalSpecificData s); reflexivity.
Qed.

Lemma six_tenths_Z (rem rc : Z) :
  ((6 # 10) * inject_Z rc < inject_Z rem)%Q <-> 3 * rc < 5 * rem.
Proof.
  unfold Qlt, Qmult, inject_Z; cbn [Qnum Qden]. lia.
Qed.

End Requirement.

(** ** The fleet allocator: the strategies *)

Section FleetStrategies.
Import JsNum Fleet Scenarios.

(** C5.  Cost strategy, for a day with packages and a positive regular
    capacity, of 10^15 at most so that the product by 0.6 compares on
    doubles as it does exactly: the recommendation starts from
    [packages / regularCapacity]
    regular trucks and the remainder [packages mod regularCapacity]; a
    positive remainder that fits a large truck, with large trucks
    enabled, takes one large truck when it exceeds 0.6 times the
    regular capacity and one more regular truck otherwise; with large
    trucks disabled, or a remainder above [largeCapacityMax], it takes
    one more regular truck.  The totals are derived from the two
    counts. *)
Theorem cost_strategy_recommendation (s : FleetState)
    (d : DailyForecastData) (p : Z) :
  forecast d = Some p -> 0 < p ->
  optimizationStrategy s = Cost ->
  0 < regularTruckCapacity s <= 10 ^ 15 ->
  let rc := regularTruckCapacity s in
  let lc := largeTruckCapacityMax s in
  let r := requirementForDay s d in
  let q := p / rc in
  let remainder := p mod rc in
  exists R L : Z,
    regularTrucks r = Int R /\ largeTrucks r = Int L
    /\ totalTrucks r = Int (R + L)
    /\ totalCapacity r = Int (R * rc + L * lc)
    /\ (remainder = 0 -> R = q /\ L = 0)
    /\ (0 < remainder -> useLargeTrucks s = true -> remainder <= lc ->
        ((6 # 10) * inject_Z rc < inject_Z remainder)%Q ->
        R = q /\ L = 1)
    /\ (0 < remainder -> useLargeTrucks s = true -> remainder <= lc ->
        ~ ((6 # 10) * inject_Z rc < inject_Z remainder)%Q ->
        R = q + 1 /\ L = 0)
    /\ (0 < remainder -> useLargeTrucks s = false \/ lc < remainder ->
        R = q + 1 /\ L = 0).
Proof.
  intros Hf Hp Hs [Hrc _] rc lc r q remainder.
  pose proof (recommendTrucks_cost_Int (useLargeTrucks s) p rc lc
                ltac:(lia) Hrc) as Hrec.
  fold remainder q in Hrec.
  assert (Hgen : forall R L,
            recommendTrucks (optimizationStrategy s) (useLargeTrucks s)
              (Int p) (Int rc) (Int lc) = (Int R, Int L) ->
            regularTrucks r = Int R /\ largeTrucks r = Int L
            /\ totalTrucks r = Int (R + L)
            /\ totalCapacity r = Int (R * rc + L * lc)).
  { intros R L E. subst r.
    rewrite (requirementForDay_packages s d p R L Hf ltac:(lia) E).
    repeat split. }
  rewrite Hs in Hgen. rewrite Hrec in Hgen.
  setoid_rewrite six_tenths_Z. fold remainder.
  pose proof (Z.mod_pos_bound p rc Hrc) as Hm. fold remainder in Hm.
  destruct (Z.ltb_spec 0 remainder) as [Hr | Hr];
    [destruct (useLargeTrucks s) eqn:Hul; simpl in Hgen;
     [destruct (Z.leb_spec remainder lc) as [Hl | Hl]; simpl in Hgen;
      [destruct (Z.ltb_spec (3 * rc) (5 * remainder)) as [H6 | H6] |] |] |];
    destruct (Hgen _ _ eq_refl) as (? & ? & ? & ?);
    eexists _, _; (do 4 (split; [eassumption|]));
    repeat split; intros; try lia; intuition (try lia; try discriminate).
Qed.

(** The scenario of the specification: 3000 packages with the default
    capacities 2200 and 2800 take two regular trucks, as the remainder
    800 does not exceed 0.6 * 2200 = 1320. *)
Lemma cost_strategy_recommendation_witness :
  let r := requirementForDay (default_state [] Cost true ∅)
                             (forecast_day 1 3000) in
  regularTrucks r = Int 2 /\ largeTrucks r = Int 0
  /\ totalTrucks r = Int 2 /\ totalCapacity r = Int 4400.
Proof.
  destruct (cost_strategy_recommendation
              (default_state [] Cost true ∅) (forecast_day 1 3000) 3000)
    as (R & L & HR & HL & HT & HC & _ & _ & Hsmall & _);
    [reflexivity | lia | reflexivity | simpl; lia |].
  destruct Hsmall as [-> ->];
    [vm_compute; reflexivity | reflexivity | vm_compute; discriminate
    | vm_compute; discriminate |].
  repeat split; assumption.
Defined.

(** The two scenarios, evaluated. *)
Example cost_3000_packages :
  requirementForDay (default_state [] Cost true ∅) (forecast_day 1 3000) =
  {| req_day := 1; packages := 3000;
     regularTrucks := Int 2; largeTrucks := Int 0; totalTrucks := Int 2;
     regularCapacity := Int 4400; largeCapacity := Int 0;
     totalCapacity := Int 4400;
     assignedRegularTrucks := Some (Int 2);
     assignedLargeTrucks := Some (Int 0);
     remainingPackages := Some (Int 0) |}.
Proof. vm_compute. reflexivity. Qed.

Example cost_2200_packages :
  requirementForDay (default_state [] Cost true ∅) (forecast_day 1 2200) =
  {| req_day := 1; packages := 2200;
     regularTrucks := Int 1; largeTrucks := Int 0; totalTrucks := Int 1;
     regularCapacity := Int 2200; largeCapacity := Int 0;
     totalCapacity := Int 2200;
     assignedRegularTrucks := Some (Int 1);
     assignedLargeTrucks := Some (Int 0);
     remainingPackages := Some (Int 0) |}.
Proof. vm_compute. reflexivity. Qed.

(** A remainder above 0.6 of the regular capacity takes a large truck. *)
Example cost_3600_packages :
  let r := requirementForDay (default_state [] Cost true ∅)
                             (forecast_day 1 3600) in
  regularTrucks r = Int 1 /\ largeTrucks r = Int 1
  /\ totalCapacity r = Int 5000.
Proof. vm_compute. repeat split. Qed.

(** C6.  Capacity strategy, for a day with packages and positive
    capacities.  With large trucks enabled the recommendation is
    [packages / largeCapacityMax] large trucks, plus, for a positive
    remainder [packages mod largeCapacityMax], one regular truck when
    the remainder fits it and one more large truck otherwise.  With
    large trucks disabled it is the ceiling of
    [packages / regularCapacity] regular trucks - the only [R] with
    [(R - 1) * regularCapacity < packages <= R * regularCapacity] - and
    no large truck. *)
Theorem capacity_strategy_recommendation (s : FleetState)
    (d : DailyForecastData) (p : Z) :
  forecast d = Some p -> 0 < p ->
  optimizationStrategy s = Capacity ->
  0 < regularTruckCapacity s -> 0 < largeTruckCapacityMax s ->
  let rc := regularTruckCapacity s in
  let lc := largeTruckCapacityMax s in
  let r := requirementForDay s d in
  let remainder := p mod lc in
  exists R L : Z,
    regularTrucks r = Int R /\ largeTrucks r = Int L
    /\ (useLargeTrucks s = true ->
        (remainder = 0 -> R = 0 /\ L = p / lc)
        /\ (0 < remainder -> remainder <= rc -> R = 1 /\ L = p / lc)
        /\ (rc < remainder -> R = 0 /\ L = p / lc + 1))
    /\ (useLargeTrucks s = false ->
        L = 0 /\ (R - 1) * rc < p <= R * rc).
Proof.
  intros Hf Hp Hs Hrc Hlc rc lc r remainder.
  assert (Hgen : forall R L,
            recommendTrucks (optimizationStrategy s) (useLargeTrucks s)
              (Int p) (Int rc) (Int lc) = (Int R, Int L) ->
            regularTrucks r = Int R /\ largeTrucks r = Int L).
  { intros R L E. subst r.
    rewrite (requirementForDay_packages s d p R L Hf ltac:(lia) E).
    split; reflexivity. }
  rewrite Hs in Hgen.
  pose proof (Z.mod_pos_bound p lc Hlc) as Hm. fold remainder in Hm.
  destruct (useLargeTrucks s).
  - rewrite recommendTrucks_capacity_large_Int in Hgen by lia.
    fold remainder in Hgen.
    destruct (Z.ltb_spec 0 remainder) as [Hr | Hr];
      [destruct (Z.leb_spec remainder rc) as [Hl | Hl] |];
      destruct (Hgen _ _ eq_refl) as (? & ?);
      eexists _, _; (do 2 (split; [eassumption|]));
      (split; [| discriminate]); intros _;
      repeat split; intros; lia.
  - rewrite recommendTrucks_capacity_regular_Int in Hgen by lia.
    destruct (Hgen _ _ eq_refl) as (? & ?).
    eexists _, _; (do 2 (split; [eassumption|])).
    split; [discriminate|]. intros _.
    split; [reflexivity | apply ceiling_bounds; assumption].
Qed.

(** 6000 packages under the capacity strategy: two large trucks and a
    regular one for the remaining 400. *)
Lemma capacity_strategy_recommendation_witness :
  let r := requirementForDay (default_state [] Capacity true ∅)
                             (forecast_day 1 6000) in
  regularTrucks r = Int 1 /\ largeTrucks r = Int 2.
Proof.
  destruct (capacity_strategy_recommendation
              (default_state [] Capacity true ∅) (forecast_day 1 6000) 6000)
    as (R & L & HR & HL & Hlarge & _);
    [reflexivity | lia | reflexivity | simpl; lia | simpl; lia |].
  destruct (Hlarge eq_refl) as (_ & Hfit & _).
  destruct Hfit as [-> ->];
    [vm_compute; reflexivity | vm_compute; discriminate |].
  split; assumption.
Defined.

(** The other branches of the capacity strategy, evaluated: a
    remainder too large for a regular truck, and large trucks
    disabled. *)
Example capacity_5400_packages :
  let r := requirementForDay (default_state [] Capacity true ∅)
                             (forecast_day 1 5400) in
  regularTrucks r = Int 0 /\ largeTrucks r = Int 2.
Proof. vm_compute. split; reflexivity. Qed.

Example capacity_regular_only :
  let r := requirementForDay (default_state [] Capacity false ∅)
                             (forecast_day 1 4401) in
  regularTrucks r = Int 3 /\ largeTrucks r = Int 0.
Proof. vm_compute. split; reflexivity. Qed.

(** C9.  In the cost strategy the second disjunct of the branch
    condition, [regularTruckCost > 1], is dead: for packages and a
    regular capacity both positive, the remainder is below the
    capacity, so the fractional cost [remainder / regularCapacity] is
    below 1, the disjunction has the value of its first disjunct, and
    the recommendation written with the single test
    [remainder > 0.6 * regularCapacity] is the one of the code. *)
Theorem cost_second_disjunct_dead (strategy : OptimizationStrategy)
    (useLarge : bool) (p rc lc : Z) :
  0 < p -> 0 < rc ->
  let remainder := js_rem (Int p) (Int rc) in
  let regularTruckCost := js_div remainder (Int rc) in
  let significant := js_gt remainder (js_mul (Int rc) (Fin (6 # 10))) in
  remainder = Int (p mod rc) /\ p mod rc < rc
  /\ js_gt regularTruckCost (Int 1) = false
  /\ significant || js_gt regularTruckCost (Int 1) = significant
  /\ recommendTrucks_simplified strategy useLarge (Int p) (Int rc) (Int lc)
     = recommendTrucks strategy useLarge (Int p) (Int rc) (Int lc).
Proof.
  intros Hp Hrc remainder cost significant.
  assert (Hdead : js_gt cost (Int 1) = false).
  { subst cost remainder. rewrite js_rem_Int_pos by lia.
    rewrite js_gt_ratio_one by lia.
    pose proof (Z.mod_pos_bound p rc Hrc). apply Z.ltb_ge. lia. }
  split; [apply js_rem_Int_pos; lia|].
  split; [apply Z.mod_pos_bound; assumption|].
  split; [exact Hdead|]. split.
  - rewrite Hdead. apply orb_false_r.
  - destruct strategy; [| reflexivity].
    unfold recommendTrucks_simplified, recommendTrucks.
    fold remainder. fold cost. fold significant.
    rewrite Hdead, orb_false_r. reflexivity.
Qed.

Lemma cost_second_disjunct_dead_witness :
  js_gt (js_div (js_rem (Int 3000) (Int 2200)) (Int 2200)) (Int 1) = false
  /\ recommendTrucks_simplified Cost true (Int 3000) (Int 2200) (Int 2800)
     = recommendTrucks Cost true (Int 3000) (Int 2200) (Int 2800).
Proof.
  destruct (cost_second_disjunct_dead Cost true 3000 2200 2800)
    as (_ & _ & Hdead & _ & Heq); [lia | lia |].
  split; assumption.
Defined.

End FleetStrategies.

(** ** The fleet allocator: assigned capacity and remaining packages *)

Section FleetRemaining.
Import JsNum Fleet Scenarios.

(** C2.  For a day with packages and positive capacities, whatever the
    override map: the assigned counts are the override of that day when
    there is one and the recommendation otherwise, and
    [remainingPackages = max (0, packages - assignedCapacity)] with
    [assignedCapacity = assignedRegularTrucks * regularCapacity
                        + assignedLargeTrucks * largeCapacityMax].
    Hence the assigned capacity and the remaining packages together
    cover the packages, nothing remains when the assigned capacity
    covers them, and an override to no truck at all leaves every
    package remaining. *)
Theorem remaining_packages_deficit (s : FleetState)
    (d : DailyForecastData) (p : Z) :
  forecast d = Some p -> 0 < p ->
  0 < regularTruckCapacity s -> 0 < largeTruckCapacityMax s ->
  let rc := regularTruckCapacity s in
  let lc := largeTruckCapacityMax s in
  let r := requirementForDay s d in
  exists aR aL : Z,
    assignedRegularTrucks r = Some (Int aR)
    /\ assignedLargeTrucks r = Some (Int aL)
    /\ match manualAssignments s !! day d with
       | Some m => aR = regular m /\ aL = large m
       | None => regularTrucks r = Int aR /\ largeTrucks r = Int aL
       end
    /\ let assignedCapacity := aR * rc + aL * lc in
       let remaining := Z.max 0 (p - assignedCapacity) in
       remainingPackages r = Some (Int remaining)
       /\ p <= assignedCapacity + remaining
       /\ (p <= assignedCapacity -> remaining = 0)
       /\ (aR = 0 -> aL = 0 -> remaining = p).
Proof.
  intros Hf Hp Hrc Hlc rc lc r.
  destruct (recommendTrucks_covers (optimizationStrategy s)
              (useLargeTrucks s) p rc lc Hp Hrc Hlc)
    as (R & L & Hrec & _).
  subst r. rewrite (requirementForDay_packages s d p R L Hf ltac:(lia) Hrec).
  cbn [assignedRegularTrucks assignedLargeTrucks regularTrucks largeTrucks
       remainingPackages].
  eexists _, _. split; [reflexivity|]. split; [reflexivity|].
  split.
  - destruct (manualAssignments s !! day d); split; reflexivity.
  - fold rc lc. repeat split; intros; subst; lia.
Qed.

(** The scenario of the specification: the operator sets both counts of
    a day with 500 packages to zero, and all 500 remain. *)
Lemma remaining_packages_deficit_witness :
  remainingPackages
    (requirementForDay
       (default_state [] Cost true {[ 7 := {| regular := 0; large := 0 |} ]})
       (forecast_day 7 500))
  = Some (Int 500).
Proof.
  destruct (remaining_packages_deficit
              (default_state [] Cost true
                 {[ 7 := {| regular := 0; large := 0 |} ]})
              (forecast_day 7 500) 500)
    as (aR & aL & _ & _ & Hov & Hrem & _ & _ & Hzero);
    [reflexivity | lia | simpl; lia | simpl; lia |].
  change (aR = 0 /\ aL = 0) in Hov. destruct Hov as [-> ->].
  rewrite Hrem. rewrite (Hzero eq_refl eq_refl). reflexivity.
Defined.

(** An override of either sign is taken as it is. *)
Example override_negative_count :
  remainingPackages
    (requirementForDay
       (default_state [] Cost true {[ 7 := {| regular := -1; large := 0 |} ]})
       (forecast_day 7 500))
  = Some (Int 2700).
Proof. vm_compute. reflexivity. Qed.

(** C10.  Without an override, for a day with packages and positive
    capacities, the recommendation covers the demand under both
    strategies, with or without large trucks:
    [totalCapacity = regularTrucks * regularCapacity
                     + largeTrucks * largeCapacityMax >= packages],
    and no package remains. *)
Theorem recommendation_covers_demand (s : FleetState)
    (d : DailyForecastData) (p : Z) :
  forecast d = Some p -> 0 < p ->
  0 < regularTruckCapacity s -> 0 < largeTruckCapacityMax s ->
  manualAssignments s !! day d = None ->
  let rc := regularTruckCapacity s in
  let lc := largeTruckCapacityMax s in
  let r := requirementForDay s d in
  exists R L : Z,
    regularTrucks r = Int R /\ largeTrucks r = Int L
    /\ 0 <= R /\ 0 <= L
    /\ totalCapacity r = Int (R * rc + L * lc)
    /\ p <= R * rc + L * lc
    /\ remainingPackages r = Some (Int 0).
Proof.
  intros Hf Hp Hrc Hlc Hnone rc lc r.
  destruct (recommendTrucks_covers (optimizationStrategy s)
              (useLargeTrucks s) p rc lc Hp Hrc Hlc)
    as (R & L & Hrec & HR & HL & Hcov).
  subst r. rewrite (requirementForDay_packages s d p R L Hf ltac:(lia) Hrec).
  rewrite Hnone.
  cbn [regularTrucks largeTrucks totalCapacity remainingPackages].
  exists R, L. fold rc lc. repeat split; try assumption.
  do 2 f_equal. lia.
Qed.

Lemma recommendation_covers_demand_witness :
  remainingPackages
    (requirementForDay (default_state [] Capacity true ∅)
                       (forecast_day 12 5400))
  = Some (Int 0).
Proof.
  destruct (recommendation_covers_demand
              (default_state [] Capacity true ∅) (forecast_day 12 5400) 5400)
    as (R & L & _ & _ & _ & _ & _ & _ & Hrem);
    [reflexivity | lia | simpl; lia | simpl; lia | reflexivity |].
  exact Hrem.
Defined.

End FleetRemaining.

(** ** The fleet allocator: days without packages, capacities without
       validation *)

Section FleetEdgeCases.
Import JsNum Fleet Scenarios.

(** C7, as stated, fails on the remaining packages: the record emitted
    for a day without packages has no [remainingPackages] field. *)
Lemma zero_day_remaining_is_absent :
  remainingPackages
    (requirementForDay (default_state [] Cost true ∅) (forecast_day 1 0))
  <> Some (Int 0).
Proof. vm_compute. discriminate. Qed.

(** C7, amended.  For a day without packages (a forecast of 0, or none)
    the allocator emits the record with zero packages, zero recommended
    trucks and zero capacities, regardless of the strategy, of
    [useLargeTrucks], of the capacities and of any override for that
    day.  The assigned counts and the remaining packages are absent
    from that record; the summary and the chart read it as no truck
    and nothing remaining. *)
Theorem zero_packages_requirement (s : FleetState)
    (d : DailyForecastData) :
  default 0 (forecast d) = 0 ->
  let r := requirementForDay s d in
  r = {| req_day := day d;
         packages := 0;
         regularTrucks := Int 0;
         largeTrucks := Int 0;
         totalTrucks := Int 0;
         regularCapacity := Int 0;
         largeCapacity := Int 0;
         totalCapacity := Int 0;
         assignedRegularTrucks := None;
         assignedLargeTrucks := None;
         remainingPackages := None |}
  /\ shownRegularTrucks r = Int 0
  /\ shownLargeTrucks r = Int 0
  /\ shownRemaining r = Int 0.
Proof.
  intros H r. subst r. rewrite (requirementForDay_no_packages s d H).
  repeat split.
Qed.

(** A day without packages that carries an override of five and three
    trucks. *)
Lemma zero_packages_requirement_witness :
  let r := requirementForDay
             (default_state [] Capacity false
                {[ 4 := {| regular := 5; large := 3 |} ]})
             (forecast_day 4 0) in
  totalTrucks r = Int 0 /\ totalCapacity r = Int 0
  /\ shownRegularTrucks r = Int 0 /\ shownLargeTrucks r = Int 0
  /\ shownRemaining r = Int 0.
Proof.
  destruct (zero_packages_requirement
              (default_state [] Capacity false
                 {[ 4 := {| regular := 5; large := 3 |} ]})
              (forecast_day 4 0))
    as (Hr & HR & HL & Hrem); [reflexivity|].
  repeat split; try assumption; cbv zeta; rewrite Hr; reflexivity.
Defined.

(** C1, as stated, fails: with a regular capacity of 0 the allocator
    returns a requirement, and an infinite number of regular trucks in
    it. *)
Lemma zero_capacity_allocates_infinite_trucks :
  calculateFleetRequirements
    (fleet_state [forecast_day 1 100] 0 2800 Cost true ∅)
  = [ {| req_day := 1; packages := 100;
         regularTrucks := PInf; largeTrucks := Int 0; totalTrucks := PInf;
         regularCapacity := NaN; largeCapacity := Int 0;
         totalCapacity := NaN;
         assignedRegularTrucks := Some PInf;
         assignedLargeTrucks := Some (Int 0);
         remainingPackages := Some NaN |} ]
  /\ degenerate PInf = true.
Proof. vm_compute. split; reflexivity. Qed.

(** A negative capacity is not rejected either: the recommendation is a
    negative number of trucks. *)
Example negative_capacity_allocates_negative_trucks :
  let r := requirementForDay
             (fleet_state [] (-5) 2800 Cost true ∅) (forecast_day 1 100) in
  regularTrucks r = Int (-20) /\ degenerate (regularTrucks r) = true.
Proof. vm_compute. split; reflexivity. Qed.

(** Nor is a non-positive [largeCapacityMax]. *)
Example zero_large_capacity_is_accepted :
  let r := requirementForDay
             (fleet_state [] 2200 0 Cost true ∅) (forecast_day 1 3000) in
  regularTrucks r = Int 2 /\ largeTrucks r = Int 0
  /\ remainingPackages r = Some (Int 0).
Proof. vm_compute. repeat split. Qed.

(** The day of a requirement is the day it was computed for. *)
Lemma requirementForDay_day (s : FleetState) (d : DailyForecastData) :
  req_day (requirementForDay s d) = day d.
Proof.
  unfold requirementForDay. cbv zeta.
  destruct (default 0 (forecast d) =? 0); [reflexivity|].
  destruct (recommendTrucks _ _ _ _ _). reflexivity.
Qed.

(** C1, amended.  The allocator validates no capacity and raises no
    error: whatever the capacities - zero, negative, of either kind -
    it returns one requirement for each day it processes, in order.
    With a regular capacity of 0, a day with packages is recommended
    infinitely many regular trucks under the cost strategy, and under
    the capacity strategy when large trucks are disabled; its regular
    and total capacities are not numbers, and neither are its remaining
    packages unless the day is overridden. *)
Theorem capacities_are_not_validated (s : FleetState) :
  calculateFleetRequirements s
  = List.map (requirementForDay s) (dataToProcess s)
  /\ length (calculateFleetRequirements s) = length (dataToProcess s)
  /\ List.map req_day (calculateFleetRequirements s)
     = List.map day (dataToProcess s)
  /\ forall (d : DailyForecastData) (p : Z),
       In d (dataToProcess s) ->
       forecast d = Some p -> 0 < p ->
       regularTruckCapacity s = 0 ->
       optimizationStrategy s = Cost \/ useLargeTrucks s = false ->
       let r := requirementForDay s d in
       In r (calculateFleetRequirements s)
       /\ regularTrucks r = PInf
       /\ largeTrucks r = Int 0
       /\ regularCapacity r = NaN
       /\ totalCapacity r = NaN
       /\ (manualAssignments s !! day d = None ->
           remainingPackages r = Some NaN).
Proof.
  split; [reflexivity|].
  split; [apply length_map|].
  split.
  { unfold calculateFleetRequirements. rewrite List.map_map.
    apply List.map_ext. apply requirementForDay_day. }
  intros d p Hin Hf Hp Hrc Hs r.
  split; [apply in_map; assumption|].
  assert (Hrec : recommendTrucks (optimizationStrategy s) (useLargeTrucks s)
                   (Int p) (Int 0) (Int (largeTruckCapacityMax s))
                 = (PInf, Int 0)).
  { assert (Hdiv : js_div (Int p) (Int 0) = PInf).
    { unfold js_div, Int. change 0%Q with (inject_Z 0).
      rewrite !Qcompare_inject_Z. simpl.
      destruct (Z.compare_spec p 0); [lia | lia | reflexivity]. }
    assert (Hrem : js_rem (Int p) (Int 0) = NaN) by reflexivity.
    unfold recommendTrucks. rewrite Hdiv, Hrem. simpl.
    destruct Hs as [-> | ->]; [reflexivity|].
    destruct (optimizationStrategy s); reflexivity. }
  subst r. unfold requirementForDay.
  rewrite Hf. simpl default.
  destruct (Z.eqb_spec p 0) as [|_]; [lia|].
  rewrite Hrc, Hrec.
  cbn [regularTrucks largeTrucks regularCapacity totalCapacity
       remainingPackages].
  repeat split.
  intros ->. reflexivity.
Qed.

(** A regular capacity of 0 under the capacity strategy without large
    trucks, and a negative regular capacity: one requirement for the
    one day in both cases. *)
Lemma capacities_are_not_validated_witness :
  let s := fleet_state [forecast_day 1 100] 0 2800 Capacity false ∅ in
  let r := requirementForDay s (forecast_day 1 100) in
  List.map req_day (calculateFleetRequirements s) = [1]
  /\ regularTrucks r = PInf
  /\ remainingPackages r = Some NaN
  /\ List.map req_day
       (calculateFleetRequirements
          (fleet_state [forecast_day 1 100] (-5) 0 Cost true ∅)) = [1].
Proof.
  destruct (capacities_are_not_validated
              (fleet_state [forecast_day 1 100] 0 2800 Capacity false ∅))
    as (_ & _ & Hdays & Hzero).
  destruct (Hzero (forecast_day 1 100) 100)
    as (_ & HR & _ & _ & _ & Hrem);
    [left; reflexivity | reflexivity | lia | reflexivity
    | right; reflexivity |].
  destruct (capacities_are_not_validated
              (fleet_state [forecast_day 1 100] (-5) 0 Cost true ∅))
    as (_ & _ & Hneg & _).
  cbv zeta.
  split; [exact Hdays|]. split; [exact HR|].
  split; [exact (Hrem eq_refl) | exact Hneg].
Defined.

End FleetEdgeCases.

(** ** The date arithmetic *)

Section Calendar.
Import JsDate.

Local Arguments DayFromYear : simpl never.
Local Arguments InLeapYear : simpl never.

(** Linear arithmetic with divisions by constants. *)
Ltac div_lia := Z.to_euclidean_division_equations; lia.

Ltac each_month m :=
  let Hc := fresh "Hc" in
  assert (m = 0 \/ m = 1 \/ m = 2 \/ m = 3 \/ m = 4 \/ m = 5 \/ m = 6
          \/ m = 7 \/ m = 8 \/ m = 9 \/ m = 10 \/ m = 11) as Hc by lia;
  repeat (destruct Hc as [-> | Hc]); try subst m.

(** [YearFromDay] is the year of the language definition: the one
    whose first day is the last not after the day. *)
Lemma YearFromDay_bounds (d : Z) :
  DayFromYear (YearFromDay d) <= d < DayFromYear (YearFromDay d + 1).
Proof.
  unfold YearFromDay, DayFromYear. cases_on_comparisons; div_lia.
Qed.

Lemma DayFromYear_mono (a b : Z) :
  a <= b -> DayFromYear a <= DayFromYear b.
Proof. unfold DayFromYear. intros. div_lia. Qed.

Lemma YearFromDay_unique (y d : Z) :
  DayFromYear y <= d < DayFromYear (y + 1) -> YearFromDay d = y.
Proof.
  intros H. pose proof (YearFromDay_bounds d).
  destruct (Z.lt_trichotomy (YearFromDay d) y) as [L | [E | G]];
    [|assumption|].
  - pose proof (DayFromYear_mono (YearFromDay d + 1) y ltac:(lia)). lia.
  - pose proof (DayFromYear_mono (y + 1) (YearFromDay d) ltac:(lia)). lia.
Qed.

Lemma days_in_year (y : Z) :
  DayFromYear (y + 1) - DayFromYear y = if InLeapYear y then 366 else 365.
Proof.
  unfold DayFromYear, InLeapYear. cases_on_comparisons; simpl; div_lia.
Qed.

(** Reading back a date of the calendar gives its year, month and day. *)
Lemma civil_round_trip (y m dt : Z) :
  0 <= m <= 11 -> 1 <= dt <= monthLength (InLeapYear y) (m + 1) ->
  YearFromDay (MakeDay y m dt) = y
  /\ MonthFromDay (MakeDay y m dt) = m
  /\ DateFromDay (MakeDay y m dt) = dt.
Proof.
  intros Hm Hdt.
  assert (Hday : MakeDay y m dt
                 = DayFromYear y + DaysBeforeMonth (InLeapYear y) m + dt - 1).
  { unfold MakeDay.
    replace (m / 12) with 0 by div_lia. replace (m mod 12) with m by div_lia.
    now rewrite Z.add_0_r. }
  assert (Hy : YearFromDay (MakeDay y m dt) = y).
  { apply YearFromDay_unique. rewrite Hday. pose proof (days_in_year y).
    destruct (InLeapYear y); each_month m; simpl in *; lia. }
  assert (Hw : DayWithinYear (MakeDay y m dt)
               = DaysBeforeMonth (InLeapYear y) m + dt - 1).
  { unfold DayWithinYear. rewrite Hy, Hday. lia. }
  assert (Hmo : MonthFromDay (MakeDay y m dt) = m).
  { unfold MonthFromDay. rewrite Hw, Hy.
    destruct (InLeapYear y); each_month m; simpl in *;
      cases_on_comparisons; lia. }
  split; [assumption|]. split; [assumption|].
  unfold DateFromDay. rewrite Hw, Hy, Hmo. lia.
Qed.

(** [new Date(year, month, 0).getDate()] is the number of days of the
    month [month], counted from 1. *)
Lemma days_of_month (year month : Z) :
  1 <= month <= 12 ->
  getDate (new_Date year month 0)
  = monthLength (InLeapYear (fullYear year)) month.
Proof.
  intros Hm. unfold getDate, new_Date.
  set (y := fullYear year).
  assert (Hm0 : exists m0, month = m0 + 1 /\ 0 <= m0 <= 11)
    by (exists (month - 1); lia).
  destruct Hm0 as (m0 & -> & Hm0). clear Hm.
  assert (Hlast : MakeDay y (m0 + 1) 0
                  = MakeDay y m0 (monthLength (InLeapYear y) (m0 + 1))).
  { unfold MakeDay.
    replace (m0 / 12) with 0 by div_lia.
    replace (m0 mod 12) with m0 by div_lia.
    pose proof (days_in_year y) as Hlen. rewrite !Z.add_0_r.
    assert (m0 = 11 \/ m0 <= 10) as [-> | Hle] by lia.
    - change ((11 + 1) / 12) with 1. change ((11 + 1) mod 12) with 0.
      destruct (InLeapYear y); simpl; lia.
    - replace ((m0 + 1) / 12) with 0 by div_lia.
      replace ((m0 + 1) mod 12) with (m0 + 1) by div_lia.
      rewrite !Z.add_0_r.
      destruct (InLeapYear y); each_month m0; simpl; lia. }
  rewrite Hlast. apply civil_round_trip; [assumption|].
  destruct (InLeapYear y); each_month m0; simpl; lia.
Qed.

(** The days of a month in range are within 10^8 days of the epoch,
    with a day to spare for the time zone: the dates the constructor
    builds for them are valid, and so is the day 0 of the next month,
    by which the code reads the length of the month. *)
Lemma monthInRange_days (year monthIndex d : Z) :
  monthInRange year monthIndex = true -> 0 <= d <= 31 ->
  -99999999 <= new_Date year monthIndex d <= 99999999
  /\ -99999999 <= new_Date year (monthIndex + 1) 0 <= 99999999.
Proof.
  unfold monthInRange, new_Date, MakeDay. cbv zeta.
  intros Hr Hd. apply andb_true_iff in Hr as [Hlo Hhi].
  apply Z.leb_le in Hlo, Hhi.
  assert (Hbefore : forall leap m, 0 <= m <= 11 ->
            0 <= DaysBeforeMonth leap m <= 335).
  { intros leap m Hm. destruct leap; each_month m; simpl; lia. }
  pose proof (Hbefore (InLeapYear (fullYear year + monthIndex / 12))
                (monthIndex mod 12) ltac:(div_lia)) as Hb.
  pose proof (Hbefore (InLeapYear (fullYear year + (monthIndex + 1) / 12))
                ((monthIndex + 1) mod 12) ltac:(div_lia)) as Hb'.
  assert (Hnext : (monthIndex + 1) / 12 = monthIndex / 12
                  \/ (monthIndex + 1) / 12 = monthIndex / 12 + 1
                     /\ (monthIndex + 1) mod 12 = 0) by div_lia.
  split.
  - unfold DayFromYear. div_lia.
  - destruct Hnext as [E | [E E']].
    + rewrite E in *. unfold DayFromYear. div_lia.
    + rewrite E, E' in *. cbn [DaysBeforeMonth]. unfold DayFromYear.
      div_lia.
Qed.

(** The day of the week repeats every seven days and lies in 0..6. *)
Lemma getDay_range (date : Z) : 0 <= getDay date <= 6.
Proof. unfold getDay, WeekDay. div_lia. Qed.

Lemma getDay_next_week (date : Z) : getDay (date + 7) = getDay date.
Proof. unfold getDay, WeekDay. div_lia. Qed.

(** Dates of record: 1 January 1970 was a Thursday, 1 November 2025 a
    Saturday, and February 2024 had 29 days. *)
Example known_dates :
  getDay (new_Date 1970 0 1) = 4
  /\ getDay (new_Date 2025 10 1) = 6
  /\ getDate (new_Date 2024 2 0) = 29
  /\ getDate (new_Date 1900 2 0) = 28.
Proof. repeat split. Qed.

End Calendar.

(** ** The forecast engine: the days of the forecast *)

Section ForecastDays.
Import JsDate Forecast ForecastScenarios.

(** The days of the points produced by a loop that skips some days. *)
Lemma omap_days {A : Type} (keep : Z -> bool) (body : Z -> option A)
    (day_of : A -> Z) (days : list Z) :
  (forall d, keep d = true -> exists x, body d = Some x /\ day_of x = d) ->
  (forall d, keep d = false -> body d = None) ->
  List.map day_of (omap body days) = List.filter keep days.
Proof.
  intros Hkeep Hskip. induction days as [|d days IH]; [reflexivity|].
  simpl. destruct (keep d) eqn:Hd.
  - destruct (Hkeep d Hd) as (x & -> & <-). simpl. now f_equal.
  - now rewrite (Hskip d Hd).
Qed.

Lemma StronglySorted_filter {A : Type} (R : A -> A -> Prop)
    (keep : A -> bool) (l : list A) :
  StronglySorted R l -> StronglySorted R (List.filter keep l).
Proof.
  induction 1 as [|x l Hl IH Hx]; simpl; [constructor|].
  destruct (keep x); [|assumption].
  constructor; [assumption|].
  rewrite List.Forall_forall in *. intros y Hy.
  apply List.filter_In in Hy. apply Hx, Hy.
Qed.

Lemma StronglySorted_seqZ (m n : Z) : StronglySorted Z.lt (seqZ m n).
Proof.
  unfold seqZ. generalize 0%nat as k.
  induction (Z.to_nat n) as [|len IH]; intros k; simpl; [constructor|].
  constructor; [apply IH|].
  rewrite List.Forall_forall. intros y Hy.
  apply List.in_map_iff in Hy as (i & <- & Hi).
  apply List.in_seq in Hi. lia.
Qed.

(** C4.  For a history that is not empty, the days of the forecast are
    the days 1 to the number of days of the target month that match
    the day-type filter - every day for [All], the Saturdays and
    Sundays of the target month for [Weekend], the other days for
    [Weekday] - each once, in increasing order; a day that does not
    match is left out.  The target month is taken within the range of
    [Date].  The number of days is the length of the month in the
    calendar for a month from 1 to 12.  For November 2025 and
    [Weekday], the days 1, 2, 8, 9, 15, 16, 22, 23, 29 and 30 are
    absent.  For an empty history the forecast is empty. *)
Theorem forecast_days (Math_sqrt : Q -> Q)
    (historical : list (list DailyData)) (historicalMeta : list Meta)
    (filter : DayTypeFilter) (targetYear targetMonth : Z) :
  historical <> [] ->
  monthInRange targetYear (targetMonth - 1) = true ->
  let out := calculateForecast Math_sqrt historical historicalMeta filter
                               targetYear targetMonth in
  let daysInMonth := getDate (new_Date targetYear targetMonth 0) in
  let matches d :=
    match filter with
    | All => true
    | Weekend => isWeekend targetYear targetMonth d
    | Weekday => negb (isWeekend targetYear targetMonth d)
    end in
  calculateForecast Math_sqrt [] historicalMeta filter targetYear targetMonth
    = []
  /\ List.map day out = List.filter matches (seqZ 1 daysInMonth)
  /\ StronglySorted Z.lt (List.map day out)
  /\ (1 <= targetMonth <= 12 ->
      daysInMonth = monthLength (InLeapYear (fullYear targetYear)) targetMonth)
  /\ (filter = Weekday -> targetYear = 2025 -> targetMonth = 11 ->
      List.map day out
      = [3; 4; 5; 6; 7; 10; 11; 12; 13; 14; 17; 18; 19; 20; 21;
         24; 25; 26; 27; 28]).
Proof.
  intros Hne _ out daysInMonth matches.
  assert (Hdays : List.map day out
                  = List.filter matches (seqZ 1 daysInMonth)).
  { subst out. unfold calculateForecast.
    destruct historical as [|month0 rest]; [contradiction|].
    apply omap_days; intros d Hd; subst matches; unfold isWeekend in Hd;
      cbv zeta in *; destruct filter;
      destruct ((getDay (new_Date targetYear (targetMonth - 1) d) =? 0)
                || (getDay (new_Date targetYear (targetMonth - 1) d) =? 6));
      simpl in Hd; try discriminate; try reflexivity;
      eexists; (split; [reflexivity|]); reflexivity. }
  split; [reflexivity|]. split; [exact Hdays|].
  split; [| split].
  - rewrite Hdays. apply StronglySorted_filter, StronglySorted_seqZ.
  - apply days_of_month.
  - intros -> -> ->. rewrite Hdays. reflexivity.
Qed.

(** November 2025 forecast on working days, from one month of
    history. *)
Lemma forecast_days_witness :
  List.map day
    (calculateForecast integer_sqrt steady_month steady_month_meta Weekday
                       2025 11)
  = [3; 4; 5; 6; 7; 10; 11; 12; 13; 14; 17; 18; 19; 20; 21;
     24; 25; 26; 27; 28].
Proof.
  destruct (forecast_days integer_sqrt steady_month steady_month_meta
              Weekday 2025 11) as (_ & _ & _ & _ & Hnov);
    [discriminate | reflexivity |].
  exact (Hnov eq_refl eq_refl eq_refl).
Defined.

(** The weekend days of November 2025, and all the days of February
    2024. *)
Example forecast_days_weekend_november_2025 :
  List.map day
    (calculateForecast integer_sqrt steady_month steady_month_meta Weekend
                       2025 11)
  = [1; 2; 8; 9; 15; 16; 22; 23; 29; 30].
Proof. vm_compute. reflexivity. Qed.

Example forecast_days_all_february_2024 :
  List.map day
    (calculateForecast integer_sqrt steady_month steady_month_meta All
                       2024 2)
  = seqZ 1 29.
Proof. vm_compute. reflexivity. Qed.

End ForecastDays.

(** ** The forecast engine: the uncertainty band *)

Section ForecastBand.
Import JsDate Forecast ForecastScenarios.

Lemma fold_sum_nonneg (values : list Q) (acc : Q) :
  List.Forall (fun q => 0 <= q)%Q values -> (0 <= acc)%Q ->
  (0 <= fold_left Qplus values acc)%Q.
Proof.
  intros Hall. revert acc.
  induction Hall as [|q values Hq _ IH]; intros acc Hacc; simpl;
    [assumption|].
  apply IH. lra.
Qed.

Lemma len_nonneg {A : Type} (l : list A) : (0 <= len l)%Q.
Proof.
  unfold len. change 0%Q with (inject_Z 0). rewrite <- Zle_Qle. lia.
Qed.

Lemma Qdiv_nonneg (a b : Q) : (0 <= a)%Q -> (0 <= b)%Q -> (0 <= a / b)%Q.
Proof.
  intros Ha Hb. unfold Qdiv.
  apply Qmult_le_0_compat; [assumption | now apply Qinv_le_0_compat].
Qed.

Lemma positiveValues_nonneg (data : list DailyData) :
  List.Forall (fun q => 0 <= q)%Q (positiveValues data).
Proof.
  unfold positiveValues. rewrite List.Forall_forall. intros q Hq.
  apply List.in_map_iff in Hq as (v & <- & Hv).
  apply List.filter_In in Hv as [_ Hv]. apply Z.ltb_lt in Hv.
  change 0%Q with (inject_Z 0). rewrite <- Zle_Qle. lia.
Qed.

Lemma average_or_nonneg (otherwise : Q) (values : list Q) :
  (0 <= otherwise)%Q -> List.Forall (fun q => 0 <= q)%Q values ->
  (0 <= average_or otherwise values)%Q.
Proof.
  intros Ho Hall. unfold average_or.
  destruct (0 <? length values)%nat; [|assumption].
  apply Qdiv_nonneg; [|apply len_nonneg].
  apply fold_sum_nonneg; [assumption | lra].
Qed.

Lemma overallAverage_nonneg (filtered : list (list DailyData)) :
  (0 <= overallAverage filtered)%Q.
Proof.
  apply average_or_nonneg; [lra | apply positiveValues_nonneg].
Qed.

Lemma Qsquare_nonneg (x : Q) : (0 <= x ^ 2)%Q.
Proof.
  destruct x as [n d]. unfold Qle; simpl. nia.
Qed.

Lemma fold_squares_nonneg (values : list Q) (mean acc : Q) :
  (0 <= acc)%Q ->
  (0 <= fold_left (fun a val => a + (val - mean) ^ 2) values acc)%Q.
Proof.
  revert acc.
  induction values as [|v values IH]; intros acc Hacc; cbn [fold_left];
    [assumption|].
  apply IH. pose proof (Qsquare_nonneg (v - mean)). lra.
Qed.

Lemma stdDev_nonneg (Math_sqrt : Q -> Q) (values : list Q) (overall : Q) :
  (forall x, 0 <= x -> 0 <= Math_sqrt x)%Q ->
  (0 <= overall)%Q ->
  (0 <= stdDev Math_sqrt values overall)%Q.
Proof.
  intros Hsqrt Ho. unfold stdDev.
  destruct (1 <? length values)%nat.
  - apply Hsqrt, Qdiv_nonneg; [|apply len_nonneg].
    apply fold_squares_nonneg. lra.
  - nra.
Qed.

Lemma Math_round_mono (x y : Q) :
  (x <= y)%Q -> Math_round x <= Math_round y.
Proof.
  intros H. unfold Math_round. apply Qfloor_resp_le. lra.
Qed.

(** C3.  Every point of the forecast carries its three values, which
    are non-negative integers in the order
    [0 <= forecastMin <= forecast <= forecastMax]. *)
Theorem forecast_band_ordered (Math_sqrt : Q -> Q)
    (historical : list (list DailyData)) (historicalMeta : list Meta)
    (filter : DayTypeFilter) (targetYear targetMonth : Z)
    (point : DailyData) :
  (forall x, 0 <= x -> 0 <= Math_sqrt x)%Q ->
  In point (calculateForecast Math_sqrt historical historicalMeta filter
                              targetYear targetMonth) ->
  exists f lo hi : Z,
    forecast point = Some f
    /\ forecastMin point = Some lo
    /\ forecastMax point = Some hi
    /\ 0 <= lo /\ lo <= f /\ f <= hi.
Proof.
  intros Hsqrt Hin. unfold calculateForecast in Hin.
  destruct historical as [|month0 rest]; [contradiction|].
  apply list_elem_of_In, list_elem_of_omap in Hin as (d & _ & Hd).
  cbv zeta in Hd.
  set (filtered := filteredHistorical (month0 :: rest) historicalMeta filter)
    in Hd.
  pose proof (stdDev_nonneg Math_sqrt (allValues filtered)
                (overallAverage filtered) Hsqrt
                (overallAverage_nonneg filtered)) as Hsd.
  set (sd := stdDev Math_sqrt (allValues filtered) (overallAverage filtered))
    in Hd, Hsd.
  assert (Hband : forall fv : Q,
            0 <= Z.max 0 (Math_round (fv - sd))
            /\ Z.max 0 (Math_round (fv - sd)) <= Z.max 0 (Math_round fv)
            /\ Z.max 0 (Math_round fv) <= Z.max 0 (Math_round (fv + sd))).
  { intros fv.
    pose proof (Math_round_mono (fv - sd) fv ltac:(lra)).
    pose proof (Math_round_mono fv (fv + sd) ltac:(lra)).
    lia. }
  destruct filter;
    destruct ((getDay (new_Date targetYear (targetMonth - 1) d) =? 0)
              || (getDay (new_Date targetYear (targetMonth - 1) d) =? 6));
    try discriminate; injection Hd as <-; cbn [forecast forecastMin forecastMax];
    eexists _, _, _; (do 3 (split; [reflexivity|])); apply Hband.
Qed.

Lemma integer_sqrt_nonneg (x : Q) : (0 <= x -> 0 <= integer_sqrt x)%Q.
Proof.
  intros _. unfold integer_sqrt.
  change 0%Q with (inject_Z 0). rewrite <- Zle_Qle. apply Z.sqrt_nonneg.
Qed.

(** The forecast of Wednesday 5 November 2025 from a month of 100, 140
    and 120 packages: 106, between 90 and 122. *)
Lemma forecast_band_ordered_witness :
  exists f lo hi : Z,
    Some 106 = Some f /\ Some 90 = Some lo /\ Some 122 = Some hi
    /\ 0 <= lo /\ lo <= f /\ f <= hi.
Proof.
  apply (forecast_band_ordered integer_sqrt varied_month steady_month_meta
           All 2025 11
           {| day := 5; value := 0; forecast := Some 106;
              forecastMin := Some 90; forecastMax := Some 122 |}
           integer_sqrt_nonneg).
  vm_compute. do 4 right. left. reflexivity.
Defined.

End ForecastBand.

(** ** The forecast engine: a constant history *)

Section ConstantHistory.
Import JsDate Forecast ForecastScenarios.

Lemma len_cons {A : Type} (x : A) (l : list A) : (len (x :: l) == len l + 1)%Q.
Proof.
  unfold len. cbn [length]. rewrite Nat2Z.inj_succ.
  unfold Z.succ. rewrite inject_Z_plus. reflexivity.
Qed.

(** The sum of values all equal to [c]. *)
Lemma fold_sum_const (c : Q) (values : list Q) (acc : Q) :
  List.Forall (fun a => a == c)%Q values ->
  (fold_left Qplus values acc == acc + len values * c)%Q.
Proof.
  intros Hall. revert acc.
  induction Hall as [|a values Ha _ IH]; intros acc; cbn [fold_left].
  - unfold len; simpl. ring.
  - rewrite IH, len_cons, Ha. ring.
Qed.

Lemma len_positive {A : Type} (l : list A) : l <> [] -> (0 < len l)%Q.
Proof.
  intros Hl. unfold len. change 0%Q with (inject_Z 0). rewrite <- Zlt_Qlt.
  destruct l; [contradiction | simpl; lia].
Qed.

(** The average of values all equal to [c], or the fallback when it is
    [c] too. *)
Lemma average_or_const (otherwise c : Q) (values : list Q) :
  List.Forall (fun a => a == c)%Q values ->
  values <> [] \/ (otherwise == c)%Q ->
  (average_or otherwise values == c)%Q.
Proof.
  intros Hall Hor. unfold average_or.
  destruct (Nat.ltb_spec 0 (length values)) as [Hlen | Hlen].
  - unfold sumValues. rewrite (fold_sum_const c values 0 Hall).
    assert (Hpos : (0 < len values)%Q)
      by (apply len_positive; intros ->; simpl in Hlen; lia).
    field. lra.
  - destruct Hor as [Hne | Ho]; [|exact Ho].
    destruct values; [contradiction | simpl in Hlen; lia].
Qed.

(** The positive values of observations that all have the positive
    value [v]. *)
Lemma positiveValues_const (v : Z) (data : list DailyData) :
  0 < v -> List.Forall (fun d => value d = v) data ->
  List.Forall (fun a => a == inject_Z v)%Q (positiveValues data)
  /\ length (positiveValues data) = length data.
Proof.
  intros Hv Hall. unfold positiveValues.
  induction Hall as [|d data Hd _ IH]; simpl; [split; constructor|].
  rewrite Hd. destruct (Z.ltb_spec 0 v); [|lia]. simpl.
  destruct IH as [IH1 IH2]. split; [constructor; [reflexivity | exact IH1]|].
  now f_equal.
Qed.

(** The weighted sum of the regression on averages all equal to [c]. *)
Lemma reduce_weighted_const (c : Q) (averages : list Q) (k : nat) (acc : Q) :
  List.Forall (fun a => a == c)%Q averages ->
  (reduce_indexed
     (fun acc val idx => acc + inject_Z (Z.of_nat idx + 1) * val) k
     averages acc
   == acc + c * (len averages * inject_Z (Z.of_nat k)
                 + len averages * (len averages + 1) / 2))%Q.
Proof.
  intros Hall. revert k acc.
  induction Hall as [|a averages Ha _ IH]; intros k acc;
    cbn [reduce_indexed].
  - unfold len; simpl. field.
  - rewrite IH, len_cons, Ha, Nat2Z.inj_succ. unfold Z.succ.
    rewrite !inject_Z_plus. change (inject_Z 1) with 1%Q. field.
Qed.

(** The regression slope of a constant series is zero. *)
Lemma trend_const (c : Q) (averages : list Q) :
  List.Forall (fun a => a == c)%Q averages ->
  (trend averages == 0)%Q.
Proof.
  intros Hall. unfold trend.
  destruct (1 <? length averages)%nat; [|reflexivity].
  cbv zeta. unfold sumValues.
  rewrite (reduce_weighted_const c averages 0 0 Hall),
          (fold_sum_const c averages 0 Hall).
  change (inject_Z (Z.of_nat 0)) with 0%Q.
  set (n := len averages).
  set (den := (n * (n * (n + 1) * (2 * n + 1) / 6)
               - n * (n + 1) / 2 * (n * (n + 1) / 2))%Q).
  assert (Hnum : (n * (0 + c * (n * 0 + n * (n + 1) / 2))
                  - n * (n + 1) / 2 * (0 + n * c) == 0)%Q) by field.
  rewrite Hnum. unfold Qdiv. ring.
Qed.

Lemma recordDay_const (v : Z) (meta : Meta) (patterns : gmap Z (list Q))
    (d : DailyData) :
  value d = v -> buckets_hold v patterns ->
  buckets_hold v (recordDay meta patterns d).
Proof.
  intros Hd Hinv. unfold recordDay. cbv zeta.
  set (dow := getDay (new_Date (year meta) (month meta - 1) (day d))).
  assert (Hcreated :
            buckets_hold v
              match patterns !! dow with
              | Some _ => patterns
              | None => <[dow := []]> patterns
              end).
  { destruct (patterns !! dow); [assumption|].
    apply map_Forall_insert_2; [constructor | assumption]. }
  destruct (0 <? value d); [|assumption].
  intros i bucket Hi.
  apply lookup_alter_Some in Hi as [(_ & old & Hold & ->) | (_ & Hi)].
  - apply List.Forall_app. split; [exact (Hcreated _ _ Hold)|].
    constructor; [rewrite Hd; reflexivity | constructor].
  - exact (Hcreated _ _ Hi).
Qed.

Lemma fold_recordDay_const (v : Z) (meta : Meta) (monthData : list DailyData)
    (patterns : gmap Z (list Q)) :
  List.Forall (fun d => value d = v) monthData ->
  buckets_hold v patterns ->
  buckets_hold v (fold_left (recordDay meta) monthData patterns).
Proof.
  intros Hall. revert patterns.
  induction Hall as [|d monthData Hd _ IH]; intros patterns Hinv; simpl;
    [assumption|].
  apply IH, recordDay_const; assumption.
Qed.

Lemma dayOfWeekPatterns_const (v : Z) (historicalMeta : list Meta)
    (filtered : list (list DailyData)) :
  List.Forall (List.Forall (fun d => value d = v)) filtered ->
  buckets_hold v (dayOfWeekPatterns filtered historicalMeta).
Proof.
  intros Hall. unfold dayOfWeekPatterns.
  assert (Hempty : buckets_hold v ∅) by apply map_Forall_empty.
  revert Hempty. generalize (∅ : gmap Z (list Q)) as patterns.
  generalize 0%nat as k.
  induction Hall as [|monthData filtered Hm _ IH]; intros k patterns Hinv;
    cbn [reduce_indexed]; [assumption|].
  apply IH. destruct (historicalMeta !! k); [|assumption].
  apply fold_recordDay_const; assumption.
Qed.

(** The average of a day of the week, when there is one, is [v]. *)
Lemma dayOfWeekAverages_const (v : Z) (patterns : gmap Z (list Q))
    (overall : Q) (dow : Z) (a : Q) :
  buckets_hold v patterns -> (overall == inject_Z v)%Q ->
  dayOfWeekAverages patterns overall !! dow = Some a ->
  (a == inject_Z v)%Q.
Proof.
  intros Hinv Ho Ha. unfold dayOfWeekAverages in Ha.
  apply lookup_fmap_Some in Ha as (bucket & <- & Hb).
  apply average_or_const; [exact (Hinv _ _ Hb) | right; exact Ho].
Qed.

Lemma Math_round_Z (v : Z) : Math_round (inject_Z v) = v.
Proof.
  unfold Math_round, Qfloor, Qplus, inject_Z. cbn [Qnum Qden].
  change (Z.pos (1 * 2)) with 2.
  pose proof (Z.div_mod (v * 2 + 1 * 1) 2 ltac:(lia)).
  pose proof (Z.mod_pos_bound (v * 2 + 1 * 1) 2 ltac:(lia)).
  lia.
Qed.

Lemma Math_round_const (x : Q) (v : Z) :
  (x == inject_Z v)%Q -> Math_round x = v.
Proof.
  intros H. transitivity (Math_round (inject_Z v)); [|apply Math_round_Z].
  unfold Math_round. apply Qfloor_comp. rewrite H. reflexivity.
Qed.

(** C8, as stated, fails when a month of the history has no
    observation left after the day-type filter: its average counts as
    0 in the regression.  Here both observations left by the weekend
    filter have the value 5, the overall average is 5, and yet the
    trend is 5 and the forecasts are 10 and 20. *)
Lemma constant_history_with_empty_month :
  let filtered := filteredHistorical two_months two_months_meta Weekend in
  two_months <> []
  /\ List.Forall (List.Forall (fun d => value d = 5)) filtered
  /\ (overallAverage filtered == 5)%Q
  /\ ~ (trend (monthlyAverages filtered) == 0)%Q
  /\ List.map forecast
       (calculateForecast integer_sqrt two_months two_months_meta Weekend
                          2025 11)
     = [Some 10; Some 20; Some 10; Some 20; Some 10; Some 20; Some 10;
        Some 20; Some 10; Some 20].
Proof.
  split; [discriminate|]. split; [repeat constructor|].
  split; [reflexivity|]. split; [|vm_compute; reflexivity].
  vm_compute. discriminate.
Qed.

(** C8, amended.  When the history is not empty, every month of it
    keeps at least one observation after the day-type filter, and
    every observation kept has the same positive value [v], the overall
    average is [v], the trend is 0, and every point of the forecast has
    [forecast = v]. *)
Theorem constant_history_forecast (Math_sqrt : Q -> Q)
    (historical : list (list DailyData)) (historicalMeta : list Meta)
    (filter : DayTypeFilter) (targetYear targetMonth : Z) (v : Z) :
  historical <> [] -> 0 < v ->
  let filtered := filteredHistorical historical historicalMeta filter in
  List.Forall (fun monthData =>
                 monthData <> []
                 /\ List.Forall (fun d => value d = v) monthData) filtered ->
  (overallAverage filtered == inject_Z v)%Q
  /\ (trend (monthlyAverages filtered) == 0)%Q
  /\ List.Forall (fun point => forecast point = Some v)
       (calculateForecast Math_sqrt historical historicalMeta filter
                          targetYear targetMonth).
Proof.
  intros Hne Hv filtered Hall.
  assert (Hvalues : List.Forall (List.Forall (fun d => value d = v)) filtered).
  { eapply List.Forall_impl; [|exact Hall]. intros m [_ Hm]. exact Hm. }
  assert (Hfne : filtered <> []).
  { intros E. apply (f_equal (@length _)) in E.
    subst filtered. unfold filteredHistorical in E.
    rewrite length_imap in E. destruct historical; [contradiction|].
    discriminate. }
  assert (Hoverall : (overallAverage filtered == inject_Z v)%Q).
  { unfold overallAverage, allValues.
    assert (Hc : List.Forall (fun d => value d = v) (concat filtered)).
    { clear -Hvalues. induction Hvalues; simpl; [constructor|].
      apply List.Forall_app. split; assumption. }
    destruct (positiveValues_const v (concat filtered) Hv Hc) as [Hp Hlen].
    apply average_or_const; [exact Hp|]. left. intros E.
    rewrite E in Hlen. simpl in Hlen.
    destruct filtered as [|m filtered']; [contradiction|].
    apply List.Forall_inv in Hall as [Hm _].
    destruct m; [contradiction | discriminate]. }
  assert (Htrend : (trend (monthlyAverages filtered) == 0)%Q).
  { apply (trend_const (inject_Z v)). unfold monthlyAverages.
    clear -Hall Hv. induction Hall as [|m filtered [Hm Hmv] _ IH]; simpl;
      constructor; [|exact IH].
    destruct (positiveValues_const v m Hv Hmv) as [Hp Hlen].
    apply average_or_const; [exact Hp|]. left. intros E.
    rewrite E in Hlen. destruct m; [contradiction | discriminate]. }
  split; [exact Hoverall|]. split; [exact Htrend|].
  pose proof (dayOfWeekPatterns_const v historicalMeta filtered Hvalues)
    as Hbuckets.
  unfold calculateForecast.
  destruct historical as [|month0 rest]; [contradiction|].
  fold filtered. cbv zeta.
  rewrite List.Forall_forall. intros point Hin.
  apply list_elem_of_In, list_elem_of_omap in Hin as (d & _ & Hd).
  set (base := (overallAverage filtered
                + trend (monthlyAverages filtered) * (len filtered + 1))%Q)
    in Hd.
  assert (Hbase : (base == inject_Z v)%Q).
  { subst base. rewrite Hoverall, Htrend. ring. }
  set (dow := getDay (new_Date targetYear (targetMonth - 1) d)) in Hd.
  set (fv := match dayOfWeekAverages _ _ !! dow with
             | Some a => _
             | None => _
             end) in Hd.
  assert (Hfv : (fv == inject_Z v)%Q).
  { subst fv.
    destruct (dayOfWeekAverages (dayOfWeekPatterns filtered historicalMeta)
                (overallAverage filtered) !! dow) as [a|] eqn:Ha;
      [|exact Hbase].
    apply (dayOfWeekAverages_const v _ _ _ _ Hbuckets Hoverall) in Ha.
    destruct (Qeq_bool a 0); [exact Hbase|].
    rewrite Ha, Hbase. field. }
  assert (Hpoint : Z.max 0 (Math_round fv) = v).
  { rewrite (Math_round_const fv v Hfv). lia. }
  destruct filter; destruct ((dow =? 0) || (dow =? 6));
    try discriminate; injection Hd as <-; cbn [forecast];
    now rewrite Hpoint.
Qed.

(** One month of 120 packages a day: every day of November 2025 is
    forecast at 120. *)
Lemma constant_history_forecast_witness :
  List.Forall (fun point => forecast point = Some 120)
    (calculateForecast integer_sqrt steady_month steady_month_meta All
                       2025 11).
Proof.
  destruct (constant_history_forecast integer_sqrt steady_month
              steady_month_meta All 2025 11 120) as (_ & _ & Hall);
    [discriminate | lia | | exact Hall].
  vm_compute. repeat constructor; discriminate.
Defined.

End ConstantHistory.

(** ** The fleet component: manual edits *)

Section ManualEdits.
Import JsNum Fleet Scenarios FleetEdits.

(** X1.  Editing the regular count of a day and then its large count,
    or the other way round, leaves the override made of the two
    numbers entered, whatever the day had before; a text that does not
    parse counts as 0.  The other days keep their overrides. *)
Theorem manual_edits_compose (parseInt : string -> option Z) (d : Z)
    (regularText largeText : string) (prev : gmap Z ManualAssignment) :
  let entered := {| regular := default 0 (parseInt regularText);
                    large := default 0 (parseInt largeText) |} in
  handleManualAssignment parseInt d LargeType largeText
    (handleManualAssignment parseInt d RegularType regularText prev)
  = <[ d := entered ]> prev
  /\ handleManualAssignment parseInt d RegularType regularText
       (handleManualAssignment parseInt d LargeType largeText prev)
     = <[ d := entered ]> prev.
Proof.
  unfold handleManualAssignment. cbv zeta.
  rewrite !lookup_insert_eq, !insert_insert_eq. simpl. split; reflexivity.
Qed.

(** A single edit keeps the other count of an existing override, and
    takes 0 for it when the day had none. *)
Lemma handleManualAssignment_lookup (parseInt : string -> option Z)
    (d : Z) (type : TruckType) (value : string)
    (prev : gmap Z ManualAssignment) (d' : Z) :
  handleManualAssignment parseInt d type value prev !! d'
  = if decide (d = d')
    then Some
           match type with
           | RegularType =>
               {| regular := default 0 (parseInt value);
                  large := default 0 (large <$> prev !! d) |}
           | LargeType =>
               {| regular := default 0 (regular <$> prev !! d);
                  large := default 0 (parseInt value) |}
           end
    else prev !! d'.
Proof.
  unfold handleManualAssignment. cbv zeta. rewrite lookup_insert.
  destruct (decide (d = d')), type; reflexivity.
Qed.

(** X2.  The first edit of a day replaces the whole recommendation:
    for a day with packages, positive capacities and no override yet,
    entering a count for one kind of truck assigns that count and no
    truck of the other kind, whatever was recommended; the
    recommendation itself is unchanged and the remaining packages are
    counted against the entered trucks alone. *)
Theorem first_edit_drops_other_kind (parseInt : string -> option Z)
    (s : FleetState) (d : DailyForecastData) (p : Z) (type : TruckType)
    (value : string) :
  forecast d = Some p -> 0 < p ->
  0 < regularTruckCapacity s -> 0 < largeTruckCapacityMax s ->
  manualAssignments s !! day d = None ->
  let n := default 0 (parseInt value) in
  let s' := withManualAssignments s
              (handleManualAssignment parseInt (day d) type value
                 (manualAssignments s)) in
  let r := requirementForDay s d in
  let r' := requirementForDay s' d in
  let capacity := match type with
                  | RegularType => regularTruckCapacity s
                  | LargeType => largeTruckCapacityMax s
                  end in
  regularTrucks r' = regularTrucks r
  /\ largeTrucks r' = largeTrucks r
  /\ assignedRegularTrucks r'
     = Some (Int match type with RegularType => n | LargeType => 0 end)
  /\ assignedLargeTrucks r'
     = Some (Int match type with RegularType => 0 | LargeType => n end)
  /\ remainingPackages r' = Some (Int (Z.max 0 (p - n * capacity))).
Proof.
  intros Hf Hp Hrc Hlc Hnone n s' r r'.
  destruct (recommendTrucks_covers (optimizationStrategy s)
              (useLargeTrucks s) p (regularTruckCapacity s)
              (largeTruckCapacityMax s) Hp Hrc Hlc)
    as (R & L & Hrec & _).
  subst r r'.
  rewrite (requirementForDay_packages s d p R L Hf ltac:(lia) Hrec).
  rewrite (requirementForDay_packages s' d p R L Hf ltac:(lia) Hrec).
  cbn [manualAssignments s' withManualAssignments regularTruckCapacity
       largeTruckCapacityMax regularTrucks largeTrucks
       assignedRegularTrucks assignedLargeTrucks remainingPackages].
  rewrite handleManualAssignment_lookup, Hnone.
  destruct (decide (day d = day d)) as [_|Hne]; [|contradiction].
  fold n. destruct type; cbn [regular large fmap option_fmap option_map default];
    repeat split; do 3 f_equal; lia.
Qed.

(** 3600 packages are recommended one regular and one large truck;
    entering one regular truck by hand leaves one regular truck, no
    large truck and 1400 packages remaining. *)
Lemma first_edit_drops_other_kind_witness :
  let s := default_state [] Cost true ∅ in
  let d := forecast_day 9 3600 in
  let s' := withManualAssignments s
              (handleManualAssignment read_decimal 9 RegularType
                 "1"%string ∅) in
  largeTrucks (requirementForDay s' d) = Int 1
  /\ assignedLargeTrucks (requirementForDay s' d) = Some (Int 0)
  /\ remainingPackages (requirementForDay s' d) = Some (Int 1400).
Proof.
  destruct (first_edit_drops_other_kind read_decimal
              (default_state [] Cost true ∅) (forecast_day 9 3600) 3600
              RegularType "1"%string)
    as (_ & HL & _ & HaL & Hrem);
    [reflexivity | lia | simpl; lia | simpl; lia | reflexivity |].
  cbv zeta. split; [etransitivity; [exact HL | vm_compute; reflexivity]|].
  split; [exact HaL | exact Hrem].
Defined.

End ManualEdits.

(** ** The fleet component: the summary *)

Section Summary.
Import JsNum Fleet Scenarios FleetSummary.

Lemma intValue_Int (z : Z) : intValue (Int z) = z.
Proof. unfold intValue, Int. apply Qfloor_Z. Qed.

Lemma shownRemaining_Int (r : FleetRequirement) (k : Z) :
  remainingPackages r = Some (Int k) -> shownRemaining r = Int k.
Proof.
  intros H. unfold shownRemaining. rewrite H. unfold Int.
  change 0%Q with (inject_Z 0). rewrite Qeq_bool_inject_Z.
  destruct (Z.eqb_spec k 0) as [-> |]; reflexivity.
Qed.

Lemma js_or_Int (a b : Z) :
  js_or (Some (Int a)) (Int b) = Int (if a =? 0 then b else a).
Proof.
  unfold js_or, Int. change 0%Q with (inject_Z 0).
  rewrite Qeq_bool_inject_Z. destruct (a =? 0); reflexivity.
Qed.

Lemma requirementForDay_view (s : FleetState) (d : DailyForecastData) :
  0 < regularTruckCapacity s -> 0 < largeTruckCapacityMax s ->
  0 <= default 0 (forecast d) ->
  exists aR aL R L,
    integer_view (regularTruckCapacity s) (largeTruckCapacityMax s)
                 (requirementForDay s d) aR aL R L
    /\ (manualAssignments s !! day d = None -> aR = R /\ aL = L).
Proof.
  intros Hrc Hlc Hp.
  destruct (Z.eq_dec (default 0 (forecast d)) 0) as [Hz | Hnz].
  - rewrite (requirementForDay_no_packages s d Hz).
    exists 0, 0, 0, 0. split; [|auto].
    split; cbn; try reflexivity; try lia; auto.
  - destruct (forecast d) as [p|] eqn:Hf; [|contradiction].
    simpl in Hp, Hnz.
    destruct (recommendTrucks_covers (optimizationStrategy s)
                (useLargeTrucks s) p (regularTruckCapacity s)
                (largeTruckCapacityMax s) ltac:(lia) Hrc Hlc)
      as (R & L & Hrec & HR & HL & Hcov).
    rewrite (requirementForDay_packages s d p R L Hf Hnz Hrec).
    eexists _, _, R, L. split.
    + split; cbn [shownRegularTrucks shownLargeTrucks assignedRegularTrucks
                  assignedLargeTrucks regularTrucks largeTrucks packages
                  default];
        try reflexivity; try lia; auto.
      apply shownRemaining_Int. reflexivity.
    + intros ->. split; reflexivity.
Qed.

(** The sums of the summary, over requirements that are integers. *)
Lemma totals_Int (rc lc : Z) (reqs : list FleetRequirement) :
  List.Forall (fun r => exists aR aL R L, integer_view rc lc r aR aL R L)
              reqs ->
  exists TR TL Rem : Z,
    totalRegularTrucks reqs = Int TR
    /\ totalLargeTrucks reqs = Int TL
    /\ totalRemainingPackages reqs = Int Rem
    /\ 0 <= Rem
    /\ totalPackages reqs <= TR * rc + TL * lc + Rem
    /\ (Rem = 0 <->
        List.Forall (fun r => shownRemaining r = Int 0) reqs).
Proof.
  unfold totalRegularTrucks, totalLargeTrucks, totalRemainingPackages,
    totalPackages.
  induction reqs as [|r reqs IH] using rev_ind; intros Hall.
  - exists 0, 0, 0. simpl. repeat split; try reflexivity; try lia.
    constructor.
  - apply List.Forall_app in Hall as [Hreqs Hr].
    apply List.Forall_inv in Hr as (aR & aL & R & L & Hv).
    destruct (IH Hreqs) as (TR & TL & Rem & ER & EL & ERem & Hpos & Hcov & Hz).
    rewrite !fold_left_app. cbn [fold_left].
    rewrite ER, EL, ERem.
    rewrite (view_regular _ _ _ _ _ _ _ Hv), (view_large _ _ _ _ _ _ _ Hv),
            (view_remaining _ _ _ _ _ _ _ Hv), !js_add_Int.
    eexists _, _, _. do 3 (split; [reflexivity|]).
    split; [lia|]. split; [lia|].
    rewrite List.Forall_app, <- Hz. split.
    + intros E. split; [lia|]. constructor; [|constructor].
      rewrite (view_remaining _ _ _ _ _ _ _ Hv). f_equal. lia.
    + intros [-> Hlast]. apply List.Forall_inv in Hlast.
      rewrite (view_remaining _ _ _ _ _ _ _ Hv) in Hlast.
      apply (f_equal intValue) in Hlast. rewrite !intValue_Int in Hlast. lia.
Qed.

Lemma calculateFleetRequirements_views (s : FleetState) :
  0 < regularTruckCapacity s -> 0 < largeTruckCapacityMax s ->
  List.Forall (fun d => 0 <= default 0 (forecast d)) (dataToProcess s) ->
  List.Forall
    (fun r => exists aR aL R L,
       integer_view (regularTruckCapacity s) (largeTruckCapacityMax s)
                    r aR aL R L)
    (calculateFleetRequirements s).
Proof.
  intros Hrc Hlc Hall. unfold calculateFleetRequirements.
  induction Hall as [|d data Hd _ IH]; simpl; constructor; [|exact IH].
  destruct (requirementForDay_view s d Hrc Hlc Hd) as (aR & aL & R & L & Hv & _).
  eauto.
Qed.

(** X3.  With positive capacities and forecasts that are not negative,
    the totals of the summary are integers; the total of the remaining
    packages is not negative and, added to the total assigned
    capacity, covers the total of the packages; it is zero exactly
    when no day shows remaining packages; and the additional capacity
    is the excess of the assigned capacity over the packages, zero
    when there is none. *)
Theorem summary_accounting (s : FleetState) :
  0 < regularTruckCapacity s -> 0 < largeTruckCapacityMax s ->
  List.Forall (fun d => 0 <= default 0 (forecast d)) (dataToProcess s) ->
  let rc := regularTruckCapacity s in
  let lc := largeTruckCapacityMax s in
  let reqs := calculateFleetRequirements s in
  exists TR TL Rem : Z,
    totalRegularTrucks reqs = Int TR
    /\ totalLargeTrucks reqs = Int TL
    /\ totalTrucks reqs = Int (TR + TL)
    /\ totalAssignedCapacity rc lc reqs = Int (TR * rc + TL * lc)
    /\ totalRemainingPackages reqs = Int Rem
    /\ 0 <= Rem
    /\ totalPackages reqs <= TR * rc + TL * lc + Rem
    /\ (Rem = 0 <-> List.Forall (fun r => shownRemaining r = Int 0) reqs)
    /\ totalAdditionalCapacity rc lc reqs
       = Int (Z.max 0 (TR * rc + TL * lc - totalPackages reqs)).
Proof.
  intros Hrc Hlc Hall rc lc reqs.
  destruct (totals_Int rc lc reqs
              (calculateFleetRequirements_views s Hrc Hlc Hall))
    as (TR & TL & Rem & ER & EL & ERem & Hpos & Hcov & Hz).
  exists TR, TL, Rem.
  assert (Ecap : totalAssignedCapacity rc lc reqs = Int (TR * rc + TL * lc)).
  { unfold totalAssignedCapacity.
    now rewrite ER, EL, !js_mul_Int, js_add_Int. }
  repeat (split; [first [assumption | unfold totalTrucks;
                          now rewrite ER, EL, js_add_Int]|]).
  unfold totalAdditionalCapacity. cbv zeta.
  rewrite Ecap, js_gt_Int, js_sub_Int.
  destruct (Z.ltb_spec (totalPackages reqs) (TR * rc + TL * lc));
    f_equal; lia.
Qed.

(** A day whose assigned trucks fall short next to a day with spare
    trucks: the summary shows 800 packages remaining and 600 of
    additional capacity at once. *)
Lemma summary_accounting_witness :
  let s := default_state [forecast_day 1 3000; forecast_day 2 3000] Cost true
             {[ 1 := {| regular := 1; large := 0 |};
                2 := {| regular := 2; large := 0 |} ]} in
  let reqs := calculateFleetRequirements s in
  totalPackages reqs = 6000
  /\ totalAssignedCapacity 2200 2800 reqs = Int 6600
  /\ totalRemainingPackages reqs = Int 800
  /\ totalAdditionalCapacity 2200 2800 reqs = Int 600.
Proof.
  destruct (summary_accounting
              (default_state [forecast_day 1 3000; forecast_day 2 3000]
                 Cost true
                 {[ 1 := {| regular := 1; large := 0 |};
                    2 := {| regular := 2; large := 0 |} ]}))
    as (TR & TL & Rem & ER & EL & _ & Ecap & ERem & _ & _ & _ & Eadd);
    [simpl; lia | simpl; lia | repeat constructor; simpl; lia |].
  assert (HTR : TR = 3)
    by (apply (f_equal intValue) in ER; rewrite intValue_Int in ER;
        rewrite <- ER; vm_compute; reflexivity).
  assert (HTL : TL = 0)
    by (apply (f_equal intValue) in EL; rewrite intValue_Int in EL;
        rewrite <- EL; vm_compute; reflexivity).
  assert (HRem : Rem = 800)
    by (apply (f_equal intValue) in ERem; rewrite intValue_Int in ERem;
        rewrite <- ERem; vm_compute; reflexivity).
  subst TR TL Rem. cbv zeta.
  split; [vm_compute; reflexivity|].
  split; [exact Ecap|]. split; [exact ERem | exact Eadd].
Defined.

(** The totals of days that are all covered. *)
Lemma totals_covered (rc lc : Z) (reqs : list FleetRequirement) :
  List.Forall
    (fun r => exists aR aL R L,
       integer_view rc lc r aR aL R L /\ aR = R /\ aL = L) reqs ->
  exists TR TL : Z,
    totalRegularTrucks reqs = Int TR
    /\ totalLargeTrucks reqs = Int TL
    /\ totalRemainingPackages reqs = Int 0
    /\ totalPackages reqs <= TR * rc + TL * lc.
Proof.
  unfold totalRegularTrucks, totalLargeTrucks, totalRemainingPackages,
    totalPackages.
  induction reqs as [|r reqs IH] using rev_ind; intros Hall.
  - exists 0, 0. simpl. repeat split; try reflexivity; lia.
  - apply List.Forall_app in Hall as [Hreqs Hr].
    apply List.Forall_inv in Hr as (aR & aL & R & L & Hv & -> & ->).
    destruct (IH Hreqs) as (TR & TL & ER & EL & ERem & Hcov).
    rewrite !fold_left_app. cbn [fold_left].
    rewrite ER, EL, ERem.
    rewrite (view_regular _ _ _ _ _ _ _ Hv), (view_large _ _ _ _ _ _ _ Hv),
            (view_remaining _ _ _ _ _ _ _ Hv), !js_add_Int.
    destruct (view_covers _ _ _ _ _ _ _ Hv) as (_ & _ & Hc).
    eexists _, _. do 2 (split; [reflexivity|]).
    split; [f_equal; lia | lia].
Qed.

(** X4.  Without any override on the days processed, with positive
    capacities and forecasts that are not negative, the summary shows
    no remaining packages, an assigned capacity that covers the
    packages, and their difference as additional capacity. *)
Theorem summary_without_overrides (s : FleetState) :
  0 < regularTruckCapacity s -> 0 < largeTruckCapacityMax s ->
  List.Forall (fun d => 0 <= default 0 (forecast d)
                        /\ manualAssignments s !! day d = None)
              (dataToProcess s) ->
  let rc := regularTruckCapacity s in
  let lc := largeTruckCapacityMax s in
  let reqs := calculateFleetRequirements s in
  exists TR TL : Z,
    totalAssignedCapacity rc lc reqs = Int (TR * rc + TL * lc)
    /\ totalRemainingPackages reqs = Int 0
    /\ totalPackages reqs <= TR * rc + TL * lc
    /\ totalAdditionalCapacity rc lc reqs
       = Int (TR * rc + TL * lc - totalPackages reqs).
Proof.
  intros Hrc Hlc Hall rc lc reqs.
  assert (Hviews : List.Forall
            (fun r => exists aR aL R L,
               integer_view rc lc r aR aL R L /\ aR = R /\ aL = L) reqs).
  { subst reqs. unfold calculateFleetRequirements.
    induction Hall as [|d data [Hd Hnone] _ IH]; simpl; constructor;
      [|exact IH].
    destruct (requirementForDay_view s d Hrc Hlc Hd)
      as (aR & aL & R & L & Hv & Heq).
    destruct (Heq Hnone). eauto 8. }
  destruct (totals_covered rc lc reqs Hviews)
    as (TR & TL & ER & EL & ERem & Hcov).
  exists TR, TL.
  assert (Ecap : totalAssignedCapacity rc lc reqs = Int (TR * rc + TL * lc)).
  { unfold totalAssignedCapacity.
    now rewrite ER, EL, !js_mul_Int, js_add_Int. }
  split; [exact Ecap|]. split; [exact ERem|]. split; [exact Hcov|].
  unfold totalAdditionalCapacity. cbv zeta.
  rewrite Ecap, js_gt_Int, js_sub_Int.
  destruct (Z.ltb_spec (totalPackages reqs) (TR * rc + TL * lc));
    f_equal; lia.
Qed.

Lemma summary_without_overrides_witness :
  let reqs := calculateFleetRequirements
                (default_state [forecast_day 1 3000; forecast_day 2 0;
                                forecast_day 3 3600] Cost true ∅) in
  totalRemainingPackages reqs = Int 0
  /\ totalPackages reqs = 6600
  /\ exists TR TL : Z,
       totalAdditionalCapacity 2200 2800 reqs
       = Int (TR * 2200 + TL * 2800 - 6600).
Proof.
  destruct (summary_without_overrides
              (default_state [forecast_day 1 3000; forecast_day 2 0;
                              forecast_day 3 3600] Cost true ∅))
    as (TR & TL & _ & ERem & _ & Eadd);
    [simpl; lia | simpl; lia
    | repeat constructor; simpl; lia |].
  cbv zeta. split; [exact ERem|]. split; [vm_compute; reflexivity|].
  exists TR, TL. exact Eadd.
Defined.

(** The trucks a requirement shows, as an integer. *)
Lemma shownTotalTrucks_view (rc lc : Z) (r : FleetRequirement)
    (aR aL R L : Z) :
  integer_view rc lc r aR aL R L -> shownTotalTrucks r = Int (aR + aL).
Proof.
  intros Hv. unfold shownTotalTrucks.
  now rewrite (view_regular _ _ _ _ _ _ _ Hv), (view_large _ _ _ _ _ _ _ Hv),
              js_add_Int.
Qed.

(** The reduction of [peakDay] keeps the first requirement with the
    most trucks among those it has seen. *)
Lemma peak_fold (rest seen : list FleetRequirement) (best : FleetRequirement) :
  let count r := intValue (shownTotalTrucks r) in
  List.Forall (fun r => shownTotalTrucks r = Int (count r))
              (seen ++ rest) ->
  (exists before after,
      seen = before ++ best :: after
      /\ List.Forall (fun r => count r < count best) before
      /\ List.Forall (fun r => count r <= count best) after) ->
  exists before after,
    seen ++ rest
    = before
      ++ fold_left
           (fun max r =>
              if js_gt (shownTotalTrucks r) (shownTotalTrucks max)
              then r else max) rest best
      :: after
    /\ List.Forall
         (fun r => count r
                   < count (fold_left
                              (fun max r =>
                                 if js_gt (shownTotalTrucks r)
                                          (shownTotalTrucks max)
                                 then r else max) rest best)) before
    /\ List.Forall
         (fun r => count r
                   <= count (fold_left
                               (fun max r =>
                                  if js_gt (shownTotalTrucks r)
                                           (shownTotalTrucks max)
                                  then r else max) rest best)) after.
Proof.
  intros count. revert seen best.
  induction rest as [|r rest IH]; intros seen best Hint Hinv.
  - rewrite app_nil_r. exact Hinv.
  - cbn [fold_left].
    replace (seen ++ r :: rest) with ((seen ++ [r]) ++ rest) in *
      by (rewrite <- List.app_assoc; reflexivity).
    apply IH; [exact Hint|].
    destruct Hinv as (before & after & -> & Hb & Ha).
    assert (Hr : shownTotalTrucks r = Int (count r)).
    { rewrite List.Forall_forall in Hint. apply Hint.
      rewrite !List.in_app_iff. left. right. left. reflexivity. }
    assert (Hbest : shownTotalTrucks best = Int (count best)).
    { rewrite List.Forall_forall in Hint. apply Hint.
      rewrite !List.in_app_iff. left. left. right. left. reflexivity. }
    rewrite Hr, Hbest, js_gt_Int.
    destruct (Z.ltb_spec (count best) (count r)) as [Hlt | Hge].
    + exists (before ++ best :: after), [].
      split; [reflexivity|]. split; [|constructor].
      apply List.Forall_app. split.
      * eapply List.Forall_impl; [|exact Hb]. simpl. intros; lia.
      * constructor; [lia|].
        eapply List.Forall_impl; [|exact Ha]. simpl. intros; lia.
    + exists before, (after ++ [r]).
      split; [rewrite <- List.app_assoc; reflexivity|].
      split; [exact Hb|].
      apply List.Forall_app. split; [exact Ha|].
      constructor; [lia | constructor].
Qed.

(** X5.  With positive capacities and forecasts that are not negative,
    the peak day of a list of requirements that is not empty is one of
    them, shows at least as many trucks as every other, and strictly
    more than every one before it: among equals, the first. *)
Theorem peakDay_first_maximum (s : FleetState) :
  0 < regularTruckCapacity s -> 0 < largeTruckCapacityMax s ->
  List.Forall (fun d => 0 <= default 0 (forecast d)) (dataToProcess s) ->
  dataToProcess s <> [] ->
  let reqs := calculateFleetRequirements s in
  let count r := intValue (shownTotalTrucks r) in
  exists peak before after,
    peakDay reqs = Some peak
    /\ reqs = before ++ peak :: after
    /\ List.Forall (fun r => count r < count peak) before
    /\ List.Forall (fun r => count r <= count peak) after.
Proof.
  intros Hrc Hlc Hall Hne reqs count.
  assert (Hint : List.Forall (fun r => shownTotalTrucks r = Int (count r))
                             reqs).
  { eapply List.Forall_impl;
      [|exact (calculateFleetRequirements_views s Hrc Hlc Hall)].
    intros r (aR & aL & R & L & Hv). subst count. cbv beta.
    rewrite (shownTotalTrucks_view _ _ _ _ _ _ _ Hv), intValue_Int.
    reflexivity. }
  destruct reqs as [|first rest] eqn:E.
  { subst reqs. unfold calculateFleetRequirements in E.
    apply List.map_eq_nil in E. contradiction. }
  unfold peakDay.
  destruct (peak_fold rest [first] first Hint) as (before & after & H1 & H2 & H3).
  { exists [], []. split; [reflexivity|]. split; constructor. }
  cbn [fold_left].
  assert (Hfirst : shownTotalTrucks first = Int (count first))
    by (apply List.Forall_inv in Hint; exact Hint).
  rewrite Hfirst, js_gt_Int, Z.ltb_irrefl.
  eexists _, before, after. split; [reflexivity|].
  split; [exact H1|]. split; [exact H2 | exact H3].
Qed.

(** Three days with one, two and two trucks: the peak is the second
    day. *)
Lemma peakDay_first_maximum_witness :
  let reqs := calculateFleetRequirements
                (default_state [forecast_day 1 2000; forecast_day 2 3000;
                                forecast_day 3 4400] Cost true ∅) in
  let count r := intValue (shownTotalTrucks r) in
  exists peak before after,
    peakDay reqs = Some peak
    /\ reqs = before ++ peak :: after
    /\ List.Forall (fun r => count r < count peak) before
    /\ List.Forall (fun r => count r <= count peak) after.
Proof.
  apply (peakDay_first_maximum
           (default_state [forecast_day 1 2000; forecast_day 2 3000;
                           forecast_day 3 4400] Cost true ∅));
    [simpl; lia | simpl; lia | repeat constructor; simpl; lia
    | discriminate].
Defined.

Example peakDay_of_three_days :
  req_day <$> peakDay (calculateFleetRequirements
                         (default_state [forecast_day 1 2000;
                                         forecast_day 2 3000;
                                         forecast_day 3 4400] Cost true ∅))
  = Some 2.
Proof. vm_compute. reflexivity. Qed.

(** The count of the axis, read with [||], is an integer at least the
    count shown. *)
Lemma axis_count_view (rc lc : Z) (r : FleetRequirement) (aR aL R L : Z) :
  integer_view rc lc r aR aL R L ->
  exists k,
    js_add (js_or (assignedRegularTrucks r) (regularTrucks r))
           (js_or (assignedLargeTrucks r) (largeTrucks r)) = Int k
    /\ intValue (shownTotalTrucks r) <= k.
Proof.
  intros Hv.
  rewrite (shownTotalTrucks_view _ _ _ _ _ _ _ Hv), intValue_Int.
  destruct (view_recommended _ _ _ _ _ _ _ Hv) as [-> ->].
  destruct (view_covers _ _ _ _ _ _ _ Hv) as (HR & HL & _).
  assert (HaR : exists x, js_or (assignedRegularTrucks r) (Int R) = Int x
                          /\ aR <= x).
  { destruct (view_assigned_regular _ _ _ _ _ _ _ Hv) as [[-> ->] | ->].
    - exists R. split; [reflexivity | lia].
    - rewrite js_or_Int. eexists. split; [reflexivity|].
      destruct (Z.eqb_spec aR 0); lia. }
  assert (HaL : exists y, js_or (assignedLargeTrucks r) (Int L) = Int y
                          /\ aL <= y).
  { destruct (view_assigned_large _ _ _ _ _ _ _ Hv) as [[-> ->] | ->].
    - exists L. split; [reflexivity | lia].
    - rewrite js_or_Int. eexists. split; [reflexivity|].
      destruct (Z.eqb_spec aL 0); lia. }
  destruct HaR as (x & -> & Hx), HaL as (y & -> & Hy).
  rewrite js_add_Int. exists (x + y). split; [reflexivity | lia].
Qed.

Lemma maxTrucks_view (rc lc : Z) (reqs : list FleetRequirement) :
  List.Forall (fun r => exists aR aL R L, integer_view rc lc r aR aL R L)
              reqs ->
  exists M,
    maxTrucks reqs = Int M /\ 0 <= M
    /\ List.Forall (fun r => intValue (shownTotalTrucks r) <= M) reqs.
Proof.
  unfold maxTrucks.
  induction 1 as [|r reqs (aR & aL & R & L & Hv) _ IH]; simpl.
  - exists 0. repeat split; [lia | constructor].
  - destruct IH as (M & -> & HM & Hall).
    destruct (axis_count_view _ _ _ _ _ _ _ Hv) as (k & -> & Hk).
    rewrite js_max_Int. exists (Z.max k M).
    split; [reflexivity|]. split; [lia|].
    constructor; [lia|].
    eapply List.Forall_impl; [|exact Hall]. simpl. intros; lia.
Qed.

(** X6.  With positive capacities and forecasts that are not negative,
    the top of the truck axis is a multiple of 5 that no bar exceeds:
    it is at least the trucks shown for any day, it is 10 when no day
    counts a truck, and otherwise less than 5 above the largest
    count. *)
Theorem yAxisMax_covers_bars (s : FleetState) :
  0 < regularTruckCapacity s -> 0 < largeTruckCapacityMax s ->
  List.Forall (fun d => 0 <= default 0 (forecast d)) (dataToProcess s) ->
  let reqs := calculateFleetRequirements s in
  exists M Y : Z,
    maxTrucks reqs = Int M /\ yAxisMax reqs = Int Y
    /\ 0 <= M /\ M <= Y /\ Y mod 5 = 0
    /\ (M = 0 -> Y = 10) /\ (0 < M -> Y < M + 5)
    /\ List.Forall (fun r => intValue (shownTotalTrucks r) <= Y) reqs.
Proof.
  intros Hrc Hlc Hall reqs.
  destruct (maxTrucks_view _ _ reqs
              (calculateFleetRequirements_views s Hrc Hlc Hall))
    as (M & EM & HM & Hbars).
  unfold yAxisMax. rewrite EM, js_ceil_div_Int, js_mul_Int, js_or_Int by lia.
  set (c := - (- M / 5) * 5).
  assert (Hc : M <= c < M + 5 /\ c mod 5 = 0).
  { subst c. split; [|apply Z.mod_mul; lia].
    pose proof (Z.div_mod (- M) 5 ltac:(lia)).
    pose proof (Z.mod_pos_bound (- M) 5 ltac:(lia)). lia. }
  exists M, (if c =? 0 then 10 else c).
  split; [reflexivity|]. split; [reflexivity|].
  destruct (Z.eqb_spec c 0) as [E | E].
  - repeat split; try lia.
    eapply List.Forall_impl; [|exact Hbars]. simpl. intros; lia.
  - repeat split; try lia.
    eapply List.Forall_impl; [|exact Hbars]. simpl. intros; lia.
Qed.

(** Days of one, two and eleven trucks: the axis goes to 15. *)
Lemma yAxisMax_covers_bars_witness :
  yAxisMax (calculateFleetRequirements
              (default_state [forecast_day 1 2000; forecast_day 2 3000;
                              forecast_day 3 24000] Cost true ∅))
  = Int 15.
Proof.
  destruct (yAxisMax_covers_bars
              (default_state [forecast_day 1 2000; forecast_day 2 3000;
                              forecast_day 3 24000] Cost true ∅))
    as (M & Y & EM & EY & _ & _ & _ & _ & _ & _);
    [simpl; lia | simpl; lia | repeat constructor; simpl; lia |].
  rewrite EY. f_equal.
  apply (f_equal intValue) in EY. rewrite intValue_Int in EY.
  rewrite <- EY. vm_compute. reflexivity.
Defined.

(** A day overridden to no truck still counts its recommendation on
    the axis. *)
Example yAxisMax_ignores_zero_override :
  let reqs := calculateFleetRequirements
                (default_state [forecast_day 1 24000] Cost true
                   {[ 1 := {| regular := 0; large := 0 |} ]}) in
  shownTotalTrucks <$> reqs = [Int 0] /\ yAxisMax reqs = Int 15.
Proof. vm_compute. split; reflexivity. Qed.

End Summary.

(** ** The fleet component: the forecast of a terminal *)

(** Linear arithmetic with divisions by constants. *)
Ltac euclid_lia := Z.to_euclidean_division_equations; lia.

Section TerminalMonth.
Import JsDate JsDateFields TerminalForecast.

Lemma MakeDay_carry (y k dt : Z) :
  MakeDay y k dt = MakeDay (y + k / 12) (k mod 12) dt.
Proof.
  unfold MakeDay.
  replace (k mod 12 / 12) with 0 by euclid_lia.
  replace ((k mod 12) mod 12) with (k mod 12) by euclid_lia.
  now rewrite Z.add_0_r.
Qed.

(** The first day of a month built from any month index. *)
Lemma first_of_month (y k : Z) :
  YearFromDay (MakeDay y k 1) = y + k / 12
  /\ MonthFromDay (MakeDay y k 1) = k mod 12
  /\ DateFromDay (MakeDay y k 1) = 1.
Proof.
  rewrite MakeDay_carry. apply civil_round_trip; [euclid_lia|].
  assert (0 <= k mod 12 <= 11) as Hm by euclid_lia.
  destruct (InLeapYear (y + k / 12));
    assert (k mod 12 = 0 \/ k mod 12 = 1 \/ k mod 12 = 2 \/ k mod 12 = 3
            \/ k mod 12 = 4 \/ k mod 12 = 5 \/ k mod 12 = 6 \/ k mod 12 = 7
            \/ k mod 12 = 8 \/ k mod 12 = 9 \/ k mod 12 = 10
            \/ k mod 12 = 11) as Hc by lia;
    repeat (destruct Hc as [-> | Hc]); try rewrite Hc; simpl; lia.
Qed.

(** X7.  The month consulted [i] months back is the calendar month
    that many months before the selected one, the year changing with
    it: when that month is within the range of [Date], the request
    carries a month from 1 to 12 and counts [i] months less than the
    selected month of the selected year, as the [Date] constructor
    reads the year - a year from 0 to 99 as 1900 to 1999. *)
Theorem historical_month_goes_back (selectedYear selectedMonth i : Z) :
  monthInRange selectedYear (selectedMonth - 1 - i) = true ->
  let date := new_Date selectedYear (selectedMonth - 1 - i) 1 in
  let month := getMonth date + 1 in
  let year := getFullYear date in
  1 <= month <= 12
  /\ 12 * year + month = 12 * fullYear selectedYear + selectedMonth - i.
Proof.
  intros _. cbv zeta. unfold getMonth, getFullYear, new_Date.
  destruct (first_of_month (fullYear selectedYear) (selectedMonth - 1 - i))
    as (-> & -> & _).
  euclid_lia.
Qed.

(** Three months before January 2026: October 2025. *)
Lemma historical_month_goes_back_witness :
  let date := new_Date 2026 (1 - 1 - 3) 1 in
  getMonth date + 1 = 10 /\ getFullYear date = 2025.
Proof.
  destruct (historical_month_goes_back 2026 1 3) as [Hm Hy];
    [reflexivity|].
  cbv zeta in *. unfold fullYear in Hy. cbn [andb Z.leb] in Hy.
  assert (getFullYear (new_Date 2026 (1 - 1 - 3) 1) = 2025
          /\ getMonth (new_Date 2026 (1 - 1 - 3) 1) = 9)
    by (split; reflexivity).
  lia.
Defined.

(** From January 2026 the three months consulted are December,
    November and October 2025. *)
Example historical_months_before_january :
  List.map (fun i => let date := new_Date 2026 (1 - 1 - i) 1 in
                     (getFullYear date, getMonth date + 1)) [1; 2; 3]
  = [(2025, 12); (2025, 11); (2025, 10)].
Proof. reflexivity. Qed.

Lemma fold_add_bounds (values : list Z) (lo hi acc : Z) :
  List.Forall (fun v => lo <= v <= hi) values ->
  acc + lo * Z.of_nat (length values)
  <= fold_left Z.add values acc
  <= acc + hi * Z.of_nat (length values).
Proof.
  intros Hall. revert acc.
  induction Hall as [|v values Hv _ IH]; intros acc; cbn [fold_left length].
  - lia.
  - specialize (IH (acc + v)). lia.
Qed.

(** The forecast of a day lies between the smallest and the largest of
    its historical values. *)
Lemma dayForecast_bounds (values : list Z) (lo hi : Z) :
  values <> [] -> List.Forall (fun v => lo <= v <= hi) values ->
  lo <= dayForecast values <= hi.
Proof.
  intros Hne Hall. unfold dayForecast.
  destruct (Nat.ltb_spec 0 (length values)) as [Hlen | Hlen];
    [|destruct values; [contradiction | simpl in Hlen; lia]].
  pose proof (fold_add_bounds values lo hi 0 Hall) as Hsum.
  set (total := fold_left Z.add values 0) in *.
  set (n := Z.of_nat (length values)) in *.
  assert (Hn : 0 < n) by (subst n; lia).
  assert (Hq : (inject_Z lo <= inject_Z total / inject_Z n
                /\ inject_Z total / inject_Z n <= inject_Z hi)%Q).
  { assert (0 < inject_Z n)%Q
      by (change 0%Q with (inject_Z 0); rewrite <- Zlt_Qlt; exact Hn).
    split.
    - apply Qle_shift_div_l; [assumption|].
      rewrite <- inject_Z_mult, <- Zle_Qle. lia.
    - apply Qle_shift_div_r; [assumption|].
      rewrite <- inject_Z_mult, <- Zle_Qle. lia. }
  destruct Hq as [Hlo Hhi].
  pose proof (Math_round_mono _ _ Hlo) as H1.
  pose proof (Math_round_mono _ _ Hhi) as H2.
  rewrite Math_round_Z in H1, H2. lia.
Qed.

(** The values gathered for a day: positive, at most one per month
    consulted. *)
Lemma historicalData_positive
    (fetchDaily : Z -> Z -> option (list Forecast.DailyData))
    (selectedYear selectedMonth day : Z) :
  let values := historicalData fetchDaily selectedYear selectedMonth day in
  List.Forall (fun v => 0 < v) values /\ (length values <= 3)%nat.
Proof.
  unfold historicalData.
  set (step := fun (historicalData : list Z) (i : Z) => _).
  assert (Hstep : forall acc i,
            List.Forall (fun v => 0 < v) acc ->
            List.Forall (fun v => 0 < v) (step acc i)
            /\ (length (step acc i) <= S (length acc))%nat).
  { intros acc i Hacc. subst step. cbv beta zeta.
    destruct (fetchDaily _ _) as [data|]; [|split; [assumption | lia]].
    destruct (List.find _ data) as [dayData|]; [|split; [assumption | lia]].
    destruct (Z.ltb_spec 0 (Forecast.value dayData));
      [|split; [assumption | lia]].
    split.
    - apply List.Forall_app. split; [assumption|].
      constructor; [assumption | constructor].
    - rewrite length_app. cbn [length]. lia. }
  assert (Hfold : forall months acc,
            List.Forall (fun v => 0 < v) acc ->
            List.Forall (fun v => 0 < v) (fold_left step months acc)
            /\ (length (fold_left step months acc)
                <= length acc + length months)%nat).
  { induction months as [|i months IH]; intros acc Hacc; cbn [fold_left].
    - split; [assumption | cbn [length]; lia].
    - destruct (Hstep acc i Hacc) as [H1 H2].
      destruct (IH (step acc i) H1) as [H3 H4].
      split; [exact H3 | cbn [length]; lia]. }
  apply (Hfold [1; 2; 3] []). constructor.
Qed.

(** X8.  The forecast of a terminal has one point for each day of the
    selected month, in order.  The forecast of a day is 0 when none of
    the three months consulted has a positive value for that day, and
    otherwise lies between the smallest and the largest of those
    positive values, so it is at least 1. *)
Theorem terminal_forecast_within_history
    (fetchDaily : Z -> Z -> option (list Forecast.DailyData))
    (selectedYear selectedMonth : Z) :
  let out := terminalMonthData fetchDaily selectedYear selectedMonth in
  List.map Fleet.day out
  = seqZ 1 (getDate (new_Date selectedYear selectedMonth 0))
  /\ List.Forall
       (fun point =>
          let values := historicalData fetchDaily selectedYear selectedMonth
                                       (Fleet.day point) in
          exists f,
            Fleet.forecast point = Some f
            /\ (values = [] -> f = 0)
            /\ (values <> [] -> 1 <= f)
            /\ (forall lo hi,
                  values <> [] ->
                  List.Forall (fun v => lo <= v <= hi) values ->
                  lo <= f <= hi))
       out.
Proof.
  cbv zeta. unfold terminalMonthData. split.
  - rewrite List.map_map. simpl. apply List.map_id.
  - rewrite List.Forall_forall. intros point Hin.
    apply List.in_map_iff in Hin as (day & <- & _).
    cbn [Fleet.day Fleet.forecast].
    eexists. split; [reflexivity|].
    split; [intros ->; reflexivity|].
    split; [|intros lo hi; apply dayForecast_bounds].
    intros Hne.
    destruct (historicalData_positive fetchDaily selectedYear selectedMonth
                day) as [Hpos _].
    set (values := historicalData fetchDaily selectedYear selectedMonth day)
      in *.
    assert (Hone : List.Forall
                     (fun v => 1 <= v <= fold_left Z.max values 1) values).
    { assert (Hmax : forall l acc,
                acc <= fold_left Z.max l acc
                /\ List.Forall (fun v => v <= fold_left Z.max l acc) l).
      { induction l as [|v l IH]; intros acc; cbn [fold_left].
        - split; [lia | constructor].
        - destruct (IH (Z.max acc v)) as [H1 H2].
          split; [lia|]. constructor; [lia | exact H2]. }
      destruct (Hmax values 1) as [_ Hle].
      rewrite List.Forall_forall in *. intros v Hv.
      specialize (Hpos v Hv). specialize (Hle v Hv). lia. }
    apply (dayForecast_bounds _ _ _ Hne Hone).
Qed.

(** A terminal with 100 packages on day 5 two months back and 131 three
    months back, the last month failing to load: day 5 is forecast at
    116, the other days at 0. *)
Example terminal_forecast_of_two_values :
  let fetchDaily month year :=
    match month with
    | 11 => None
    | 10 => Some [ForecastScenarios.observation 5 100]
    | _ => Some [ForecastScenarios.observation 4 0;
                 ForecastScenarios.observation 5 131]
    end in
  List.map Fleet.forecast
    (firstn 6 (terminalMonthData fetchDaily 2025 12))
  = [Some 0; Some 0; Some 0; Some 0; Some 116; Some 0].
Proof. vm_compute. reflexivity. Qed.

End TerminalMonth.

(** ** The forecast engine: weekdays and weekends *)

Section DayTypes.
Import JsDate Forecast ForecastScenarios.

(** X9.  The weekday filter and the weekend filter split a month of
    observations: each observation passes exactly one of them, in the
    order it had, so that their sizes add up to the size of the month;
    the filter [All] returns the month as it is, and filtering twice
    changes nothing more. *)
Theorem filterByDayType_splits (data : list DailyData) (year month : Z) :
  let weekdays := filterByDayType data year month Weekday in
  let weekends := filterByDayType data year month Weekend in
  filterByDayType data year month All = data
  /\ (length weekdays + length weekends = length data)%nat
  /\ (forall d, In d data <-> In d weekdays \/ In d weekends)
  /\ (forall d, ~ (In d weekdays /\ In d weekends))
  /\ filterByDayType weekdays year month Weekday = weekdays
  /\ filterByDayType weekends year month Weekend = weekends
  /\ filterByDayType weekdays year month Weekend = [].
Proof.
  cbv zeta. unfold filterByDayType.
  split; [reflexivity|]. split.
  { induction data as [|d data IH]; simpl; [reflexivity|].
    destruct (isWeekend year month (day d)); simpl; lia. }
  split.
  { intros d. rewrite !List.filter_In.
    destruct (isWeekend year month (day d)); simpl; intuition congruence. }
  split.
  { intros d. rewrite !List.filter_In.
    destruct (isWeekend year month (day d)); simpl; intuition congruence. }
  split; [|split].
  - induction data as [|d data IH]; simpl; [reflexivity|].
    destruct (isWeekend year month (day d)) eqn:E; simpl;
      rewrite ?E; simpl; congruence.
  - induction data as [|d data IH]; simpl; [reflexivity|].
    destruct (isWeekend year month (day d)) eqn:E; simpl;
      rewrite ?E; simpl; congruence.
  - induction data as [|d data IH]; simpl; [reflexivity|].
    destruct (isWeekend year month (day d)) eqn:E; simpl;
      rewrite ?E; simpl; congruence.
Qed.

(** A day of the month, as a day number. *)
Lemma new_Date_day (y k d : Z) : new_Date y k d = new_Date y k 1 + (d - 1).
Proof. unfold new_Date, MakeDay. lia. Qed.

(** The day of the week moves with the day of the month. *)
Lemma getDay_of_day (y k d : Z) :
  getDay (new_Date y k d) = (getDay (new_Date y k 1) + (d - 1)) mod 7.
Proof.
  rewrite (new_Date_day y k d). unfold getDay, WeekDay. euclid_lia.
Qed.

(** The weekend test on the day of the week of the first of the month. *)
Lemma isWeekend_of_first (y m d : Z) :
  isWeekend y m d
  = let w := (getDay (new_Date y (m - 1) 1) + (d - 1)) mod 7 in
    (w =? 0) || (w =? 6).
Proof. unfold isWeekend. cbv zeta. now rewrite getDay_of_day. Qed.

(** The days of the forecast, for a history that is not empty. *)
Lemma forecast_day_list (Math_sqrt : Q -> Q)
    (historical : list (list DailyData)) (historicalMeta : list Meta)
    (filter : DayTypeFilter) (targetYear targetMonth : Z) :
  historical <> [] ->
  List.map day (calculateForecast Math_sqrt historical historicalMeta filter
                                  targetYear targetMonth)
  = List.filter
      (fun d => match filter with
                | All => true
                | Weekend => isWeekend targetYear targetMonth d
                | Weekday => negb (isWeekend targetYear targetMonth d)
                end)
      (seqZ 1 (getDate (new_Date targetYear targetMonth 0))).
Proof.
  intros Hne. unfold calculateForecast.
  destruct historical as [|month0 rest]; [contradiction|].
  apply omap_days; intros d Hd; unfold isWeekend in Hd;
    cbv zeta in *; destruct filter;
    destruct ((getDay (new_Date targetYear (targetMonth - 1) d) =? 0)
              || (getDay (new_Date targetYear (targetMonth - 1) d) =? 6));
    simpl in Hd; try discriminate; try reflexivity;
    eexists; (split; [reflexivity|]); reflexivity.
Qed.

Lemma filter_complement_length {A : Type} (keep : A -> bool) (l : list A) :
  (length (List.filter keep l)
   + length (List.filter (fun x => negb (keep x)) l) = length l)%nat.
Proof.
  induction l as [|x l IH]; simpl; [reflexivity|].
  destruct (keep x); simpl; lia.
Qed.

(** The number of weekend days among the first [n] days of a month
    whose first day has the day of the week [w]. *)
Lemma weekend_count (w n : Z) :
  0 <= w <= 6 -> 28 <= n <= 31 ->
  let weekend d := let x := (w + (d - 1)) mod 7 in (x =? 0) || (x =? 6) in
  (8 <= length (List.filter weekend (seqZ 1 n)) <= 10)%nat
  /\ (20 <= Z.to_nat n - length (List.filter weekend (seqZ 1 n)) <= 23)%nat.
Proof.
  intros Hw Hn weekend. subst weekend.
  assert (w = 0 \/ w = 1 \/ w = 2 \/ w = 3 \/ w = 4 \/ w = 5 \/ w = 6)
    as Hc by lia.
  assert (n = 28 \/ n = 29 \/ n = 30 \/ n = 31) as Hd by lia.
  repeat (destruct Hc as [-> | Hc]); try subst w;
    repeat (destruct Hd as [-> | Hd]); try subst n;
    vm_compute; repeat split; repeat constructor.
Qed.

(** X10.  For a target month from 1 to 12 within the range of [Date]
    and a history that is not empty, the forecast has 28 to 31 points
    without a day-type filter, 8 to 10 points for weekends and 20 to
    23 points for weekdays. *)
Theorem forecast_point_count (Math_sqrt : Q -> Q)
    (historical : list (list DailyData)) (historicalMeta : list Meta)
    (filter : DayTypeFilter) (targetYear targetMonth : Z) :
  historical <> [] -> 1 <= targetMonth <= 12 ->
  monthInRange targetYear (targetMonth - 1) = true ->
  let n := length (calculateForecast Math_sqrt historical historicalMeta
                                     filter targetYear targetMonth) in
  match filter with
  | All => (28 <= n <= 31)%nat
  | Weekend => (8 <= n <= 10)%nat
  | Weekday => (20 <= n <= 23)%nat
  end.
Proof.
  intros Hne Hm _ n.
  assert (Hn : n = length (List.map day
                 (calculateForecast Math_sqrt historical historicalMeta
                    filter targetYear targetMonth)))
    by (symmetry; apply length_map).
  rewrite forecast_day_list in Hn by assumption.
  rewrite days_of_month in Hn by assumption.
  set (N := monthLength (InLeapYear (fullYear targetYear)) targetMonth) in Hn.
  assert (HN : 28 <= N <= 31).
  { subst N. destruct (InLeapYear (fullYear targetYear));
      assert (targetMonth = 1 \/ targetMonth = 2 \/ targetMonth = 3
              \/ targetMonth = 4 \/ targetMonth = 5 \/ targetMonth = 6
              \/ targetMonth = 7 \/ targetMonth = 8 \/ targetMonth = 9
              \/ targetMonth = 10 \/ targetMonth = 11 \/ targetMonth = 12)
        as Hc by lia;
      repeat (destruct Hc as [-> | Hc]); try subst targetMonth; simpl; lia. }
  assert (Hlen : length (seqZ 1 N) = Z.to_nat N) by apply length_seqZ.
  pose proof (getDay_range (new_Date targetYear (targetMonth - 1) 1)) as Hw.
  destruct (weekend_count _ N Hw HN) as [Hwk Hwd].
  pose proof (fun keep => filter_complement_length keep (seqZ 1 N))
    as Hsplit.
  destruct filter.
  - rewrite Hn. rewrite (List.forallb_filter_id (fun _ => true)).
    + rewrite Hlen. lia.
    + apply List.forallb_forall. reflexivity.
  - specialize (Hsplit (isWeekend targetYear targetMonth)).
    rewrite (List.filter_ext _ _ (isWeekend_of_first targetYear targetMonth))
      in Hsplit.
    rewrite Hn. rewrite Hlen in Hsplit. cbv zeta in *. lia.
  - rewrite (List.filter_ext _ _ (isWeekend_of_first targetYear targetMonth))
      in Hn.
    rewrite Hn. exact Hwk.
Qed.

(** February 2026 begins on a Sunday and has 28 days: 8 weekend days. *)
Lemma forecast_point_count_witness :
  (8 <= length (calculateForecast integer_sqrt steady_month
                  steady_month_meta Weekend 2026 2) <= 10)%nat.
Proof.
  apply (forecast_point_count integer_sqrt steady_month steady_month_meta
           Weekend 2026 2); [discriminate | lia | reflexivity].
Defined.

End DayTypes.

(** ** The forecast engine: the shape of the forecast *)

Section ForecastShape.
Import JsDate Forecast ForecastScenarios.

(** Two points of a forecast that fall on the same day of the week
    carry the same three values. *)
Lemma forecast_same_weekday (Math_sqrt : Q -> Q)
    (historical : list (list DailyData)) (historicalMeta : list Meta)
    (filter : DayTypeFilter) (targetYear targetMonth : Z)
    (p q : DailyData) :
  In p (calculateForecast Math_sqrt historical historicalMeta filter
                          targetYear targetMonth) ->
  In q (calculateForecast Math_sqrt historical historicalMeta filter
                          targetYear targetMonth) ->
  getDay (new_Date targetYear (targetMonth - 1) (day p))
  = getDay (new_Date targetYear (targetMonth - 1) (day q)) ->
  forecast p = forecast q
  /\ forecastMin p = forecastMin q
  /\ forecastMax p = forecastMax q.
Proof.
  intros Hp Hq. unfold calculateForecast in Hp, Hq.
  destruct historical as [|month0 rest]; [contradiction|].
  apply list_elem_of_In, list_elem_of_omap in Hp as (d1 & _ & Hd1).
  apply list_elem_of_In, list_elem_of_omap in Hq as (d2 & _ & Hd2).
  cbv zeta in Hd1, Hd2.
  destruct filter;
    destruct ((getDay (new_Date targetYear (targetMonth - 1) d1) =? 0)
              || (getDay (new_Date targetYear (targetMonth - 1) d1) =? 6));
    destruct ((getDay (new_Date targetYear (targetMonth - 1) d2) =? 0)
              || (getDay (new_Date targetYear (targetMonth - 1) d2) =? 6));
    try discriminate; injection Hd1 as <-; injection Hd2 as <-;
    cbn [day forecast forecastMin forecastMax]; intros ->;
    repeat split.
Qed.

(** X11.  The forecast repeats from week to week: two points of the
    same forecast that are seven days apart carry the same forecast,
    the same minimum and the same maximum. *)
Theorem forecast_repeats_weekly (Math_sqrt : Q -> Q)
    (historical : list (list DailyData)) (historicalMeta : list Meta)
    (filter : DayTypeFilter) (targetYear targetMonth : Z)
    (p q : DailyData) :
  In p (calculateForecast Math_sqrt historical historicalMeta filter
                          targetYear targetMonth) ->
  In q (calculateForecast Math_sqrt historical historicalMeta filter
                          targetYear targetMonth) ->
  day q = day p + 7 ->
  forecast p = forecast q
  /\ forecastMin p = forecastMin q
  /\ forecastMax p = forecastMax q.
Proof.
  intros Hp Hq Hday.
  apply (forecast_same_weekday Math_sqrt historical historicalMeta filter
           targetYear targetMonth p q Hp Hq).
  rewrite Hday, (new_Date_day _ _ (day p + 7)), (new_Date_day _ _ (day p)).
  replace (new_Date targetYear (targetMonth - 1) 1 + (day p + 7 - 1))
    with (new_Date targetYear (targetMonth - 1) 1 + (day p - 1) + 7) by lia.
  now rewrite getDay_next_week.
Qed.

(** Wednesday 5 and Wednesday 12 November 2025, from a month of 100,
    140 and 120 packages. *)
Lemma forecast_repeats_weekly_witness :
  let out := calculateForecast integer_sqrt varied_month steady_month_meta
                               All 2025 11 in
  let p := {| day := 5; value := 0; forecast := Some 106;
              forecastMin := Some 90; forecastMax := Some 122 |} in
  let q := {| day := 12; value := 0; forecast := Some 106;
              forecastMin := Some 90; forecastMax := Some 122 |} in
  In p out /\ In q out
  /\ forecast p = forecast q
  /\ forecastMin p = forecastMin q
  /\ forecastMax p = forecastMax q.
Proof.
  intros out p q.
  assert (Hp : In p out) by (vm_compute; do 4 right; left; reflexivity).
  assert (Hq : In q out) by (vm_compute; do 11 right; left; reflexivity).
  split; [exact Hp|]. split; [exact Hq|].
  exact (forecast_repeats_weekly integer_sqrt varied_month steady_month_meta
           All 2025 11 p q Hp Hq eq_refl).
Defined.

(** X12.  When the history is not empty but no positive value is left
    after the day-type filter, every point of the forecast is 0, with
    a minimum and a maximum of 0. *)
Theorem forecast_without_positive_values (Math_sqrt : Q -> Q)
    (historical : list (list DailyData)) (historicalMeta : list Meta)
    (filter : DayTypeFilter) (targetYear targetMonth : Z) :
  List.Forall (List.Forall (fun d => value d <= 0))
              (filteredHistorical historical historicalMeta filter) ->
  List.Forall
    (fun point => forecast point = Some 0 /\ forecastMin point = Some 0
                  /\ forecastMax point = Some 0)
    (calculateForecast Math_sqrt historical historicalMeta filter
                       targetYear targetMonth).
Proof.
  intros Hall.
  set (filtered := filteredHistorical historical historicalMeta filter) in *.
  assert (Hnone : forall data,
            List.Forall (fun d => value d <= 0) data ->
            positiveValues data = []).
  { intros data Hd. unfold positiveValues.
    induction Hd as [|d data Hv _ IH]; simpl; [reflexivity|].
    destruct (Z.ltb_spec 0 (value d)); [lia | exact IH]. }
  assert (Hvalues : allValues filtered = []).
  { unfold allValues. apply Hnone.
    clear -Hall. induction Hall; simpl; [constructor|].
    apply List.Forall_app. split; assumption. }
  assert (Hoverall : overallAverage filtered = 0%Q).
  { unfold overallAverage. now rewrite Hvalues. }
  assert (Htrend : (trend (monthlyAverages filtered) == 0)%Q).
  { apply (trend_const 0). unfold monthlyAverages.
    clear -Hall Hnone. induction Hall as [|m l Hm _ IH]; simpl;
      constructor; [|exact IH].
    rewrite (Hnone m Hm). reflexivity. }
  assert (Hbuckets : buckets_hold 0 (dayOfWeekPatterns filtered historicalMeta)).
  { unfold dayOfWeekPatterns.
    assert (Hempty : buckets_hold 0 ∅) by apply map_Forall_empty.
    revert Hempty. generalize (∅ : gmap Z (list Q)) as patterns.
    generalize 0%nat as k.
    clear -Hall. induction Hall as [|m l Hm _ IH]; intros k patterns Hinv;
      cbn [reduce_indexed]; [assumption|].
    apply IH. destruct (historicalMeta !! k) as [meta|]; [|assumption].
    clear IH. revert patterns Hinv.
    induction Hm as [|d m Hd _ IHm]; intros patterns Hinv; simpl;
      [assumption|].
    apply IHm. unfold recordDay. cbv zeta.
    destruct (Z.ltb_spec 0 (value d)); [lia|].
    destruct (patterns !! _); [assumption|].
    apply map_Forall_insert_2; [constructor | assumption]. }
  unfold calculateForecast.
  destruct historical as [|month0 rest]; [constructor|].
  fold filtered. cbv zeta.
  rewrite List.Forall_forall. intros point Hin.
  apply list_elem_of_In, list_elem_of_omap in Hin as (d & _ & Hd).
  set (base := (overallAverage filtered
                + trend (monthlyAverages filtered) * (len filtered + 1))%Q)
    in Hd.
  assert (Hbase : (base == 0)%Q).
  { subst base. rewrite Hoverall, Htrend. ring. }
  set (dow := getDay (new_Date targetYear (targetMonth - 1) d)) in Hd.
  set (fv := match dayOfWeekAverages _ _ !! dow with
             | Some a => _
             | None => _
             end) in Hd.
  assert (Hfv : (fv == 0)%Q).
  { subst fv.
    destruct (dayOfWeekAverages (dayOfWeekPatterns filtered historicalMeta)
                (overallAverage filtered) !! dow) as [a|] eqn:Ha;
      [|exact Hbase].
    apply (dayOfWeekAverages_const 0 _ _ _ _ Hbuckets) in Ha;
      [|rewrite Hoverall; reflexivity].
    destruct (Qeq_bool a 0); [exact Hbase|].
    rewrite Ha, Hbase. reflexivity. }
  assert (Hsd : stdDev Math_sqrt (allValues filtered) (overallAverage filtered)
                = (0 * (2 # 10))%Q).
  { unfold stdDev. now rewrite Hvalues, Hoverall. }
  rewrite Hsd in Hd.
  assert (H0 : Z.max 0 (Math_round fv) = 0)
    by (rewrite (Math_round_const fv 0 Hfv); reflexivity).
  assert (H1 : Z.max 0 (Math_round (fv - 0 * (2 # 10))) = 0).
  { rewrite (Math_round_const _ 0); [reflexivity|]. rewrite Hfv. reflexivity. }
  assert (H2 : Z.max 0 (Math_round (fv + 0 * (2 # 10))) = 0).
  { rewrite (Math_round_const _ 0); [reflexivity|]. rewrite Hfv. reflexivity. }
  destruct filter; destruct ((dow =? 0) || (dow =? 6));
    try discriminate; injection Hd as <-;
    cbn [forecast forecastMin forecastMax];
    rewrite H0, H1, H2; repeat split.
Qed.

(** A month whose only observation falls on a Saturday, forecast for
    weekdays. *)
Lemma forecast_without_positive_values_witness :
  List.Forall
    (fun point => forecast point = Some 0 /\ forecastMin point = Some 0
                  /\ forecastMax point = Some 0)
    (calculateForecast integer_sqrt [[observation 4 5]] steady_month_meta
                       Weekday 2025 11).
Proof.
  apply forecast_without_positive_values.
  vm_compute. repeat constructor.
Defined.

End ForecastShape.

(** ** The forecast engine: the trend *)

Section Trend.
Import Forecast ForecastScenarios.

(** The series [a + k d, a + (k + 1) d, ...] of [n] terms. *)
Lemma linear_series_cons (a d : Q) (k n : nat) :
  List.map (fun i => (a + inject_Z (Z.of_nat i) * d)%Q) (seq k (S n))
  = (a + inject_Z (Z.of_nat k) * d)%Q
    :: List.map (fun i => (a + inject_Z (Z.of_nat i) * d)%Q) (seq (S k) n).
Proof. reflexivity. Qed.

Lemma inject_nat_succ (n : nat) :
  (inject_Z (Z.of_nat (S n)) == inject_Z (Z.of_nat n) + 1)%Q.
Proof.
  rewrite Nat2Z.inj_succ. unfold Z.succ. rewrite inject_Z_plus. reflexivity.
Qed.

Lemma fold_sum_linear (a d : Q) (n k : nat) (acc : Q) :
  let N := inject_Z (Z.of_nat n) in
  let K := inject_Z (Z.of_nat k) in
  (fold_left Qplus
     (List.map (fun i => a + inject_Z (Z.of_nat i) * d) (seq k n)) acc
   == acc + N * a + d * (N * K + N * (N - 1) / 2))%Q.
Proof.
  revert k acc. induction n as [|n IH]; intros k acc.
  - cbv zeta. simpl. field.
  - rewrite linear_series_cons. cbn [fold_left]. cbv zeta in *.
    rewrite IH, !inject_nat_succ. field.
Qed.

Lemma reduce_weighted_linear (a d : Q) (n k j : nat) (acc : Q) :
  let N := inject_Z (Z.of_nat n) in
  let K := inject_Z (Z.of_nat k) in
  let J := inject_Z (Z.of_nat j) in
  (reduce_indexed
     (fun acc val idx => acc + inject_Z (Z.of_nat idx + 1) * val) j
     (List.map (fun i => a + inject_Z (Z.of_nat i) * d) (seq k n)) acc
   == acc + N * (J + 1) * (a + K * d)
      + (a + K * d + (J + 1) * d) * (N * (N - 1) / 2)
      + d * ((N - 1) * N * (2 * N - 1) / 6))%Q.
Proof.
  revert k j acc. induction n as [|n IH]; intros k j acc.
  - cbv zeta. simpl. field.
  - rewrite linear_series_cons. cbn [reduce_indexed]. cbv zeta in *.
    rewrite IH, !inject_nat_succ, inject_Z_plus.
    change (inject_Z 1) with 1%Q. field.
Qed.

(** The slope of a linear series, in exact arithmetic. *)
Lemma trend_linear_exact (a d : Q) (n : nat) :
  (2 <= n)%nat ->
  (trend (List.map (fun i => a + inject_Z (Z.of_nat i) * d)%Q (seq 0 n))
   == d)%Q.
Proof.
  intros Hn. unfold trend.
  rewrite length_map, length_seq.
  destruct (Nat.ltb_spec 1 n) as [_|]; [|lia].
  cbv zeta. unfold sumValues, len.
  rewrite (reduce_weighted_linear a d n 0 0 0), (fold_sum_linear a d n 0 0).
  rewrite length_map, length_seq. cbv zeta.
  change (inject_Z (Z.of_nat 0)) with 0%Q.
  set (N := inject_Z (Z.of_nat n)).
  assert (HN : (2 <= N)%Q).
  { subst N. change 2%Q with (inject_Z 2). rewrite <- Zle_Qle. lia. }
  assert (Hden : ~ (N * (N * (N + 1) * (2 * N + 1) / 6)
                    - N * (N + 1) / 2 * (N * (N + 1) / 2) == 0)%Q).
  { assert (E : (N * (N * (N + 1) * (2 * N + 1) / 6)
                 - N * (N + 1) / 2 * (N * (N + 1) / 2)
                 == N * N * ((N + 1) * (N - 1)) / 12)%Q) by field.
    rewrite E. intros H0.
    assert (0 < N * N)%Q by (apply Qmult_lt_0_compat; lra).
    assert (0 < (N + 1) * (N - 1))%Q by (apply Qmult_lt_0_compat; lra).
    assert (0 < N * N * ((N + 1) * (N - 1)))%Q
      by (apply Qmult_lt_0_compat; assumption).
    assert (0 < N * N * ((N + 1) * (N - 1)) / 12)%Q
      by (apply Qlt_shift_div_l; lra).
    lra. }
  field. intros H. apply Hden.
  assert (E : (N * (N * (N + 1) * (2 * N + 1) / 6)
               - N * (N + 1) / 2 * (N * (N + 1) / 2)
               == (N * (N * (N + 1) * (2 * N + 1)) * 4
                   - N * (N + 1) * (N * (N + 1)) * 6) / 24)%Q) by field.
  rewrite E, H. reflexivity.
Qed.

(** X13.  The trend of monthly averages that are integers and grow by
    the same integer step from one month to the next, over two months
    or more, is that step.  The bounds - a hundred months at most, a
    first average and a step of a million at most in absolute value -
    keep every sum and product of the computation an integer below
    10^14, exact on doubles, and the quotient is then the step
    itself. *)
Theorem trend_of_linear_series (a d : Z) (n : nat) :
  (2 <= n <= 100)%nat ->
  Z.abs a <= 1000000 -> Z.abs d <= 1000000 ->
  (trend (List.map (fun i => inject_Z (a + Z.of_nat i * d)) (seq 0 n))
   == inject_Z d)%Q.
Proof.
  intros [Hn _] _ _.
  rewrite (List.map_ext
             (fun i => inject_Z (a + Z.of_nat i * d))
             (fun i => inject_Z a + inject_Z (Z.of_nat i) * inject_Z d)%Q).
  - apply trend_linear_exact. exact Hn.
  - intros i. unfold Qplus, Qmult, inject_Z. cbn [Qnum Qden].
    f_equal. lia.
Qed.

(** Monthly averages of 100, 130 and 160 packages: a trend of 30. *)
Lemma trend_of_linear_series_witness :
  (trend [100; 130; 160] == 30)%Q.
Proof.
  exact (trend_of_linear_series 100 30 3 ltac:(lia) ltac:(lia) ltac:(lia)).
Defined.

End Trend.

(** ** The months of history the chart asks for *)

Section ChartHistory.
Import JsDate JsDateFields Forecast ForecastChart ForecastScenarios.

Lemma seqZ_backwards (T k : Z) :
  List.map (fun i => T - (i + 1)) (reverse (seqZ 0 k)) = seqZ (T - k) k.
Proof.
  destruct (Z.le_gt_cases k 0) as [Hk | Hk];
    [now rewrite !seqZ_nil by assumption|].
  rewrite <- (Z2Nat.id k) by lia.
  induction (Z.to_nat k) as [|n IH]; [reflexivity|].
  rewrite seqZ_S, reverse_snoc. cbn [List.map]. rewrite IH.
  rewrite (seqZ_cons (T - Z.of_nat (S n))) by lia.
  f_equal; [lia|]. f_equal; lia.
Qed.

(** The month reached by [setMonth] from the first of the forecast
    month. *)
Lemma window_entry (forecastYear forecastMonth i : Z) :
  let forecastDate := new_Date forecastYear (forecastMonth - 1) 1 in
  let date := setMonth forecastDate (getMonth forecastDate - i - 1) in
  0 <= getMonth date <= 11
  /\ 12 * getFullYear date + getMonth date
     = 12 * fullYear forecastYear + (forecastMonth - 1) - (i + 1).
Proof.
  cbv zeta. unfold setMonth, getMonth, getFullYear, new_Date.
  destruct (first_of_month (fullYear forecastYear) (forecastMonth - 1))
    as (Hy & Hm & Hd).
  rewrite Hy, Hm, Hd.
  destruct (first_of_month
              (fullYear forecastYear + (forecastMonth - 1) / 12)
              ((forecastMonth - 1) mod 12 - i - 1)) as (Hy' & Hm' & _).
  rewrite Hy', Hm'. euclid_lia.
Qed.

(** X14.  The months the chart asks for are the [selectedMonths]
    calendar months that end just before the forecast month, the
    oldest first and none skipped, each with a month from 1 to 12 and
    the year that goes with it.  The forecast month and the oldest
    month asked for are taken within the range of [Date], and the
    forecast year as the [Date] constructor reads it - a year from 0
    to 99 as 1900 to 1999. *)
Theorem history_window_months (forecastYear forecastMonth selectedMonths : Z) :
  monthInRange forecastYear (forecastMonth - 1) = true ->
  monthInRange forecastYear (forecastMonth - 1 - selectedMonths) = true ->
  let monthNumber meta := 12 * year meta + (month meta - 1) in
  let target := 12 * fullYear forecastYear + (forecastMonth - 1) in
  let window := historyWindow forecastYear forecastMonth selectedMonths in
  List.map monthNumber window = seqZ (target - selectedMonths) selectedMonths
  /\ List.Forall (fun meta => 1 <= month meta <= 12) window.
Proof.
  intros _ _. cbv zeta. unfold historyWindow. cbv zeta. split.
  - rewrite List.map_map. cbn [year month].
    rewrite <- seqZ_backwards.
    apply List.map_ext. intros i.
    pose proof (window_entry forecastYear forecastMonth i) as [_ H].
    cbv zeta in H. lia.
  - rewrite List.Forall_map. rewrite List.Forall_forall. intros i _.
    cbn [month].
    pose proof (window_entry forecastYear forecastMonth i) as [H _].
    cbv zeta in H. lia.
Qed.

(** The three months before February 2026. *)
Lemma history_window_months_witness :
  List.map (fun meta => 12 * year meta + (month meta - 1))
           (historyWindow 2026 2 3)
  = [12 * 2025 + 10; 12 * 2025 + 11; 12 * 2026 + 0]
  /\ List.Forall (fun meta => 1 <= month meta <= 12) (historyWindow 2026 2 3).
Proof.
  destruct (history_window_months 2026 2 3) as [Hmonths Hrange];
    [reflexivity | reflexivity |].
  cbv zeta in Hmonths. split; [|exact Hrange].
  etransitivity; [exact Hmonths | reflexivity].
Defined.

Example history_window_across_new_year :
  historyWindow 2026 2 3
  = [{| year := 2025; month := 11 |}; {| year := 2025; month := 12 |};
     {| year := 2026; month := 1 |}].
Proof. vm_compute. reflexivity. Qed.

(** What the loop keeps of a month of the window. *)
Lemma fetch_fold (fetchDaily : Z -> Z -> option (list DailyData))
    (window : list Meta) (months : list (list DailyData))
    (metas : list Meta) :
  let keep meta :=
    match fetchDaily (month meta) (year meta) with
    | Some data => if hasData data then Some (data, meta) else None
    | None => None
    end in
  fold_left
    (fun '(historicalMonths, historicalMonthsMeta) meta =>
       match fetchDaily (month meta) (year meta) with
       | Some data =>
           if hasData data
           then (historicalMonths ++ [data], historicalMonthsMeta ++ [meta])
           else (historicalMonths, historicalMonthsMeta)
       | None => (historicalMonths, historicalMonthsMeta)
       end)
    window (months, metas)
  = (months ++ List.map fst (omap keep window),
     metas ++ List.map snd (omap keep window)).
Proof.
  cbv zeta. revert months metas.
  induction window as [|meta window IH]; intros months metas.
  - cbn. now rewrite !app_nil_r.
  - cbn [fold_left omap list_omap].
    destruct (fetchDaily (month meta) (year meta)) as [data|];
      [destruct (hasData data)|]; rewrite IH; cbn [List.map fst snd];
      rewrite <- ?app_assoc; reflexivity.
Qed.

Lemma hasData_positive (data : list DailyData) :
  hasData data = true <-> exists d, In d data /\ 0 < value d.
Proof.
  unfold hasData. rewrite andb_true_iff, existsb_exists. split.
  - intros (_ & d & Hd & Hv). exists d. split; [assumption | lia].
  - intros (d & Hd & Hv). split.
    + destruct data; [destruct Hd | reflexivity].
    + exists d. split; [assumption | lia].
Qed.

(** X15.  After the loop over the window, the months kept and their
    metas go in pairs: each month kept is the answer obtained for its
    meta and holds a positive value; the metas kept are months of the
    window in the order of the window; and a month of the window whose
    answer holds a positive value is kept.  A month whose request
    fails, or whose values are all zero, is left out without a gap
    being recorded. *)
Theorem fetched_history_has_data
    (fetchDaily : Z -> Z -> option (list DailyData))
    (forecastYear forecastMonth selectedMonths : Z) :
  let fetched := fetchHistoricalMonths fetchDaily forecastYear forecastMonth
                                       selectedMonths in
  let window := historyWindow forecastYear forecastMonth selectedMonths in
  Forall2 (fun data meta =>
             fetchDaily (month meta) (year meta) = Some data
             /\ exists d, In d data /\ 0 < value d)
          (fst fetched) (snd fetched)
  /\ sublist (snd fetched) window
  /\ List.Forall
       (fun meta =>
          forall data,
            fetchDaily (month meta) (year meta) = Some data ->
            (exists d, In d data /\ 0 < value d) ->
            In meta (snd fetched))
       window.
Proof.
  cbv zeta. unfold fetchHistoricalMonths.
  pose proof (fetch_fold fetchDaily
                (historyWindow forecastYear forecastMonth selectedMonths)
                [] []) as Hfold.
  cbv zeta in Hfold. rewrite Hfold. clear Hfold. cbn [fst snd app].
  generalize (historyWindow forecastYear forecastMonth selectedMonths).
  intros window. split; [|split].
  - induction window as [|meta window IH]; cbn; [constructor|].
    destruct (fetchDaily (month meta) (year meta)) as [data|] eqn:Hf;
      [destruct (hasData data) eqn:Hd|]; try exact IH.
    cbn. constructor; [|exact IH].
    split; [assumption | now apply hasData_positive].
  - induction window as [|meta window IH]; cbn; [constructor|].
    destruct (fetchDaily (month meta) (year meta)) as [data|];
      [destruct (hasData data)|]; cbn;
      [now apply sublist_skip | now apply sublist_cons ..].
  - rewrite List.Forall_forall. intros meta Hin data Hf Hpos.
    apply hasData_positive in Hpos.
    induction window as [|meta' window IH]; [destruct Hin|].
    cbn. destruct Hin as [-> | Hin].
    + rewrite Hf, Hpos. now left.
    + destruct (fetchDaily (month meta') (year meta')) as [data'|];
        [destruct (hasData data')|]; cbn; auto.
Qed.

End ChartHistory.

(** ** The last month and the forecast side by side *)

Section ChartCombined.
Import JsDate JsDateFields Forecast ForecastChart ForecastScenarios.

(** Among points of distinct days, the search by day finds the point
    itself. *)
Lemma find_day_unique (l : list DailyData) (p : DailyData) :
  List.NoDup (List.map day l) -> In p l ->
  List.find (fun d => day d =? day p) l = Some p.
Proof.
  induction l as [|x l IH]; intros Hnd Hin; [destruct Hin|].
  cbn [List.map] in Hnd. apply List.NoDup_cons_iff in Hnd as [Hx Hnd].
  cbn [List.find]. destruct Hin as [-> | Hin].
  - now rewrite Z.eqb_refl.
  - destruct (Z.eqb_spec (day x) (day p)) as [E | E]; [|now apply IH].
    exfalso. apply Hx. rewrite E. now apply List.in_map.
Qed.

(** The search by day finds a point when there is one of that day. *)
Lemma find_day_present (l : list DailyData) (h : DailyData) :
  In h l ->
  exists h', List.find (fun d => day d =? day h) l = Some h'
             /\ In h' l /\ day h' = day h.
Proof.
  intros Hin.
  destruct (List.find (fun d => day d =? day h) l) as [h'|] eqn:E.
  - exists h'. apply List.find_some in E as [Hin' Hd].
    split; [reflexivity|]. split; [assumption | lia].
  - pose proof (List.find_none _ _ E h Hin) as Hd. cbv beta in Hd.
    rewrite Z.eqb_refl in Hd. discriminate.
Qed.

Lemma forecast_days_NoDup (Math_sqrt : Q -> Q)
    (historical : list (list DailyData)) (historicalMeta : list Meta)
    (filter : DayTypeFilter) (targetYear targetMonth : Z) :
  List.NoDup
    (List.map day (calculateForecast Math_sqrt historical historicalMeta
                                     filter targetYear targetMonth)).
Proof.
  destruct historical as [|month0 rest]; [constructor|].
  rewrite forecast_day_list by discriminate.
  apply List.NoDup_filter, NoDup_ListNoDup, NoDup_seqZ.
Qed.

(** A point pushed by the loop carries the day of the iteration, the
    value found for the last month and the fields of the forecast
    point found, one of the two at least being found. *)
Lemma combinedPoint_inv (hist fc : list DailyData) (meta : Meta)
    (filter : DayTypeFilter) (fy fm d : Z) (c : DailyData) :
  combinedPoint hist fc meta filter fy fm d = Some c ->
  c = {| day := d;
         value := default 0 (value <$> List.find (fun x => day x =? d) hist);
         forecast := List.find (fun x => day x =? d) fc ≫= forecast;
         forecastMin := List.find (fun x => day x =? d) fc ≫= forecastMin;
         forecastMax := List.find (fun x => day x =? d) fc ≫= forecastMax |}
  /\ (is_Some (List.find (fun x => day x =? d) hist)
      \/ is_Some (List.find (fun x => day x =? d) fc)).
Proof.
  unfold combinedPoint. cbv zeta.
  set (h := List.find _ hist). set (p := List.find _ fc).
  destruct (_ && _) eqn:E; [|discriminate].
  intros [= <-]. split; [reflexivity|].
  apply andb_true_iff in E as [_ E].
  apply orb_true_iff in E as [E | E]; apply bool_decide_eq_true in E; auto.
Qed.

(** A day that has a forecast point is tested in the forecast month. *)
Lemma combinedPoint_forecast (hist fc : list DailyData) (meta : Meta)
    (filter : DayTypeFilter) (fy fm d : Z) (p : DailyData) :
  List.find (fun x => day x =? d) fc = Some p ->
  match filter with
  | All => true
  | Weekend => isWeekend fy fm d
  | Weekday => negb (isWeekend fy fm d)
  end = true ->
  combinedPoint hist fc meta filter fy fm d
  = Some {| day := d;
            value := default 0 (value <$> List.find (fun x => day x =? d) hist);
            forecast := forecast p;
            forecastMin := forecastMin p;
            forecastMax := forecastMax p |}.
Proof.
  intros Hp Hk. unfold combinedPoint. cbv zeta. rewrite Hp.
  assert (bool_decide (is_Some (Some p)) = true) as ->
    by (apply bool_decide_eq_true; eauto).
  rewrite orb_true_r, andb_true_r.
  destruct filter; cbn in Hk |- *; rewrite ?Hk; reflexivity.
Qed.

(** A day without a forecast point is tested in the last month. *)
Lemma combinedPoint_historical (hist fc : list DailyData) (meta : Meta)
    (filter : DayTypeFilter) (fy fm d : Z) (h : DailyData) :
  List.find (fun x => day x =? d) fc = None ->
  List.find (fun x => day x =? d) hist = Some h ->
  year meta <> 0 -> month meta <> 0 ->
  match filter with
  | All => true
  | Weekend => isWeekend (year meta) (month meta) d
  | Weekday => negb (isWeekend (year meta) (month meta) d)
  end = true ->
  combinedPoint hist fc meta filter fy fm d
  = Some {| day := d; value := value h;
            forecast := None; forecastMin := None; forecastMax := None |}.
Proof.
  intros Hp Hh Hy Hm Hk. unfold combinedPoint. cbv zeta. rewrite Hp, Hh.
  assert (bool_decide (is_Some (Some h)) = true) as ->
    by (apply bool_decide_eq_true; eauto).
  rewrite orb_true_l, andb_true_r.
  unfold or_else.
  destruct (Z.eqb_spec (year meta) 0) as [E | _]; [contradiction|].
  destruct (Z.eqb_spec (month meta) 0) as [E | _]; [contradiction|].
  destruct filter; cbn in Hk |- *; rewrite ?Hk; reflexivity.
Qed.

(** X16.  Whatever the history and the filter, the combined series of
    the chart has its days in increasing order, each once; it carries
    every point of the forecast, with the same forecast, minimum and
    maximum; and each of its points stands for an observation kept of
    the last month, whose value it takes, or else for a forecast point
    of its day, with the value 0. *)
Theorem chart_keeps_forecast_points (Math_sqrt : Q -> Q)
    (historicalMonths : list (list DailyData))
    (historicalMonthsMeta : list Meta) (filter : DayTypeFilter)
    (forecastYear forecastMonth : Z) :
  let chart := loadChart Math_sqrt historicalMonths historicalMonthsMeta
                         filter forecastYear forecastMonth in
  StronglySorted Z.lt (List.map day (combinedData chart))
  /\ List.Forall
       (fun p => exists c, In c (combinedData chart) /\ day c = day p
                           /\ forecast c = forecast p
                           /\ forecastMin c = forecastMin p
                           /\ forecastMax c = forecastMax p)
       (forecastData chart)
  /\ List.Forall
       (fun c =>
          (exists h, In h (historicalData chart) /\ day h = day c
                     /\ value c = value h)
          \/ (value c = 0
              /\ exists p, In p (forecastData chart) /\ day p = day c))
       (combinedData chart).
Proof.
  cbv zeta. unfold loadChart.
  destruct historicalMonths as [|month0 rest];
    [cbn; split; [constructor | split; constructor]|].
  cbv zeta. cbn [combinedData forecastData historicalData].
  set (months := month0 :: rest).
  set (fc := calculateForecast Math_sqrt months historicalMonthsMeta filter
                               forecastYear forecastMonth).
  set (meta := lastMonthMeta historicalMonthsMeta forecastYear forecastMonth).
  set (hist := filterByDayType _ (year meta) (month meta) filter).
  unfold combine. cbv zeta.
  split; [|split].
  - rewrite (omap_days
               (fun d => match combinedPoint hist fc meta filter forecastYear
                                             forecastMonth d with
                         | Some _ => true
                         | None => false
                         end)).
    + apply StronglySorted_filter, StronglySorted_seqZ.
    + intros d Hd.
      destruct (combinedPoint hist fc meta filter forecastYear forecastMonth d)
        as [c|] eqn:E; [|discriminate].
      apply combinedPoint_inv in E as [-> _]. eexists. split; reflexivity.
    + intros d Hd.
      destruct (combinedPoint hist fc meta filter forecastYear forecastMonth d);
        [discriminate | reflexivity].
  - rewrite List.Forall_forall. intros p Hp.
    assert (Hd : In (day p) (List.map day fc))
      by (apply List.in_map; assumption).
    subst fc. rewrite forecast_day_list in Hd by discriminate.
    apply List.filter_In in Hd as [Hseq Hkeep].
    pose proof (find_day_unique _ p
                  (forecast_days_NoDup Math_sqrt months historicalMonthsMeta
                     filter forecastYear forecastMonth) Hp) as Hfind.
    exists {| day := day p;
              value := default 0 (value <$> List.find
                                              (fun x => day x =? day p) hist);
              forecast := forecast p;
              forecastMin := forecastMin p;
              forecastMax := forecastMax p |}.
    split; [|cbn; repeat split; reflexivity].
    apply list_elem_of_In, list_elem_of_omap. exists (day p). split.
    + apply list_elem_of_In, elem_of_seqZ in Hseq. apply elem_of_seqZ. lia.
    + apply combinedPoint_forecast; assumption.
  - rewrite List.Forall_forall. intros c Hc.
    apply list_elem_of_In, list_elem_of_omap in Hc as (d & _ & Hc).
    apply combinedPoint_inv in Hc as [-> Hsome]. cbn [day value].
    destruct (List.find (fun x => day x =? d) hist) as [h|] eqn:Hh.
    + left. apply List.find_some in Hh as [Hin Hday].
      exists h. split; [assumption|]. split; [lia | reflexivity].
    + right. split; [reflexivity|].
      destruct Hsome as [[h Hx] | [p Hx]]; [discriminate|].
      apply List.find_some in Hx as [Hin Hday].
      exists p. split; [assumption | lia].
Qed.

(** X17.  An observation of the last month that passes the day-type
    filter is on the combined series, on its day and with the value
    of the first observation of that day, provided the day exists in
    the longer of the two months and the year and the month of the
    last month are not 0 - the case in which the loop would test the
    day in the forecast year or month instead. *)
Theorem chart_keeps_last_month (Math_sqrt : Q -> Q)
    (historicalMonths : list (list DailyData))
    (historicalMonthsMeta : list Meta) (filter : DayTypeFilter)
    (forecastYear forecastMonth : Z) (h : DailyData) :
  let meta := lastMonthMeta historicalMonthsMeta forecastYear forecastMonth in
  let chart := loadChart Math_sqrt historicalMonths historicalMonthsMeta
                         filter forecastYear forecastMonth in
  year meta <> 0 -> month meta <> 0 ->
  In h (historicalData chart) ->
  1 <= day h <= Z.max (getDate (new_Date (year meta) (month meta) 0))
                      (getDate (new_Date forecastYear forecastMonth 0)) ->
  exists c h',
    In c (combinedData chart) /\ day c = day h
    /\ List.find (fun x => day x =? day h) (historicalData chart) = Some h'
    /\ value c = value h'.
Proof.
  cbv zeta. unfold loadChart.
  destruct historicalMonths as [|month0 rest];
    [intros _ _ Hin; destruct Hin|].
  cbv zeta. cbn [combinedData forecastData historicalData].
  set (months := month0 :: rest).
  set (fc := calculateForecast Math_sqrt months historicalMonthsMeta filter
                               forecastYear forecastMonth).
  set (meta := lastMonthMeta historicalMonthsMeta forecastYear forecastMonth).
  set (hist := filterByDayType _ (year meta) (month meta) filter).
  intros Hy Hm Hin Hday.
  assert (Hkeep : match filter with
                  | All => true
                  | Weekend => isWeekend (year meta) (month meta) (day h)
                  | Weekday => negb (isWeekend (year meta) (month meta) (day h))
                  end = true).
  { subst hist. destruct filter; cbn in Hin; [reflexivity | |];
      now apply List.filter_In in Hin as [_ Hin]. }
  destruct (find_day_present hist h Hin) as (h' & Hfind & Hin' & Hday').
  assert (Hseq : day h ∈ seqZ 1 (Z.max (getDate (new_Date (year meta)
                                                          (month meta) 0))
                                       (getDate (new_Date forecastYear
                                                          forecastMonth 0))))
    by (apply elem_of_seqZ; lia).
  unfold combine. cbv zeta.
  destruct (List.find (fun x => day x =? day h) fc) as [p|] eqn:Hp.
  - pose proof Hp as Hp'. apply List.find_some in Hp' as [Hpin Hpday].
    assert (Hd : In (day p) (List.map day fc))
      by (apply List.in_map; assumption).
    subst fc. rewrite forecast_day_list in Hd by discriminate.
    apply List.filter_In in Hd as [_ HkeepF].
    replace (day p) with (day h) in HkeepF by lia.
    eexists. exists h'. split; [|split; [|split; [exact Hfind|]]].
    + apply list_elem_of_In, list_elem_of_omap. exists (day h).
      split; [exact Hseq|].
      apply combinedPoint_forecast with (p := p); assumption.
    + reflexivity.
    + cbn [value]. rewrite Hfind. reflexivity.
  - eexists. exists h'. split; [|split; [|split; [exact Hfind|]]].
    + apply list_elem_of_In, list_elem_of_omap. exists (day h).
      split; [exact Hseq|].
      apply combinedPoint_historical with (h := h'); assumption.
    + reflexivity.
    + reflexivity.
Qed.

Lemma chart_keeps_last_month_witness :
  exists c h',
    In c (combinedData (loadChart integer_sqrt steady_month steady_month_meta
                                  Weekday 2025 11))
    /\ day c = 1
    /\ List.find (fun x => day x =? 1)
                 (historicalData (loadChart integer_sqrt steady_month
                                            steady_month_meta Weekday 2025 11))
       = Some h'
    /\ value c = value h'.
Proof.
  apply (chart_keeps_last_month integer_sqrt steady_month steady_month_meta
           Weekday 2025 11 (observation 1 120)).
  - vm_compute. discriminate.
  - vm_compute. discriminate.
  - vm_compute. left. reflexivity.
  - vm_compute. split; discriminate.
Defined.

(** October 2025 next to the forecast of November 2025, weekdays only:
    the first three days come from October, the forecast starts on
    Monday 3 November. *)
Example chart_of_steady_month :
  List.map (fun c => (day c, value c, forecast c))
           (firstn 4 (combinedData
                        (loadChart integer_sqrt steady_month steady_month_meta
                                   Weekday 2025 11)))
  = [(1, 120, None); (2, 120, None); (3, 120, Some 120); (4, 0, Some 120)].
Proof. vm_compute. reflexivity. Qed.

End ChartCombined.

(** ** The value axis of the chart *)

Section ChartAxis.
Import JsDate JsDateFields Forecast ForecastChart ForecastScenarios.

(** [Math.max] of a list that is not empty. *)
Lemma fold_max_spec (rest : list Z) (v : Z) :
  v <= fold_left Z.max rest v
  /\ List.Forall (fun x => x <= fold_left Z.max rest v) rest
  /\ In (fold_left Z.max rest v) (v :: rest).
Proof.
  revert v. induction rest as [|x rest IH]; intros v; cbn [fold_left].
  - split; [lia|]. split; [constructor | now left].
  - destruct (IH (Z.max v x)) as (H1 & H2 & H3).
    split; [lia|]. split.
    + constructor; [lia|]. exact H2.
    + destruct H3 as [H3 | H3]; [|right; right; exact H3].
      rewrite <- H3.
      destruct (Z.max_spec v x) as [[_ ->] | [_ ->]];
        [right; left | left]; reflexivity.
Qed.

(** [Math.ceil (m / c)] times [c] is the least multiple of [c] that is
    not below [m]. *)
Lemma Qceiling_div (m : Z) (c : positive) :
  m <= Qceiling (inject_Z m / inject_Z (Zpos c)) * Zpos c < m + Zpos c.
Proof.
  unfold Qceiling, Qfloor, Qdiv, Qmult, Qinv, Qopp, inject_Z.
  cbn [Qnum Qden]. rewrite Z.mul_1_r, Pos.mul_1_l. euclid_lia.
Qed.

(** The values the axis has to hold. *)
Lemma axisMaximum_bounds (combined forecast : list DailyData) (v : Z) :
  In v (List.map value combined
        ++ List.map (fun d => default 0 (Forecast.forecast d)) forecast
        ++ List.map (fun d => default 0 (forecastMax d)) forecast) ->
  v <= axisMaximum combined forecast.
Proof.
  unfold axisMaximum. cbv zeta.
  set (vals := _ ++ _ ++ _). intros Hv.
  set (max := match vals with [] => 320 | x :: rest => fold_left Z.max rest x end).
  assert (Hmax : v <= max).
  { subst max. destruct vals as [|x rest]; [destruct Hv|].
    destruct (fold_max_spec rest x) as (H1 & H2 & _).
    destruct Hv as [<- | Hv]; [assumption|].
    rewrite List.Forall_forall in H2. now apply H2. }
  pose proof (Qceiling_div max 80) as Hc.
  change (inject_Z (Z.pos 80)) with 80%Q in Hc.
  unfold or_else.
  destruct (Z.eqb_spec (Qceiling (inject_Z max / 80) * 80) 0); lia.
Qed.

Lemma axisMaximum_multiple (combined forecast : list DailyData) :
  axisMaximum combined forecast mod 80 = 0
  /\ axisMaximum combined forecast <> 0.
Proof.
  unfold axisMaximum, or_else. cbv zeta.
  set (c := Qceiling _).
  destruct (Z.eqb_spec (c * 80) 0) as [E | E].
  - split; [reflexivity | discriminate].
  - split; [apply Z.mod_mul; discriminate | exact E].
Qed.

Lemma axisMaximum_positive (combined forecast : list DailyData) :
  List.Forall (fun d => 0 <= value d) combined ->
  List.Forall (fun d => 0 <= default 0 (Forecast.forecast d)) forecast ->
  0 < axisMaximum combined forecast.
Proof.
  intros Hc Hf.
  destruct (axisMaximum_multiple combined forecast) as [_ Hnz].
  assert (0 <= axisMaximum combined forecast); [|lia].
  destruct combined as [|c rest].
  - destruct forecast as [|p rest]; [vm_compute; discriminate|].
    apply List.Forall_inv in Hf.
    assert (default 0 (Forecast.forecast p) <= axisMaximum [] (p :: rest));
      [|lia].
    apply axisMaximum_bounds. cbn. now left.
  - apply List.Forall_inv in Hc.
    assert (value c <= axisMaximum (c :: rest) forecast); [|lia].
    apply axisMaximum_bounds. cbn. now left.
Qed.

(** X18.  The top of the value axis is a multiple of 80 other than 0
    that no observation, forecast or forecast maximum of the chart
    exceeds; it is 320, or less than 80 above one of those values. *)
Theorem axisMaximum_covers (combined forecast : list DailyData) :
  let top := axisMaximum combined forecast in
  let shown :=
    List.map value combined
    ++ List.map (fun d => default 0 (Forecast.forecast d)) forecast
    ++ List.map (fun d => default 0 (forecastMax d)) forecast in
  top mod 80 = 0 /\ top <> 0
  /\ List.Forall (fun v => v <= top) shown
  /\ (top = 320 \/ exists v, In v shown /\ top < v + 80).
Proof.
  cbv zeta.
  destruct (axisMaximum_multiple combined forecast) as [Hmod Hnz].
  split; [assumption|]. split; [assumption|]. split.
  - rewrite List.Forall_forall. intros v Hv.
    now apply axisMaximum_bounds.
  - clear Hmod Hnz. unfold axisMaximum. cbv zeta.
    set (vals := _ ++ _ ++ _).
    set (max := match vals with [] => 320 | x :: rest => fold_left Z.max rest x end).
    assert (Hmax : max = 320 \/ In max vals).
    { subst max. destruct vals as [|x rest]; [now left|].
      right. apply fold_max_spec. }
    pose proof (Qceiling_div max 80) as Hc.
    change (inject_Z (Z.pos 80)) with 80%Q in Hc.
    unfold or_else.
    destruct (Z.eqb_spec (Qceiling (inject_Z max / 80) * 80) 0) as [E | E];
      [now left|].
    destruct Hmax as [Hmax | Hmax].
    + left. rewrite Hmax in *. lia.
    + right. exists max. split; [assumption | lia].
Qed.

Example axisMaximum_of_steady_month :
  axisMaximum [observation 1 120; observation 2 330] [] = 400
  /\ axisMaximum [observation 1 0] [] = 320.
Proof. split; vm_compute; reflexivity. Qed.

(** The ticks pushed from [i] on, when the fuel is enough. *)
Lemma map_seqZ_succ {A : Type} (f : Z -> A) (m q : Z) :
  List.map f (seqZ (Z.succ m) q)
  = List.map (fun j => f (Z.succ j)) (seqZ m q).
Proof.
  replace (Z.succ m) with (1 + m) by lia.
  rewrite <- fmap_add_seqZ.
  change (Z.add 1 <$> seqZ m q) with (List.map (Z.add 1) (seqZ m q)).
  rewrite List.map_map. apply List.map_ext. intros j. f_equal. lia.
Qed.

Lemma ticksFrom_spec (fuel : nat) (i maxValue step : Z) :
  0 < step ->
  (Z.to_nat ((maxValue - i) / step + 1) <= fuel)%nat ->
  ticksFrom fuel i maxValue step
  = List.map (fun j => i + j * step) (seqZ 0 ((maxValue - i) / step + 1)).
Proof.
  intros Hstep. revert i.
  induction fuel as [|fuel IH]; intros i Hfuel.
  - rewrite seqZ_nil by lia. reflexivity.
  - cbn [ticksFrom]. destruct (Z.leb_spec i maxValue) as [Hle | Hgt].
    + assert (Hq : 0 <= (maxValue - i) / step) by (apply Z.div_pos; lia).
      assert (Hnext : (maxValue - (i + step)) / step
                      = (maxValue - i) / step - 1).
      { replace (maxValue - (i + step)) with (maxValue - i + (-1) * step)
          by lia.
        rewrite Z.div_add by lia. lia. }
      rewrite IH by (rewrite Hnext; lia).
      rewrite Hnext.
      rewrite (seqZ_cons 0 ((maxValue - i) / step + 1)) by lia.
      cbn [List.map]. f_equal; [lia|].
      rewrite map_seqZ_succ.
      replace (Z.pred ((maxValue - i) / step + 1))
        with ((maxValue - i) / step - 1 + 1) by lia.
      apply List.map_ext. intros j. lia.
    + assert ((maxValue - i) / step < 0)
        by (apply Z.div_lt_upper_bound; lia).
      rewrite seqZ_nil by lia. reflexivity.
Qed.

(** The ticks for any axis maximum: multiples of the step from 0, five
    at most, the loop ending on its own condition. *)
Lemma yAxisTicks_spec (maxValue : Z) :
  let step := Z.max 80 (Qceiling (inject_Z maxValue / 4)) in
  let count := maxValue / step + 1 in
  yAxisTicks maxValue = List.map (fun j => j * step) (seqZ 0 count)
  /\ count <= 5 /\ 80 <= step /\ maxValue <= 4 * step.
Proof.
  cbv zeta. unfold yAxisTicks. cbv zeta.
  pose proof (Qceiling_div maxValue 4) as Hc.
  change (inject_Z (Z.pos 4)) with 4%Q in Hc.
  set (step := Z.max 80 (Qceiling (inject_Z maxValue / 4))) in *.
  assert (Hstep : 80 <= step) by (subst step; lia).
  assert (Hfour : maxValue <= 4 * step) by (subst step; lia).
  assert (Hcount : maxValue / step <= 4)
    by (apply Z.div_le_upper_bound; lia).
  split; [|repeat split; lia].
  rewrite ticksFrom_spec.
  - rewrite Z.sub_0_r. apply List.map_ext. intros j. lia.
  - lia.
  - rewrite Z.sub_0_r.
    destruct (Z.lt_ge_cases maxValue 0) as [Hneg | Hpos].
    + assert (maxValue / step < 0) by (apply Z.div_lt_upper_bound; lia).
      lia.
    + assert (maxValue / step <= maxValue)
        by (apply Z.div_le_upper_bound; nia).
      lia.
Qed.

(** The last tick of a maximum that is a positive multiple of 80. *)
Lemma yAxisTicks_top (maxValue : Z) :
  0 < maxValue -> maxValue mod 80 = 0 ->
  let step := Z.max 80 (Qceiling (inject_Z maxValue / 4)) in
  1 <= maxValue / step /\ maxValue / step * step = maxValue.
Proof.
  intros Hpos Hmod. cbv zeta.
  pose proof (Qceiling_div maxValue 4) as Hc.
  change (inject_Z (Z.pos 4)) with 4%Q in Hc.
  set (c := Qceiling (inject_Z maxValue / 4)) in *.
  destruct (Z.max_spec 80 c) as [[Hlt ->] | [Hge ->]].
  - assert (E : maxValue = 4 * c) by euclid_lia.
    replace (maxValue / c) with 4; [lia|].
    apply Z.div_unique_exact; lia.
  - euclid_lia.
Qed.

(** X19.  For an axis maximum that is a positive multiple of 80, the
    ticks start at 0, are evenly spaced by 80 or by a quarter of the
    maximum, whichever is larger, count two to five and end on the
    maximum itself. *)
Theorem yAxisTicks_reach_top (maxValue : Z) :
  0 < maxValue -> maxValue mod 80 = 0 ->
  let step := Z.max 80 (Qceiling (inject_Z maxValue / 4)) in
  let count := maxValue / step + 1 in
  yAxisTicks maxValue = List.map (fun j => j * step) (seqZ 0 count)
  /\ 2 <= count <= 5
  /\ (count - 1) * step = maxValue
  /\ last (yAxisTicks maxValue) = Some maxValue.
Proof.
  intros Hpos Hmod. cbv zeta.
  destruct (yAxisTicks_spec maxValue) as (Hticks & Hfive & Hstep & _).
  destruct (yAxisTicks_top maxValue Hpos Hmod) as [Hone Htop].
  cbv zeta in *.
  set (step := Z.max 80 (Qceiling (inject_Z maxValue / 4))) in *.
  split; [assumption|]. split; [lia|]. split; [lia|].
  rewrite Hticks.
  replace (maxValue / step + 1) with (Z.of_nat (S (Z.to_nat (maxValue / step))))
    by lia.
  rewrite seqZ_S, List.map_app. cbn [List.map]. rewrite last_snoc.
  f_equal. lia.
Qed.

Lemma yAxisTicks_reach_top_witness :
  yAxisTicks 400 = [0; 100; 200; 300; 400]
  /\ last (yAxisTicks 400) = Some 400.
Proof.
  destruct (yAxisTicks_reach_top 400) as (Hticks & _ & _ & Hlast);
    [lia | reflexivity |].
  split; [|exact Hlast].
  rewrite Hticks. vm_compute. reflexivity.
Defined.

Example yAxisTicks_of_320 : yAxisTicks 320 = [0; 80; 160; 240; 320].
Proof. vm_compute. reflexivity. Qed.

(** Every point of a forecast carries numbers that are not negative. *)
Lemma forecast_point_nonneg (Math_sqrt : Q -> Q)
    (historical : list (list DailyData)) (historicalMeta : list Meta)
    (filter : DayTypeFilter) (targetYear targetMonth : Z) (p : DailyData) :
  In p (calculateForecast Math_sqrt historical historicalMeta filter
                          targetYear targetMonth) ->
  0 <= default 0 (forecast p) /\ 0 <= default 0 (forecastMax p).
Proof.
  unfold calculateForecast. destruct historical as [|month0 rest];
    [intros []|].
  cbv zeta. intros Hp.
  apply list_elem_of_In, list_elem_of_omap in Hp as (d & _ & Hp).
  destruct filter;
    destruct ((getDay (new_Date targetYear (targetMonth - 1) d) =? 0)
              || (getDay (new_Date targetYear (targetMonth - 1) d) =? 6));
    try discriminate; injection Hp as <-;
    cbn [forecast forecastMax default from_option id];
    split; apply Z.le_max_l.
Qed.

(** The fields of a point of the combined series, by the day it was
    pushed for. *)
Lemma combine_fields (hist fc : list DailyData) (meta : Meta)
    (filter : DayTypeFilter) (fy fm : Z) (c : DailyData) :
  In c (combine hist fc meta filter fy fm) ->
  exists d,
    value c = default 0 (value <$> List.find (fun x => day x =? d) hist)
    /\ forecast c = List.find (fun x => day x =? d) fc ≫= forecast
    /\ forecastMax c = List.find (fun x => day x =? d) fc ≫= forecastMax.
Proof.
  unfold combine. cbv zeta. intros Hc.
  apply list_elem_of_In, list_elem_of_omap in Hc as (d & _ & Hc).
  apply combinedPoint_inv in Hc as [-> _]. exists d.
  repeat split; reflexivity.
Qed.

(** X20.  When no observation of the history is negative, the chart
    is loaded with a positive axis maximum, a multiple of 80, that no
    value, forecast or forecast maximum of the combined series
    exceeds; the ticks of the axis are five at most and run from 0 to
    that maximum. *)
Theorem chart_axis_fits (Math_sqrt : Q -> Q)
    (historicalMonths : list (list DailyData))
    (historicalMonthsMeta : list Meta) (filter : DayTypeFilter)
    (forecastYear forecastMonth : Z) :
  List.Forall (List.Forall (fun d => 0 <= value d)) historicalMonths ->
  let chart := loadChart Math_sqrt historicalMonths historicalMonthsMeta
                         filter forecastYear forecastMonth in
  let top := maxValue chart in
  0 < top /\ top mod 80 = 0
  /\ List.Forall
       (fun c => 0 <= value c <= top
                 /\ 0 <= default 0 (forecast c) <= top
                 /\ 0 <= default 0 (forecastMax c) <= top)
       (combinedData chart)
  /\ head (yAxisTicks top) = Some 0
  /\ last (yAxisTicks top) = Some top
  /\ (length (yAxisTicks top) <= 5)%nat.
Proof.
  intros Hnonneg. cbv zeta.
  assert (Hticks : forall top, 0 < top -> top mod 80 = 0 ->
            head (yAxisTicks top) = Some 0
            /\ last (yAxisTicks top) = Some top
            /\ (length (yAxisTicks top) <= 5)%nat).
  { intros top Hpos Hmod.
    destruct (yAxisTicks_spec top) as (Hticks & Hfive & Hstep & _).
    destruct (yAxisTicks_top top Hpos Hmod) as [Hone Htop].
    cbv zeta in *.
    set (step := Z.max 80 (Qceiling (inject_Z top / 4))) in *.
    rewrite Hticks. split; [|split].
    - rewrite seqZ_cons by lia. reflexivity.
    - replace (top / step + 1) with (Z.of_nat (S (Z.to_nat (top / step))))
        by lia.
      rewrite seqZ_S, List.map_app. cbn [List.map]. rewrite last_snoc.
      f_equal. lia.
    - rewrite length_map, length_seqZ. lia. }
  unfold loadChart.
  destruct historicalMonths as [|month0 rest].
  { cbn [maxValue combinedData]. split; [lia|]. split; [reflexivity|].
    split; [constructor|]. apply Hticks; [lia | reflexivity]. }
  cbv zeta. cbn [combinedData maxValue].
  set (months := month0 :: rest) in *.
  set (fc := calculateForecast Math_sqrt months historicalMonthsMeta filter
                               forecastYear forecastMonth).
  set (meta := lastMonthMeta historicalMonthsMeta forecastYear forecastMonth).
  set (hist := filterByDayType _ (year meta) (month meta) filter).
  set (combined := combine hist fc meta filter forecastYear forecastMonth).
  destruct (axisMaximum_multiple combined fc) as [Hmod _].
  assert (Hhist : List.Forall (fun d => 0 <= value d) hist).
  { assert (Hlast : List.Forall (fun d => 0 <= value d)
                                (default [] (last months))).
    { destruct (last months) as [lastMonth|] eqn:E; [|constructor].
      cbn [default]. rewrite List.Forall_forall in Hnonneg.
      apply Hnonneg. apply list_elem_of_In, last_Some_elem_of, E. }
    subst hist. rewrite List.Forall_forall in Hlast |- *.
    intros d Hd. apply Hlast.
    destruct filter; cbn in Hd; [assumption | |];
      now apply List.filter_In in Hd as [Hd _]. }
  assert (Hinv : forall c, In c combined ->
            exists d,
              value c = default 0 (value <$> List.find
                                               (fun x => day x =? d) hist)
              /\ forecast c = List.find (fun x => day x =? d) fc ≫= forecast
              /\ forecastMax c
                 = List.find (fun x => day x =? d) fc ≫= forecastMax).
  { intros c Hc. exact (combine_fields _ _ _ _ _ _ _ Hc). }
  assert (Hvalues : List.Forall (fun d => 0 <= value d) combined).
  { rewrite List.Forall_forall. intros c Hc.
    destruct (Hinv c Hc) as (d & -> & _).
    destruct (List.find (fun x => day x =? d) hist) as [h|] eqn:Hh;
      [|change (0 <= 0); lia].
    apply List.find_some in Hh as [Hin _].
    rewrite List.Forall_forall in Hhist.
    change (0 <= value h). apply Hhist. exact Hin. }
  assert (Hforecasts : List.Forall (fun d => 0 <= default 0 (forecast d)) fc).
  { rewrite List.Forall_forall. intros p Hp.
    exact (proj1 (forecast_point_nonneg _ _ _ _ _ _ _ Hp)). }
  pose proof (axisMaximum_positive combined fc Hvalues Hforecasts) as Hpos.
  split; [assumption|]. split; [assumption|].
  split; [|apply Hticks; assumption].
  rewrite List.Forall_forall. intros c Hc. split.
  - rewrite List.Forall_forall in Hvalues.
    split; [apply Hvalues; exact Hc|].
    apply axisMaximum_bounds, List.in_or_app. left.
    apply List.in_map. exact Hc.
  - destruct (Hinv c Hc) as (d & _ & -> & ->).
    destruct (List.find (fun x => day x =? d) fc) as [p|] eqn:Hp;
      [|cbn [mbind option_bind default from_option id]; lia].
    apply List.find_some in Hp as [Hin _]. cbn [mbind option_bind].
    destruct (forecast_point_nonneg _ _ _ _ _ _ _ Hin) as [H1 H2].
    split; (split; [assumption|]);
      apply axisMaximum_bounds, List.in_or_app; right;
      apply List.in_or_app; [left | right];
      [exact (List.in_map (fun d => default 0 (forecast d)) _ _ Hin)
      |exact (List.in_map (fun d => default 0 (forecastMax d)) _ _ Hin)].
Qed.

Lemma chart_axis_fits_witness :
  let chart := loadChart integer_sqrt steady_month steady_month_meta
                         Weekday 2025 11 in
  0 < maxValue chart
  /\ last (yAxisTicks (maxValue chart)) = Some (maxValue chart).
Proof.
  destruct (chart_axis_fits integer_sqrt steady_month steady_month_meta
              Weekday 2025 11) as (Hpos & _ & _ & _ & Hlast & _).
  - repeat (apply List.Forall_cons || apply List.Forall_nil); cbn; lia.
  - cbv zeta. split; assumption.
Defined.

End ChartAxis.

(** ** The forecast summary of the chart *)

Section ChartSummary.
Import JsDate JsDateFields Forecast ForecastChart ForecastScenarios.

(** The reduction of the peak day, from any point of the list on. *)
Lemma peak_index_fold (l seen rest : list DailyData) (best : nat) :
  l = seen ++ rest ->
  (best < length l)%nat ->
  (forall j, (j < length seen)%nat ->
             default 0 (l !! j ≫= forecast)
             <= default 0 (l !! best ≫= forecast)) ->
  (forall j, (j < best)%nat ->
             default 0 (l !! j ≫= forecast)
             < default 0 (l !! best ≫= forecast)) ->
  let peak :=
    reduce_indexed
      (fun max d idx =>
         if default 0 (l !! max ≫= forecast) <? default 0 (forecast d)
         then idx else max)
      (length seen) rest best in
  (peak < length l)%nat
  /\ (forall j, (j < length l)%nat ->
                default 0 (l !! j ≫= forecast)
                <= default 0 (l !! peak ≫= forecast))
  /\ (forall j, (j < peak)%nat ->
                default 0 (l !! j ≫= forecast)
                < default 0 (l !! peak ≫= forecast)).
Proof.
  revert seen best. induction rest as [|d rest IH];
    intros seen best Hl Hbest Hseen Hfirst; cbv zeta; cbn [reduce_indexed].
  - rewrite app_nil_r in Hl. subst seen. auto.
  - assert (Hd : l !! length seen = Some d)
      by (rewrite Hl; apply list_lookup_middle; reflexivity).
    assert (Hlen : (length seen < length l)%nat)
      by (rewrite Hl, length_app; cbn; lia).
    assert (Hl' : l = (seen ++ [d]) ++ rest)
      by (rewrite <- app_assoc; exact Hl).
    assert (Hlen' : length (seen ++ [d]) = S (length seen))
      by (rewrite length_app; cbn; lia).
    assert (Hshown : default 0 (forecast d)
                     = default 0 (l !! length seen ≫= forecast))
      by now rewrite Hd.
    rewrite Hshown.
    specialize (IH (seen ++ [d])). rewrite Hlen' in IH.
    destruct (Z.ltb_spec (default 0 (l !! best ≫= forecast))
                         (default 0 (l !! length seen ≫= forecast)))
      as [Hlt | Hge]; apply IH; try assumption.
    + intros j Hj. destruct (Nat.eq_dec j (length seen)) as [-> | Hne];
        [lia|]. specialize (Hseen j). lia.
    + intros j Hj. destruct (Nat.lt_ge_cases j (length seen)) as [Hjs | Hjs].
      * specialize (Hseen j Hjs). lia.
      * lia.
    + intros j Hj. destruct (Nat.eq_dec j (length seen)) as [-> | Hne];
        [lia|]. apply Hseen. lia.
Qed.

(** The index kept by the reduction over the whole list. *)
Lemma peakIndex_spec (forecastData : list DailyData) :
  forecastData <> [] ->
  (peakIndex forecastData < length forecastData)%nat
  /\ (forall j, (j < length forecastData)%nat ->
                default 0 (forecastData !! j ≫= forecast)
                <= default 0 (forecastData !! peakIndex forecastData
                              ≫= forecast))
  /\ (forall j, (j < peakIndex forecastData)%nat ->
                default 0 (forecastData !! j ≫= forecast)
                < default 0 (forecastData !! peakIndex forecastData
                             ≫= forecast)).
Proof.
  intros Hne.
  assert (Hlen : (0 < length forecastData)%nat)
    by (destruct forecastData; [contradiction | cbn; lia]).
  apply (peak_index_fold forecastData [] forecastData 0%nat eq_refl Hlen);
    cbn; lia.
Qed.

(** X21.  The peak day of the summary is the position, counted from 1,
    of the first point whose forecast is the largest: no point of the
    forecast is above it and every point before it is strictly
    below. *)
Theorem peakDayLabel_first_maximum (forecastData : list DailyData) :
  forecastData <> [] ->
  let shown i := default 0 (forecastData !! i ≫= forecast) in
  let peak := peakIndex forecastData in
  peakDayLabel forecastData = Z.of_nat peak + 1
  /\ 1 <= peakDayLabel forecastData <= Z.of_nat (length forecastData)
  /\ (forall j, (j < length forecastData)%nat -> shown j <= shown peak)
  /\ (forall j, (j < peak)%nat -> shown j < shown peak).
Proof.
  intros Hne. cbv zeta.
  destruct (peakIndex_spec forecastData Hne) as (Hpeak & Hmax & Hfirst).
  unfold peakDayLabel.
  split; [reflexivity|]. split; [lia|]. split; assumption.
Qed.

(** Forecasts of 5, 9 and 9: the card prints day 2. *)
Lemma peakDayLabel_first_maximum_witness :
  let point d f := {| day := d; value := 0; forecast := Some f;
                      forecastMin := Some f; forecastMax := Some f |} in
  peakDayLabel [point 1 5; point 2 9; point 3 9] = 2.
Proof.
  cbv zeta.
  destruct (peakDayLabel_first_maximum
              [{| day := 1; value := 0; forecast := Some 5;
                  forecastMin := Some 5; forecastMax := Some 5 |};
               {| day := 2; value := 0; forecast := Some 9;
                  forecastMin := Some 9; forecastMax := Some 9 |};
               {| day := 3; value := 0; forecast := Some 9;
                  forecastMin := Some 9; forecastMax := Some 9 |}])
    as (Hlabel & _); [discriminate|].
  rewrite Hlabel. vm_compute. reflexivity.
Defined.

(** The summary's total as a sum of the forecasts. *)
Lemma totalForecasted_sum (forecastData : list DailyData) (acc : Z) :
  fold_left (fun sum d => sum + default 0 (forecast d)) forecastData acc
  = fold_left Z.add
      (List.map (fun d => default 0 (forecast d)) forecastData) acc.
Proof.
  revert acc. induction forecastData as [|d l IH]; intros acc;
    [reflexivity|].
  cbn [fold_left List.map]. apply IH.
Qed.

Lemma dailyAverage_mean (forecastData : list DailyData) :
  forecastData <> [] ->
  dailyAverage forecastData
  = TerminalForecast.dayForecast
      (List.map (fun d => default 0 (forecast d)) forecastData).
Proof.
  intros Hne. unfold dailyAverage, TerminalForecast.dayForecast,
    totalForecasted, len.
  rewrite totalForecasted_sum, length_map.
  destruct forecastData; [contradiction | reflexivity].
Qed.

(** X22.  When every point of a forecast that is not empty carries a
    forecast between two bounds, the total of the summary lies between
    the bounds times the number of points and the daily average
    between the bounds themselves. *)
Theorem summary_average_within_forecasts (forecastData : list DailyData)
    (lo hi : Z) :
  forecastData <> [] ->
  List.Forall (fun d => lo <= default 0 (forecast d) <= hi) forecastData ->
  lo * Z.of_nat (length forecastData)
  <= totalForecasted forecastData
  <= hi * Z.of_nat (length forecastData)
  /\ lo <= dailyAverage forecastData <= hi.
Proof.
  intros Hne Hall.
  assert (Hmap : List.Forall (fun v => lo <= v <= hi)
                   (List.map (fun d => default 0 (forecast d)) forecastData))
    by now apply List.Forall_map.
  split.
  - unfold totalForecasted. rewrite totalForecasted_sum.
    pose proof (fold_add_bounds _ lo hi 0 Hmap) as H.
    rewrite length_map in H. lia.
  - rewrite dailyAverage_mean by assumption.
    apply dayForecast_bounds; [|assumption].
    destruct forecastData; [contradiction | discriminate].
Qed.

Lemma summary_average_within_forecasts_witness :
  120 <= dailyAverage (calculateForecast integer_sqrt steady_month
                         steady_month_meta Weekday 2025 11)
      <= 120.
Proof.
  destruct (summary_average_within_forecasts
              (calculateForecast integer_sqrt steady_month steady_month_meta
                                 Weekday 2025 11) 120 120) as [_ H].
  - vm_compute. discriminate.
  - vm_compute. repeat constructor; discriminate.
  - exact H.
Defined.




(** With a day-type filter the label is still a position: the first
    weekend day of October 2025 is Saturday the 4th, and the card
    prints day 1 when it carries the peak. *)
Example peakDayLabel_under_weekend_filter :
  let forecastData := calculateForecast integer_sqrt steady_month
                        steady_month_meta Weekend 2025 10 in
  peakDayLabel forecastData = 1
  /\ List.map day (firstn 2 forecastData) = [4; 5].
Proof. vm_compute. split; reflexivity. Qed.

End ChartSummary.

(** ** The fleet summary: the average next to the peak *)

Section SummaryAverage.
Import JsNum Fleet Scenarios FleetSummary.

(** The trucks of all days are at most as many as the days times a
    bound of the trucks of each day. *)
Lemma totals_below (rc lc : Z) (reqs : list FleetRequirement) (c : Z) :
  List.Forall (fun r => exists aR aL R L, integer_view rc lc r aR aL R L)
              reqs ->
  List.Forall (fun r => intValue (shownTotalTrucks r) <= c) reqs ->
  exists TR TL : Z,
    totalRegularTrucks reqs = Int TR
    /\ totalLargeTrucks reqs = Int TL
    /\ TR + TL <= c * Z.of_nat (length reqs).
Proof.
  unfold totalRegularTrucks, totalLargeTrucks.
  induction reqs as [|r reqs IH] using rev_ind; intros Hall Hc.
  - exists 0, 0. cbn. repeat split; lia.
  - apply List.Forall_app in Hall as [Hreqs Hr].
    apply List.Forall_app in Hc as [Hcs Hcr].
    apply List.Forall_inv in Hr as (aR & aL & R & L & Hv).
    apply List.Forall_inv in Hcr.
    destruct (IH Hreqs Hcs) as (TR & TL & ER & EL & Hle).
    rewrite !fold_left_app. cbn [fold_left].
    rewrite ER, EL.
    rewrite (view_regular _ _ _ _ _ _ _ Hv), (view_large _ _ _ _ _ _ _ Hv),
            !js_add_Int.
    rewrite (shownTotalTrucks_view _ _ _ _ _ _ _ Hv), intValue_Int in Hcr.
    eexists _, _. split; [reflexivity|]. split; [reflexivity|].
    rewrite length_app. cbn [length]. lia.
Qed.

(** X24.  With positive capacities, forecasts that are not negative
    and one day at least, the total of the trucks is an integer, the
    average per day is that total divided by the number of days, and
    it does not exceed the trucks of the peak day. *)
Theorem average_trucks_below_peak (s : FleetState) :
  0 < regularTruckCapacity s -> 0 < largeTruckCapacityMax s ->
  List.Forall (fun d => 0 <= default 0 (forecast d)) (dataToProcess s) ->
  dataToProcess s <> [] ->
  let reqs := calculateFleetRequirements s in
  exists (T : Z) (peak : FleetRequirement),
    totalTrucks reqs = Int T
    /\ averageDailyTrucks reqs
       = Fin (inject_Z T / inject_Z (Z.of_nat (length reqs)))
    /\ peakDay reqs = Some peak
    /\ (inject_Z T / inject_Z (Z.of_nat (length reqs))
        <= inject_Z (intValue (shownTotalTrucks peak)))%Q.
Proof.
  intros Hrc Hlc Hall Hne reqs.
  pose proof (calculateFleetRequirements_views s Hrc Hlc Hall) as Hviews.
  fold reqs in Hviews.
  assert (Hint : List.Forall
                   (fun r => shownTotalTrucks r
                             = Int (intValue (shownTotalTrucks r))) reqs).
  { eapply List.Forall_impl; [|exact Hviews].
    intros r (aR & aL & R & L & Hv).
    rewrite (shownTotalTrucks_view _ _ _ _ _ _ _ Hv), intValue_Int.
    reflexivity. }
  assert (Hlen : (0 < length reqs)%nat).
  { subst reqs. unfold calculateFleetRequirements. rewrite length_map.
    destruct (dataToProcess s); [contradiction | cbn; lia]. }
  destruct reqs as [|first rest] eqn:E; [cbn in Hlen; lia|].
  destruct (peak_fold rest [first] first Hint)
    as (before & after & H1 & H2 & H3).
  { exists [], []. split; [reflexivity|]. split; constructor. }
  set (peak := fold_left
                 (fun max r =>
                    if js_gt (shownTotalTrucks r) (shownTotalTrucks max)
                    then r else max) rest first) in *.
  assert (Hpeak : peakDay (first :: rest) = Some peak).
  { unfold peakDay. cbn [fold_left].
    assert (Hfirst : shownTotalTrucks first
                     = Int (intValue (shownTotalTrucks first)))
      by (apply List.Forall_inv in Hint; exact Hint).
    rewrite Hfirst, js_gt_Int, Z.ltb_irrefl. reflexivity. }
  assert (Hbound : List.Forall
                     (fun r => intValue (shownTotalTrucks r)
                               <= intValue (shownTotalTrucks peak))
                     (first :: rest)).
  { change (first :: rest) with ([first] ++ rest). rewrite H1.
    apply List.Forall_app. split.
    - eapply List.Forall_impl; [|exact H2]. cbv beta. intros; lia.
    - constructor; [lia | exact H3]. }
  destruct (totals_below _ _ _ _ Hviews Hbound)
    as (TR & TL & ER & EL & Hle).
  exists (TR + TL), peak.
  assert (Hn : (0 < inject_Z (Z.of_nat (length (first :: rest))))%Q)
    by (change 0%Q with (inject_Z 0); rewrite <- Zlt_Qlt; lia).
  split; [unfold totalTrucks; now rewrite ER, EL, js_add_Int|].
  split; [|split; [exact Hpeak|]].
  - unfold averageDailyTrucks, totalTrucks.
    rewrite ER, EL, js_add_Int.
    destruct (Nat.ltb_spec 0 (length (first :: rest))) as [_ | Hno];
      [|lia].
    apply js_div_Int. lia.
  - apply Qle_shift_div_r; [exact Hn|].
    rewrite <- inject_Z_mult, <- Zle_Qle. exact Hle.
Qed.

(** Three days with one, two and two trucks: five trucks, a peak of
    two. *)
Lemma average_trucks_below_peak_witness :
  let reqs := calculateFleetRequirements
                (default_state [forecast_day 1 2000; forecast_day 2 3000;
                                forecast_day 3 4400] Cost true ∅) in
  exists (T : Z) (peak : FleetRequirement),
    totalTrucks reqs = Int T
    /\ averageDailyTrucks reqs
       = Fin (inject_Z T / inject_Z (Z.of_nat (length reqs)))
    /\ peakDay reqs = Some peak
    /\ (inject_Z T / inject_Z (Z.of_nat (length reqs))
        <= inject_Z (intValue (shownTotalTrucks peak)))%Q.
Proof.
  apply (average_trucks_below_peak
           (default_state [forecast_day 1 2000; forecast_day 2 3000;
                           forecast_day 3 4400] Cost true ∅));
    [simpl; lia | simpl; lia | repeat constructor; simpl; lia
    | discriminate].
Defined.

Example average_of_three_days :
  averageDailyTrucks
    (calculateFleetRequirements
       (default_state [forecast_day 1 2000; forecast_day 2 3000;
                       forecast_day 3 4400] Cost true ∅))
  = Fin (5 # 3).
Proof. vm_compute. reflexivity. Qed.

End SummaryAverage.
